(** * Banana Brain Blitz: session router and game round loop

  A shallow embedding of the two React components that carry the
  client's state: the top-level [Index] router and the [GamePage]
  round loop.  React state variables become record fields, an event
  handler becomes a function from the state of the render in which it
  was invoked to the next state together with the list of outward
  effects it performs (toasts, helper calls, scheduled callbacks), and
  the value an awaited remote call resolves to is an argument of the
  handler.  JavaScript numbers that hold counts are integers ([Z]). *)

From Stdlib Require Import Ascii.
From stdpp Require Import gmap strings pretty.

Local Open Scope string_scope.
Local Open Scope Z_scope.

(** ** Persisted storage ([localStorage]) *)

Module Storage.

(** [localStorage.getItem] returns [string | null]. *)
Definition getItem (ls : gmap string string) (key : string) : option string :=
  ls !! key.

Definition setItem (ls : gmap string string) (key value : string)
  : gmap string string :=
  <[key := value]> ls.

Definition removeItem (ls : gmap string string) (key : string)
  : gmap string string :=
  delete key ls.

(** JavaScript truthiness of a [string | null]: [null] and the empty
    string are falsy. *)
Definition truthy (v : option string) : bool :=
  match v with
  | Some s => negb (String.eqb s "")
  | None => false
  end.

(** Modelled from the spec: [clearStoredSession] is defined in
    [@/lib/auth], outside the two components embedded here.  The spec has
    logout clear the persisted credentials and, for the router, remove the
    persisted username and credential keys. *)
Definition clearStoredSession (ls : gmap string string) : gmap string string :=
  removeItem (removeItem (removeItem ls "accessToken") "refreshToken")
             "banana-user".

End Storage.

(** ** The session router ([Index]) *)

Module Index.

Inductive ViewState : Set :=
| landing | auth | playing | leaderboard | contact | ratings | reviews.

Inductive AuthTab : Set := login | register.

Record State : Set := mkState {
  view : ViewState;
  authTab : AuthTab;
  username : string;
  finalScore : Z
}.

Definition setView (v : ViewState) (s : State) : State :=
  mkState v (authTab s) (username s) (finalScore s).
Definition setAuthTab (t : AuthTab) (s : State) : State :=
  mkState (view s) t (username s) (finalScore s).
Definition setUsername (u : string) (s : State) : State :=
  mkState (view s) (authTab s) u (finalScore s).
Definition setFinalScore (n : Z) (s : State) : State :=
  mkState (view s) (authTab s) (username s) n.

(** The four [useState] initial values. *)
Definition initial : State := mkState landing login "" 0.

(** The startup [useEffect] (dependency list [[]]: runs once, on mount). *)
Definition mountEffect (ls : gmap string string) (s : State) : State :=
  let storedUser := Storage.getItem ls "banana-user" in
  let accessToken := Storage.getItem ls "accessToken" in
  let refreshToken := Storage.getItem ls "refreshToken" in
  match storedUser with
  | Some u =>
      if Storage.truthy storedUser then
        let s1 := setUsername u s in
        if Storage.truthy accessToken || Storage.truthy refreshToken
        then setView playing s1
        else s1
      else s
  | None => s
  end.

Definition mount (ls : gmap string string) : State := mountEffect ls initial.

Definition handleLogin (user : string) (a : State * gmap string string)
  : State * gmap string string :=
  (setView playing (setUsername user (fst a)),
   Storage.setItem (snd a) "banana-user" user).

Definition handleLogout (a : State * gmap string string)
  : State * gmap string string :=
  (setView landing (setUsername "" (fst a)),
   Storage.clearStoredSession (snd a)).

Definition handleGameComplete (score : Z) (s : State) : State :=
  setView leaderboard (setFinalScore score s).

Definition handlePlayAgain (s : State) : State := setView playing s.

Definition handleSelectAuth (mode : AuthTab) (s : State) : State :=
  setView auth (setAuthTab mode s).

(** What the spec calls "holding" a value: the key is present with a
    non-empty string, which is what the code's truthiness tests see. *)
Definition holds (ls : gmap string string) (key : string) : Prop :=
  exists v, Storage.getItem ls key = Some v /\ v <> "".

End Index.

(** ** The game round loop ([GamePage]) *)

Module GamePage.

Record BananaPuzzle : Set := mkPuzzle { question : string; solution : string }.

Record PowerUps : Set := mkPowerUps { hint : Z; freeze : Z; superBanana : Z }.

Inductive Difficulty : Set := easy | medium | hard.

(** The string literals ['hint' | 'freeze' | 'superBanana']. *)
Inductive PowerUpType : Set := puHint | puFreeze | puSuperBanana.

#[global] Instance PowerUpType_eq_dec : EqDecision PowerUpType.
Proof. solve_decision. Defined.

(** The string literals ["logout" | "logout-all"]. *)
Inductive LogoutEndpoint : Set := epLogout | epLogoutAll.

(** The [useState] variables of the component that its handlers read or
    write.  The particle arrays and background decorations (random
    coordinates), the achievement list, the daily challenge and the shop
    and statistics dialog flags play no part in the handlers below and are
    left out.  [timerArmed] is not a React state variable: it records
    whether the [setInterval] registered by the last run of the timer
    effect is still installed. *)
Record State : Set := mkState {
  puzzle : option BananaPuzzle;
  userAnswer : string;
  score : Z;
  streak : Z;
  timeLeft : Z;
  loading : bool;
  showImageModal : bool;
  showCelebration : bool;
  showFailure : bool;
  coins : Z;
  powerUps : PowerUps;
  puzzleStartTime : Z;
  isTimerFrozen : bool;
  level : Z;
  xp : Z;
  xpNeeded : Z;
  difficulty : Difficulty;
  combo : Z;
  hintsUsedThisPuzzle : Z;
  doublePointsActive : bool;
  isLoggingOut : bool;
  timerArmed : bool
}.

Definition setPuzzle (v : option BananaPuzzle) (s : State) : State :=
  mkState v (userAnswer s) (score s) (streak s) (timeLeft s) (loading s)
    (showImageModal s) (showCelebration s) (showFailure s) (coins s)
    (powerUps s) (puzzleStartTime s) (isTimerFrozen s) (level s) (xp s)
    (xpNeeded s) (difficulty s) (combo s) (hintsUsedThisPuzzle s)
    (doublePointsActive s) (isLoggingOut s) (timerArmed s).
Definition setUserAnswer (v : string) (s : State) : State :=
  mkState (puzzle s) v (score s) (streak s) (timeLeft s) (loading s)
    (showImageModal s) (showCelebration s) (showFailure s) (coins s)
    (powerUps s) (puzzleStartTime s) (isTimerFrozen s) (level s) (xp s)
    (xpNeeded s) (difficulty s) (combo s) (hintsUsedThisPuzzle s)
    (doublePointsActive s) (isLoggingOut s) (timerArmed s).
Definition setScore (v : Z) (s : State) : State :=
  mkState (puzzle s) (userAnswer s) v (streak s) (timeLeft s) (loading s)
    (showImageModal s) (showCelebration s) (showFailure s) (coins s)
    (powerUps s) (puzzleStartTime s) (isTimerFrozen s) (level s) (xp s)
    (xpNeeded s) (difficulty s) (combo s) (hintsUsedThisPuzzle s)
    (doublePointsActive s) (isLoggingOut s) (timerArmed s).
Definition setStreak (v : Z) (s : State) : State :=
  mkState (puzzle s) (userAnswer s) (score s) v (timeLeft s) (loading s)
    (showImageModal s) (showCelebration s) (showFailure s) (coins s)
    (powerUps s) (puzzleStartTime s) (isTimerFrozen s) (level s) (xp s)
    (xpNeeded s) (difficulty s) (combo s) (hintsUsedThisPuzzle s)
    (doublePointsActive s) (isLoggingOut s) (timerArmed s).
Definition setTimeLeft (v : Z) (s : State) : State :=
  mkState (puzzle s) (userAnswer s) (score s) (streak s) v (loading s)
    (showImageModal s) (showCelebration s) (showFailure s) (coins s)
    (powerUps s) (puzzleStartTime s) (isTimerFrozen s) (level s) (xp s)
    (xpNeeded s) (difficulty s) (combo s) (hintsUsedThisPuzzle s)
    (doublePointsActive s) (isLoggingOut s) (timerArmed s).
Definition setLoading (v : bool) (s : State) : State :=
  mkState (puzzle s) (userAnswer s) (score s) (streak s) (timeLeft s) v
    (showImageModal s) (showCelebration s) (showFailure s) (coins s)
    (powerUps s) (puzzleStartTime s) (isTimerFrozen s) (level s) (xp s)
    (xpNeeded s) (difficulty s) (combo s) (hintsUsedThisPuzzle s)
    (doublePointsActive s) (isLoggingOut s) (timerArmed s).
Definition setShowImageModal (v : bool) (s : State) : State :=
  mkState (puzzle s) (userAnswer s) (score s) (streak s) (timeLeft s)
    (loading s) v (showCelebration s) (showFailure s) (coins s)
    (powerUps s) (puzzleStartTime s) (isTimerFrozen s) (level s) (xp s)
    (xpNeeded s) (difficulty s) (combo s) (hintsUsedThisPuzzle s)
    (doublePointsActive s) (isLoggingOut s) (timerArmed s).
Definition setShowCelebration (v : bool) (s : State) : State :=
  mkState (puzzle s) (userAnswer s) (score s) (streak s) (timeLeft s)
    (loading s) (showImageModal s) v (showFailure s) (coins s)
    (powerUps s) (puzzleStartTime s) (isTimerFrozen s) (level s) (xp s)
    (xpNeeded s) (difficulty s) (combo s) (hintsUsedThisPuzzle s)
    (doublePointsActive s) (isLoggingOut s) (timerArmed s).
Definition setShowFailure (v : bool) (s : State) : State :=
  mkState (puzzle s) (userAnswer s) (score s) (streak s) (timeLeft s)
    (loading s) (showImageModal s) (showCelebration s) v (coins s)
    (powerUps s) (puzzleStartTime s) (isTimerFrozen s) (level s) (xp s)
    (xpNeeded s) (difficulty s) (combo s) (hintsUsedThisPuzzle s)
    (doublePointsActive s) (isLoggingOut s) (timerArmed s).
Definition setCoins (v : Z) (s : State) : State :=
  mkState (puzzle s) (userAnswer s) (score s) (streak s) (timeLeft s)
    (loading s) (showImageModal s) (showCelebration s) (showFailure s) v
    (powerUps s) (puzzleStartTime s) (isTimerFrozen s) (level s) (xp s)
    (xpNeeded s) (difficulty s) (combo s) (hintsUsedThisPuzzle s)
    (doublePointsActive s) (isLoggingOut s) (timerArmed s).
Definition setPowerUps (v : PowerUps) (s : State) : State :=
  mkState (puzzle s) (userAnswer s) (score s) (streak s) (timeLeft s)
    (loading s) (showImageModal s) (showCelebration s) (showFailure s)
    (coins s) v (puzzleStartTime s) (isTimerFrozen s) (level s) (xp s)
    (xpNeeded s) (difficulty s) (combo s) (hintsUsedThisPuzzle s)
    (doublePointsActive s) (isLoggingOut s) (timerArmed s).
Definition setPuzzleStartTime (v : Z) (s : State) : State :=
  mkState (puzzle s) (userAnswer s) (score s) (streak s) (timeLeft s)
    (loading s) (showImageModal s) (showCelebration s) (showFailure s)
    (coins s) (powerUps s) v (isTimerFrozen s) (level s) (xp s)
    (xpNeeded s) (difficulty s) (combo s) (hintsUsedThisPuzzle s)
    (doublePointsActive s) (isLoggingOut s) (timerArmed s).
Definition setIsTimerFrozen (v : bool) (s : State) : State :=
  mkState (puzzle s) (userAnswer s) (score s) (streak s) (timeLeft s)
    (loading s) (showImageModal s) (showCelebration s) (showFailure s)
    (coins s) (powerUps s) (puzzleStartTime s) v (level s) (xp s)
    (xpNeeded s) (difficulty s) (combo s) (hintsUsedThisPuzzle s)
    (doublePointsActive s) (isLoggingOut s) (timerArmed s).
Definition setLevel (v : Z) (s : State) : State :=
  mkState (puzzle s) (userAnswer s) (score s) (streak s) (timeLeft s)
    (loading s) (showImageModal s) (showCelebration s) (showFailure s)
    (coins s) (powerUps s) (puzzleStartTime s) (isTimerFrozen s) v (xp s)
    (xpNeeded s) (difficulty s) (combo s) (hintsUsedThisPuzzle s)
    (doublePointsActive s) (isLoggingOut s) (timerArmed s).
Definition setXp (v : Z) (s : State) : State :=
  mkState (puzzle s) (userAnswer s) (score s) (streak s) (timeLeft s)
    (loading s) (showImageModal s) (showCelebration s) (showFailure s)
    (coins s) (powerUps s) (puzzleStartTime s) (isTimerFrozen s) (level s)
    v (xpNeeded s) (difficulty s) (combo s) (hintsUsedThisPuzzle s)
    (doublePointsActive s) (isLoggingOut s) (timerArmed s).
Definition setXpNeeded (v : Z) (s : State) : State :=
  mkState (puzzle s) (userAnswer s) (score s) (streak s) (timeLeft s)
    (loading s) (showImageModal s) (showCelebration s) (showFailure s)
    (coins s) (powerUps s) (puzzleStartTime s) (isTimerFrozen s) (level s)
    (xp s) v (difficulty s) (combo s) (hintsUsedThisPuzzle s)
    (doublePointsActive s) (isLoggingOut s) (timerArmed s).
Definition setDifficulty (v : Difficulty) (s : State) : State :=
  mkState (puzzle s) (userAnswer s) (score s) (streak s) (timeLeft s)
    (loading s) (showImageModal s) (showCelebration s) (showFailure s)
    (coins s) (powerUps s) (puzzleStartTime s) (isTimerFrozen s) (level s)
    (xp s) (xpNeeded s) v (combo s) (hintsUsedThisPuzzle s)
    (doublePointsActive s) (isLoggingOut s) (timerArmed s).
Definition setCombo (v : Z) (s : State) : State :=
  mkState (puzzle s) (userAnswer s) (score s) (streak s) (timeLeft s)
    (loading s) (showImageModal s) (showCelebration s) (showFailure s)
    (coins s) (powerUps s) (puzzleStartTime s) (isTimerFrozen s) (level s)
    (xp s) (xpNeeded s) (difficulty s) v (hintsUsedThisPuzzle s)
    (doublePointsActive s) (isLoggingOut s) (timerArmed s).
Definition setHintsUsedThisPuzzle (v : Z) (s : State) : State :=
  mkState (puzzle s) (userAnswer s) (score s) (streak s) (timeLeft s)
    (loading s) (showImageModal s) (showCelebration s) (showFailure s)
    (coins s) (powerUps s) (puzzleStartTime s) (isTimerFrozen s) (level s)
    (xp s) (xpNeeded s) (difficulty s) (combo s) v (doublePointsActive s)
    (isLoggingOut s) (timerArmed s).
Definition setDoublePointsActive (v : bool) (s : State) : State :=
  mkState (puzzle s) (userAnswer s) (score s) (streak s) (timeLeft s)
    (loading s) (showImageModal s) (showCelebration s) (showFailure s)
    (coins s) (powerUps s) (puzzleStartTime s) (isTimerFrozen s) (level s)
    (xp s) (xpNeeded s) (difficulty s) (combo s) (hintsUsedThisPuzzle s) v
    (isLoggingOut s) (timerArmed s).
Definition setIsLoggingOut (v : bool) (s : State) : State :=
  mkState (puzzle s) (userAnswer s) (score s) (streak s) (timeLeft s)
    (loading s) (showImageModal s) (showCelebration s) (showFailure s)
    (coins s) (powerUps s) (puzzleStartTime s) (isTimerFrozen s) (level s)
    (xp s) (xpNeeded s) (difficulty s) (combo s) (hintsUsedThisPuzzle s)
    (doublePointsActive s) v (timerArmed s).
Definition setTimerArmed (v : bool) (s : State) : State :=
  mkState (puzzle s) (userAnswer s) (score s) (streak s) (timeLeft s)
    (loading s) (showImageModal s) (showCelebration s) (showFailure s)
    (coins s) (powerUps s) (puzzleStartTime s) (isTimerFrozen s) (level s)
    (xp s) (xpNeeded s) (difficulty s) (combo s) (hintsUsedThisPuzzle s)
    (doublePointsActive s) (isLoggingOut s) v.

Definition initial : State :=
  mkState None "" 0 0 40 false false false false 10 (mkPowerUps 0 0 0) 0
    false 1 0 100 medium 0 0 false false false.

Definition setHint (v : Z) (p : PowerUps) : PowerUps :=
  mkPowerUps v (freeze p) (superBanana p).
Definition setFreeze (v : Z) (p : PowerUps) : PowerUps :=
  mkPowerUps (hint p) v (superBanana p).
Definition setSuperBanana (v : Z) (p : PowerUps) : PowerUps :=
  mkPowerUps (hint p) (freeze p) v.

(** [powerUps[powerUpType]] and [{ ...prev, [powerUpType]: v }]. *)
Definition getPowerUp (t : PowerUpType) (p : PowerUps) : Z :=
  match t with
  | puHint => hint p
  | puFreeze => freeze p
  | puSuperBanana => superBanana p
  end.

Definition setPowerUp (t : PowerUpType) (v : Z) (p : PowerUps) : PowerUps :=
  match t with
  | puHint => setHint v p
  | puFreeze => setFreeze v p
  | puSuperBanana => setSuperBanana v p
  end.

(** The key under which the backend stores a power-up count. *)
Definition playerField (t : PowerUpType) : string :=
  match t with
  | puHint => "hints"
  | puFreeze => "freezes"
  | puSuperBanana => "super_bananas"
  end.

Definition powerUpName (t : PowerUpType) : string :=
  match t with
  | puHint => "hint"
  | puFreeze => "freeze"
  | puSuperBanana => "superBanana"
  end.

(** *** Outward effects *)

(** One constructor per [toast({...})] call site, with the values that
    are interpolated into its text. *)
Inductive Toast : Set :=
| tSignedOut (endpoint : LogoutEndpoint) (message : option string)
| tLogoutError (message : string)
| tSyncError
| tSessionExpired
| tApiError
| tTimeFrozen
| tSuperBananaActivated
| tPurchaseComplete (powerUpType : PowerUpType) (cost : Z)
| tDoublePoints
| tLevelUp (new_level : Z)
| tCorrect (points earnedCoins : Z)
| tIncorrect (correct_answer : option string)
| tSkipped
| tNoHints
| tNoPuzzle
| tPleaseLogin
| tHintError (message : string)
| tHintUsed (title : option string) (hintText : string)
| tPlayerDataError (message : string)
| tGameEnded
| tEndGameError.

(** Titles, without the pictographs that prefix some of them. *)
Definition toastTitle (t : Toast) : string :=
  match t with
  | tSignedOut epLogoutAll _ => "Signed out everywhere"
  | tSignedOut epLogout _ => "Signed out"
  | tLogoutError _ => "Logout error"
  | tSyncError => "Sync Error"
  | tSessionExpired => "Session Expired"
  | tApiError => "API Error"
  | tTimeFrozen => "Time Frozen!"
  | tSuperBananaActivated => "Super Banana Activated!"
  | tPurchaseComplete _ _ => "Purchase Complete!"
  | tDoublePoints => "Double Points!"
  | tLevelUp _ => "Level Up!"
  | tCorrect _ _ => "Correct!"
  | tIncorrect _ => "Incorrect"
  | tSkipped => "Skipped"
  | tNoHints => "No Hints Available"
  | tNoPuzzle => "No Puzzle"
  | tPleaseLogin | tHintError _ | tPlayerDataError _ | tEndGameError => "Error"
  | tHintUsed title _ =>
      if Storage.truthy title then default "" title else "Hint Used!"
  | tGameEnded => "Game Ended"
  end.

(** Descriptions; for [tCorrect] the first line only (the lines that
    spell out the server's breakdown are presentation). *)
Definition toastDescription (t : Toast) : string :=
  match t with
  | tSignedOut endpoint message =>
      if Storage.truthy message then default "" message
      else match endpoint with
           | epLogoutAll => "You have been logged out on all devices."
           | epLogout => "You have been logged out on this device."
           end
  | tLogoutError message => message
  | tSyncError => "Failed to sync player data with the server."
  | tSessionExpired => "Please log in again."
  | tApiError => "Failed to fetch puzzle. Please try again."
  | tTimeFrozen => "+10 seconds added to timer!"
  | tSuperBananaActivated => "Your next correct answer will earn DOUBLE POINTS!"
  | tPurchaseComplete powerUpType cost =>
      "Bought 1 " +:+ powerUpName powerUpType +:+ " for " +:+ pretty cost
      +:+ " coins"
  | tDoublePoints => "Super Banana bonus applied!"
  | tLevelUp new_level => "You reached level " +:+ pretty new_level +:+ "!"
  | tCorrect points earnedCoins =>
      "+" +:+ pretty points +:+ " points & " +:+ pretty earnedCoins
      +:+ " coins!"
  | tIncorrect correct_answer =>
      "The correct answer was "
      +:+ (if Storage.truthy correct_answer then default "" correct_answer
           else "unknown")
      +:+ ". Streak reset!"
  | tSkipped => "Streak reset. New puzzle loaded!"
  | tNoHints => "You don't have any hints left. Buy more from the shop!"
  | tNoPuzzle => "Please wait for a puzzle to load."
  | tPleaseLogin => "Please log in again."
  | tHintError message =>
      if Storage.truthy (Some message) then message
      else "Failed to use hint. Please try again."
  | tHintUsed _ hintText => hintText
  | tPlayerDataError message => "Failed to load player data: " +:+ message
  | tGameEnded => "Score submitted! Check the leaderboard."
  | tEndGameError => "Failed to end game or submit score."
  end.

(** The callbacks handed to [setTimeout]. *)
Inductive TimeoutCallback : Set :=
| cbFreezeEnd | cbAfterCelebration | cbAfterFailure.

(** The JSON body posted to the answer-verification endpoint. *)
Record CheckBody : Set := mkCheckBody {
  answer : string;
  puzzle_url : string;
  time_taken : Z;
  hints_used : Z
}.

Inductive Effect : Set :=
| toast (t : Toast)
| updatePlayerData (updates : list (string * Z))
| requestPuzzle (d : Difficulty)
| fetchGameStats
| requestCheck (body : CheckBody)
| invokeLogoutEndpoint (endpoint : LogoutEndpoint)
| clearStoredSession
| onLogout
| setTimeout (cb : TimeoutCallback) (ms : Z)
| unhandledRejection
| fetchPlayerData
| fetchDailyChallenge
| requestSetDifficulty (d : Difficulty)
| requestHint
| requestSubmitScore (finalScore : Z)
| onGameComplete (finalScore : Z).

(** *** Commands: state updates and effects in program order *)

Definition M : Type := State -> State * list Effect.

Definition skip : M := fun s => (s, []).
Definition upd (f : State -> State) : M := fun s => (f s, []).
Definition emit (e : Effect) : M := fun s => (s, [e]).
Definition seq (c1 c2 : M) : M :=
  fun s => let r1 := c1 s in
           let r2 := c2 (fst r1) in
           (fst r2, (snd r1 ++ snd r2)%list).

Declare Scope cmd_scope.
Delimit Scope cmd_scope with cmd.
Bind Scope cmd_scope with M.
Notation "c1 ;; c2" := (seq c1 c2)
  (at level 100, c2 at level 200, right associativity) : cmd_scope.
Local Open Scope cmd_scope.

(** *** Puzzle acquisition *)

Definition timeLimits (d : Difficulty) : Z :=
  match d with
  | easy => 50
  | medium => 40
  | hard => 30
  end.

(** [fetchPuzzle], up to its [await]: the state resets and the request.
    [c] is the render whose closure the function belongs to; the request
    remembers the difficulty of that render, which is read again when the
    response arrives. *)
Definition fetchPuzzle (c : State) : M :=
  upd (setLoading true) ;;
  upd (setIsTimerFrozen false) ;;
  upd (setUserAnswer "") ;;
  upd (setHintsUsedThisPuzzle 0) ;;
  emit (requestPuzzle (difficulty c)).

(** [fetchPuzzle], from the [await] on: [data] is [None] when the request
    fails, the response is not ok or its body does not parse. *)
Definition fetchPuzzleSettled (d : Difficulty) (now : Z)
    (data : option BananaPuzzle) : M :=
  match data with
  | Some p =>
      upd (setPuzzle (Some p)) ;;
      upd (setTimeLeft (timeLimits d)) ;;
      upd (setPuzzleStartTime now) ;;
      upd (setShowImageModal true)
  | None => emit (toast tApiError)
  end ;;
  upd (setLoading false).

Definition handleSkip (c : State) : M :=
  upd (setStreak 0) ;;
  emit (toast tSkipped) ;;
  fetchPuzzle c.

(** *** The countdown *)

(** The body of the timer [useEffect].  Its previous cleanup has run
    (the old interval is cleared) before the body does. *)
Definition timerEffect (c : State) : M :=
  upd (setTimerArmed false) ;;
  if timeLeft c <=? 0 then handleSkip c
  else if isTimerFrozen c then skip
  else upd (setTimerArmed true).

(** The effect's dependency list [[timeLeft, isTimerFrozen]]. *)
Definition depsChanged (old new : State) : bool :=
  negb ((timeLeft old =? timeLeft new)
        && Bool.eqb (isTimerFrozen old) (isTimerFrozen new)).

(** After the state updates of a handler are committed the component
    renders again and the timer effect runs when a dependency changed.
    The effect itself may change [isTimerFrozen] (through [fetchPuzzle]),
    which renders once more; a third run is never needed. *)
Definition commit (old : State) : M :=
  fun new =>
    if depsChanged old new then
      let r1 := timerEffect new new in
      if depsChanged new (fst r1) then
        let r2 := timerEffect (fst r1) (fst r1) in
        (fst r2, (snd r1 ++ snd r2)%list)
      else r1
    else (new, []).

(** A handler invoked on the current render: the closure it reads and the
    state it updates are the same. *)
Definition invoke (h : State -> M) : M := fun s => h s s.

(** The same, followed by the render the state updates cause. *)
Definition dispatch (h : State -> M) : M :=
  fun s => (invoke h ;; commit s) s.

(** The [setInterval] callback [setTimeLeft(prev => prev - 1)]; it only
    fires while the interval is installed. *)
Definition intervalCallback (c : State) : M :=
  if timerArmed c then upd (fun s => setTimeLeft (timeLeft s - 1) s) else skip.

Definition tick : M := dispatch intervalCallback.

Fixpoint ticks (n : nat) : M :=
  match n with
  | O => skip
  | S k => tick ;; ticks k
  end.

(** The state the timer effect leaves when it finds no time left:
    [handleSkip] has run and no interval is installed. *)
Definition skipped (s : State) : State :=
  setTimerArmed false
    (setHintsUsedThisPuzzle 0
       (setUserAnswer ""
          (setIsTimerFrozen false (setLoading true (setStreak 0 s))))).

(** *** Power-ups *)

Definition useFreeze (c : State) : M :=
  if (0 <? freeze (powerUps c)) && negb (isTimerFrozen c) then
    let newFreezeCount := freeze (powerUps c) - 1 in
    upd (fun s => setPowerUps (setFreeze newFreezeCount (powerUps s)) s) ;;
    emit (updatePlayerData [("freezes", newFreezeCount)]) ;;
    upd (setIsTimerFrozen true) ;;
    emit (setTimeout cbFreezeEnd 100) ;;
    emit (toast tTimeFrozen)
  else skip.

(** The state of a round whose last second has just been ticked away. *)
Definition expired (s : State) : State := skipped (setTimeLeft 0 s).

(** The state an accepted freeze leaves. *)
Definition frozenBy (st : State) : State :=
  setIsTimerFrozen true
    (setPowerUps (setFreeze (freeze (powerUps st) - 1) (powerUps st)) st).

(** The callback [useFreeze] schedules. *)
Definition freezeEnd : M :=
  upd (fun s => setTimeLeft (timeLeft s + 20) s) ;;
  upd (setIsTimerFrozen false).

Definition useSuperBanana (c : State) : M :=
  if 0 <? superBanana (powerUps c) then
    let newSuperBananaCount := superBanana (powerUps c) - 1 in
    upd (fun s => setPowerUps (setSuperBanana newSuperBananaCount (powerUps s)) s) ;;
    emit (updatePlayerData [("super_bananas", newSuperBananaCount)]) ;;
    upd (setDoublePointsActive true) ;;
    emit (toast tSuperBananaActivated)
  else skip.

Definition buyPowerUp (powerUpType : PowerUpType) (cost : Z) (c : State) : M :=
  if cost <=? coins c then
    let newCoinTotal := coins c - cost in
    let newPowerUpCount := getPowerUp powerUpType (powerUps c) + 1 in
    upd (setCoins newCoinTotal) ;;
    upd (fun s => setPowerUps
                    (setPowerUp powerUpType newPowerUpCount (powerUps s)) s) ;;
    emit (updatePlayerData [("coins", newCoinTotal);
                            (playerField powerUpType, newPowerUpCount)]) ;;
    emit (toast (tPurchaseComplete powerUpType cost))
  else skip.

(** *** Answer submission *)

(** The fields of the verification response that the client reads. *)
Record CheckResult : Set := mkResult {
  correct : bool;
  points : option Z;
  result_combo : option Z;
  xp_gained : option Z;
  leveled_up : bool;
  new_level : option Z;
  correct_answer : option string
}.

Inductive CheckOutcome : Set :=
| responded (r : CheckResult)
| networkError.

(** The inner [checkAnswer]: the [catch] turns a failed call into
    [{ correct: false, error: "Network error" }]. *)
Definition checkAnswer (o : CheckOutcome) : CheckResult :=
  match o with
  | responded r => r
  | networkError => mkResult false None None None false None None
  end.

(** [x || d] on an optional number: absent and [0] are falsy. *)
Definition orElse (x : option Z) (d : Z) : Z :=
  match x with
  | Some v => if v =? 0 then d else v
  | None => d
  end.

Definition truthyZ (x : option Z) : bool :=
  match x with
  | Some v => negb (v =? 0)
  | None => false
  end.

Definition timeTaken (c : State) (now : Z) : Z :=
  if 0 <? puzzleStartTime c then (now - puzzleStartTime c) / 1000 else 0.

(** The points a correct answer is worth before and after the Super
    Banana multiplier. *)
Definition basePoints (result : CheckResult) : Z := orElse (points result) 10.

Definition awardedPoints (c : State) (result : CheckResult) : Z :=
  if doublePointsActive c then basePoints result * 2 else basePoints result.

Definition earnedCoins (result : CheckResult) : Z :=
  5 + orElse (result_combo result) 0 / 2.

Definition handleSubmit (now : Z) (o : CheckOutcome) (c : State) : M :=
  match puzzle c with
  | None => skip
  | Some p =>
      if String.eqb (userAnswer c) "" then skip
      else
        emit (requestCheck (mkCheckBody (userAnswer c) (question p)
                              (timeTaken c now) (hintsUsedThisPuzzle c))) ;;
        let result := checkAnswer o in
        if correct result then
          (if doublePointsActive c then
             upd (setDoublePointsActive false) ;;
             emit (toast tDoublePoints)
           else skip) ;;
          let newScore := score c + awardedPoints c result in
          let newCoins := coins c + earnedCoins result in
          let newStreak := streak c + 1 in
          upd (setScore newScore) ;;
          upd (setCoins newCoins) ;;
          upd (setStreak newStreak) ;;
          upd (setCombo (orElse (result_combo result) 0)) ;;
          (if truthyZ (xp_gained result) then
             upd (fun s => setXp (xp s + default 0 (xp_gained result)) s)
           else skip) ;;
          (if leveled_up result && truthyZ (new_level result) then
             upd (setLevel (default 0 (new_level result))) ;;
             upd (setXpNeeded 100) ;;
             emit (toast (tLevelUp (default 0 (new_level result))))
           else skip) ;;
          emit (updatePlayerData [("coins", newCoins)]) ;;
          emit (toast (tCorrect (awardedPoints c result) (earnedCoins result))) ;;
          upd (setShowCelebration true) ;;
          emit (setTimeout cbAfterCelebration 2000)
        else
          upd (setStreak 0) ;;
          upd (setCombo 0) ;;
          upd (setShowFailure true) ;;
          emit (toast (tIncorrect (correct_answer result))) ;;
          emit (setTimeout cbAfterFailure 2000)
  end.

(** The two callbacks [handleSubmit] schedules; they belong to the
    closure [c] of the render in which the answer was submitted. *)
Definition afterCelebration (c : State) : M :=
  upd (setShowCelebration false) ;;
  fetchPuzzle c ;;
  emit fetchGameStats.

Definition afterFailure (c : State) : M :=
  upd (setShowFailure false) ;;
  fetchPuzzle c ;;
  emit fetchGameStats.

(** *** Logout *)

(** What awaiting [invokeLogoutEndpoint] (of [@/lib/auth]) yields: a
    result with the [ok] and [message] fields the handler reads, or an
    exception. *)
Inductive LogoutOutcome : Set :=
| logoutResult (ok : bool) (message : option string)
| logoutThrew.

Definition handleLogoutRequest (endpoint : LogoutEndpoint) (o : LogoutOutcome)
    (c : State) : M :=
  if isLoggingOut c then skip
  else
    upd (setIsLoggingOut true) ;;
    emit (invokeLogoutEndpoint endpoint) ;;
    match o with
    | logoutResult true message => emit (toast (tSignedOut endpoint message))
    | logoutResult false message =>
        if Storage.truthy message
        then emit (toast (tLogoutError (default "" message)))
        else skip
    | logoutThrew => skip
    end ;;
    (* finally *)
    emit clearStoredSession ;;
    upd (setIsLoggingOut false) ;;
    emit onLogout ;;
    match o with
    | logoutThrew => emit unhandledRejection
    | logoutResult _ _ => skip
    end.

(** *** Hints *)

(** What awaiting the hint endpoint yields. *)
Inductive HintOutcome : Set :=
| hintOk (hints_remaining : Z) (title : option string) (hintText : string)
| hint401
| hintNotOk (error : option string)
| hintRejected (message : string).

Definition useHint (ls : gmap string string) (o : HintOutcome) (c : State) : M :=
  if hint (powerUps c) <=? 0 then emit (toast tNoHints)
  else
    match puzzle c with
    | None => emit (toast tNoPuzzle)
    | Some _ =>
        if negb (Storage.truthy (Storage.getItem ls "accessToken")) then
          emit (toast tPleaseLogin) ;; emit onLogout
        else
          emit requestHint ;;
          match o with
          | hint401 => emit (toast tSessionExpired) ;; emit onLogout
          | hintNotOk error =>
              emit (toast (tHintError
                             (if Storage.truthy error then default "" error
                              else "Failed to use hint")))
          | hintRejected message => emit (toast (tHintError message))
          | hintOk hints_remaining title hintText =>
              upd (fun s => setPowerUps (setHint hints_remaining (powerUps s)) s) ;;
              upd (fun s => setHintsUsedThisPuzzle (hintsUsedThisPuzzle s + 1) s) ;;
              emit (toast (tHintUsed title hintText))
          end
    end.

(** *** Difficulty, statistics and player data *)

Definition handleDifficultyChange (value : Difficulty) (c : State) : M :=
  upd (setDifficulty value) ;;
  emit (requestSetDifficulty value).

(** The body of an ok response of the game-stats endpoint. *)
Record GameStats : Set := mkGameStats {
  gs_level : Z;
  gs_xp : Z;
  gs_xp_needed : Z;
  gs_combo : Z;
  gs_difficulty : Difficulty
}.

(** [fetchGameStats] from its [await] on; [None] when the response is not
    ok or the call fails, which the function ignores. *)
Definition gameStatsSettled (data : option GameStats) : M :=
  match data with
  | Some d =>
      upd (setLevel (gs_level d)) ;;
      upd (setXp (gs_xp d)) ;;
      upd (setXpNeeded (gs_xp_needed d)) ;;
      upd (setCombo (gs_combo d)) ;;
      upd (setDifficulty (gs_difficulty d))
  | None => skip
  end.

(** The fields of the player record that [fetchPlayerData] reads (the
    achievement list apart). *)
Record PlayerData : Set := mkPlayerData {
  pd_coins : Z;
  pd_hints : Z;
  pd_freezes : Z;
  pd_super_bananas : Z;
  pd_level : option Z;
  pd_xp : option Z;
  pd_difficulty : option Difficulty;
  pd_combo_count : option Z
}.

Inductive PlayerDataOutcome : Set :=
| playerOk (data : PlayerData)
| player401
| playerFailed (message : string).

Definition playerDataSettled (o : PlayerDataOutcome) : M :=
  match o with
  | playerOk data =>
      upd (setCoins (pd_coins data)) ;;
      upd (setPowerUps (mkPowerUps (pd_hints data) (pd_freezes data)
                          (pd_super_bananas data))) ;;
      (if truthyZ (pd_level data)
       then upd (setLevel (default 0 (pd_level data))) else skip) ;;
      (match pd_xp data with Some v => upd (setXp v) | None => skip end) ;;
      (match pd_difficulty data with
       | Some d => upd (setDifficulty d)
       | None => skip
       end) ;;
      (match pd_combo_count data with
       | Some v => upd (setCombo v)
       | None => skip
       end)
  | player401 => emit (toast tSessionExpired) ;; emit onLogout
  | playerFailed message => emit (toast (tPlayerDataError message))
  end.

(** *** End of the round set *)

(** [handleEndGame]; [ok] tells whether the score submission was
    acknowledged. *)
Definition handleEndGame (ls : gmap string string) (ok : bool) (c : State) : M :=
  if negb (Storage.truthy (Storage.getItem ls "accessToken")) then
    emit (toast tEndGameError)
  else
    emit (requestSubmitScore (score c)) ;;
    if ok then emit (onGameComplete (score c)) ;; emit (toast tGameEnded)
    else emit (toast tEndGameError).

(** *** Mounting *)

(** The first render: the mount effect starts the four fetches and the
    timer effect installs the interval. *)
Definition mount : State * list Effect :=
  (emit fetchPlayerData ;;
   emit fetchGameStats ;;
   emit fetchDailyChallenge ;;
   fetchPuzzle initial ;;
   timerEffect initial) initial.

(** *** The component as a transition system *)

(** Everything that can happen to the mounted game screen: user actions,
    the interval and the scheduled callbacks firing, and remote calls
    settling.  An event carries what its handler takes from outside the
    component state; a callback that belongs to an earlier render carries
    the difficulty of that render, the only part of the closure it
    reads. *)
Inductive Event : Set :=
| evTick
| evSkip
| evUseHint (ls : gmap string string) (o : HintOutcome)
| evUseFreeze
| evFreezeEnd
| evUseSuperBanana
| evBuy (powerUpType : PowerUpType) (cost : Z)
| evSubmit (now : Z) (o : CheckOutcome)
| evAfterCelebration (d : Difficulty)
| evAfterFailure (d : Difficulty)
| evPuzzleSettled (d : Difficulty) (now : Z) (data : option BananaPuzzle)
| evDifficulty (value : Difficulty)
| evGameStats (data : option GameStats)
| evPlayerData (o : PlayerDataOutcome)
| evEndGame (ls : gmap string string) (ok : bool)
| evLogout (endpoint : LogoutEndpoint) (o : LogoutOutcome).

Definition handler (ev : Event) : State -> M :=
  match ev with
  | evTick => intervalCallback
  | evSkip => handleSkip
  | evUseHint ls o => useHint ls o
  | evUseFreeze => useFreeze
  | evFreezeEnd => fun _ => freezeEnd
  | evUseSuperBanana => useSuperBanana
  | evBuy powerUpType cost => buyPowerUp powerUpType cost
  | evSubmit now o => handleSubmit now o
  | evAfterCelebration d => fun c => afterCelebration (setDifficulty d c)
  | evAfterFailure d => fun c => afterFailure (setDifficulty d c)
  | evPuzzleSettled d now data => fun _ => fetchPuzzleSettled d now data
  | evDifficulty value => handleDifficultyChange value
  | evGameStats data => fun _ => gameStatsSettled data
  | evPlayerData o => fun _ => playerDataSettled o
  | evEndGame ls ok => handleEndGame ls ok
  | evLogout endpoint o => handleLogoutRequest endpoint o
  end.

Definition step (ev : Event) : M := dispatch (handler ev).

Fixpoint steps (evs : list Event) : M :=
  match evs with
  | [] => skip
  | ev :: rest => step ev ;; steps rest
  end.


(** *** The player-data sync helper *)

(** The PATCH that [updatePlayerData] sends to [/banana/player/]. *)
Record PatchRequest : Set := mkPatch {
  bearer : string;
  patchBody : list (string * Z)
}.

(** [updatePlayerData] up to its [await]: without a stored access token
    it throws before any request is made. *)
Definition updatePlayerDataRequest (ls : gmap string string)
    (updates : list (string * Z)) : option PatchRequest :=
  match Storage.getItem ls "accessToken" with
  | Some accessToken =>
      if Storage.truthy (Some accessToken)
      then Some (mkPatch accessToken updates)
      else None
  | None => None
  end.

Inductive PatchResponse : Set :=
| status401 | statusOk | statusNotOk | fetchRejected.

(** What the helper does besides the request itself. *)
Definition updatePlayerDataSettled (ls : gmap string string)
    (updates : list (string * Z)) (resp : PatchResponse) : list Effect :=
  match updatePlayerDataRequest ls updates with
  | None => [toast tSyncError]
  | Some _ =>
      match resp with
      | status401 => [toast tSessionExpired; onLogout]
      | statusOk => []
      | statusNotOk | fetchRejected => [toast tSyncError]
      end
  end.

(** The PATCH requests that the sync calls of an effect list send. *)
Definition patchRequests (ls : gmap string string) (es : list Effect)
    : list PatchRequest :=
  omap (fun e => match e with
                 | updatePlayerData updates => updatePlayerDataRequest ls updates
                 | _ => None
                 end) es.

(** *** Reading an effect list *)

Definition isPuzzleRequest (e : Effect) : bool :=
  match e with requestPuzzle _ => true | _ => false end.
Definition isCheckRequest (e : Effect) : bool :=
  match e with requestCheck _ => true | _ => false end.
Definition isSkipToast (e : Effect) : bool :=
  match e with toast tSkipped => true | _ => false end.
Definition isToast (e : Effect) : bool :=
  match e with toast _ => true | _ => false end.
Definition isPlayerSync (e : Effect) : bool :=
  match e with updatePlayerData _ => true | _ => false end.

Definition isClearSession (e : Effect) : bool :=
  match e with clearStoredSession => true | _ => false end.
Definition isOnLogout (e : Effect) : bool :=
  match e with onLogout => true | _ => false end.
Definition isFreezeTimeout (e : Effect) : bool :=
  match e with setTimeout cbFreezeEnd _ => true | _ => false end.
Definition isNextPuzzleTimeout (e : Effect) : bool :=
  match e with
  | setTimeout cbAfterCelebration _ | setTimeout cbAfterFailure _ => true
  | _ => false
  end.

Definition count (p : Effect -> bool) (es : list Effect) : nat :=
  length (List.filter p es).

End GamePage.

(** ** The two components together *)

Module App.

(** What an effect of the game screen does to the router and to the
    persisted storage: [clearStoredSession()] and the [onLogout] and
    [onGameComplete] props, which are the router's [handleLogout] and
    [handleGameComplete]. *)
Definition perform (a : Index.State * gmap string string)
    (e : GamePage.Effect) : Index.State * gmap string string :=
  match e with
  | GamePage.clearStoredSession => (fst a, Storage.clearStoredSession (snd a))
  | GamePage.onLogout => Index.handleLogout a
  | GamePage.onGameComplete score =>
      (Index.handleGameComplete score (fst a), snd a)
  | _ => a
  end.

Definition performAll (es : list GamePage.Effect)
    (a : Index.State * gmap string string) : Index.State * gmap string string :=
  foldl perform a es.

End App.

(** ** Sample stores and states *)

Module Samples.

(** Three concrete stores, one per case of the startup contract. *)
Definition storeWithToken : gmap string string :=
  <["banana-user" := "ann"]> (<["refreshToken" := "r1"]> ∅).
Definition storeNameOnly : gmap string string :=
  <["banana-user" := "ann"]> ∅.
Definition storeEmpty : gmap string string := ∅.

(** A round in progress: three seconds left, timer running, a streak of
    four and a combo of three, one of each power-up. *)
Definition runningThree : GamePage.State :=
  GamePage.setTimerArmed true
    (GamePage.setTimeLeft 3
       (GamePage.setStreak 4
          (GamePage.setCombo 3
             (GamePage.setPowerUps (GamePage.mkPowerUps 1 1 1)
                GamePage.initial)))).

(** The same round with a puzzle on screen and an answer typed in. *)
Definition readyToSubmit : GamePage.State :=
  GamePage.setUserAnswer "7"
    (GamePage.setPuzzle (Some (GamePage.mkPuzzle "https://img/p2.png" "7"))
       runningThree).


(** A correct verdict worth [p] points with combo 3. *)
Definition correctWith (p : option Z) : GamePage.CheckResult :=
  GamePage.mkResult true p (Some 3) None false None None.

(** An incorrect verdict that names the right answer. *)
Definition incorrectVerdict : GamePage.CheckResult :=
  GamePage.mkResult false None None None false None (Some "4").

(** The router while the game screen of user "ann" is mounted. *)
Definition routerPlaying : Index.State :=
  Index.mkState Index.playing Index.login "ann" 0.

End Samples.

(** ** Readings of the round loop *)

Module Round.

Import GamePage.

Definition isHintRequest (e : Effect) : bool :=
  match e with requestHint => true | _ => false end.
Definition isStatsRefresh (e : Effect) : bool :=
  match e with fetchGameStats => true | _ => false end.
Definition isGameComplete (e : Effect) : bool :=
  match e with onGameComplete _ => true | _ => false end.
Definition isScoreRequest (e : Effect) : bool :=
  match e with requestSubmitScore _ => true | _ => false end.
Definition isDifficultyRequest (e : Effect) : bool :=
  match e with requestSetDifficulty _ => true | _ => false end.

(** The callback a resolved submission schedules, run in the closure of
    the render that submitted. *)
Definition nextPuzzleCallback (c : State) (o : CheckOutcome) : M :=
  if correct (checkAnswer o) then afterCelebration c else afterFailure c.

(** The guard of [useHint]: a hint in stock, a puzzle on screen and a
    stored access token. *)
Definition hintGuard (ls : gmap string string) (s : State) : bool :=
  (0 <? hint (powerUps s))
  && match puzzle s with Some _ => true | None => false end
  && Storage.truthy (Storage.getItem ls "accessToken").

(** Hints granted one after the other, the server answering each with the
    count that remains. *)
Fixpoint useHints (ls : gmap string string) (remaining : list Z) : M :=
  match remaining with
  | [] => skip
  | r :: rest =>
      seq (invoke (useHint ls (hintOk r None ""))) (useHints ls rest)
  end.

(** The local economy: the coin balance and the three power-up counts. *)
Definition econInv (s : State) : Prop :=
  0 <= coins s /\ 0 <= hint (powerUps s) /\ 0 <= freeze (powerUps s)
  /\ 0 <= superBanana (powerUps s).

(** Server data that an honest backend sends: counts and balances are not
    negative, and neither are the points and the combo of a verdict. *)
Definition saneNumber (x : option Z) : Prop :=
  match x with Some v => 0 <= v | None => True end.

Definition saneEvent (ev : Event) : Prop :=
  match ev with
  | evUseHint _ (hintOk hints_remaining _ _) => 0 <= hints_remaining
  | evSubmit _ (responded r) =>
      saneNumber (points r) /\ saneNumber (result_combo r)
  | evPlayerData (playerOk data) =>
      0 <= pd_coins data /\ 0 <= pd_hints data /\ 0 <= pd_freezes data
      /\ 0 <= pd_super_bananas data
  | _ => True
  end.

(** The interval is installed exactly when there is time left and the
    timer is not frozen. *)
Definition timerExact (s : State) : Prop :=
  timerArmed s = true <-> 0 < timeLeft s /\ isTimerFrozen s = false.

End Round.

(** ** Leaving the game screen *)

Module Session.

Import GamePage.

(** The events whose handler calls the [onLogout] prop: a hint asked for
    with a hint in stock and a puzzle on screen but no stored access token
    or a 401 answer, a 401 answer to the player-data request, and the
    logout request itself unless one is already under way. *)
Definition logsOut (ev : Event) (s : State) : bool :=
  match ev with
  | evUseHint ls o =>
      (0 <? hint (powerUps s))
      && match puzzle s with Some _ => true | None => false end
      && (negb (Storage.truthy (Storage.getItem ls "accessToken"))
          || match o with hint401 => true | _ => false end)
  | evPlayerData player401 => true
  | evLogout _ _ => negb (isLoggingOut s)
  | _ => false
  end.

(** The sync helper [updatePlayerData], which runs after the handler that
    called it has returned, calls [onLogout] itself when a token is stored
    and its PATCH is answered 401. *)
Definition syncLogsOut (ls : gmap string string) (resp : PatchResponse)
  : bool :=
  Storage.truthy (Storage.getItem ls "accessToken")
  && match resp with status401 => true | _ => false end.

(** The events whose handler may call the sync helper. *)
Definition maySync (ev : Event) : bool :=
  match ev with
  | evUseFreeze | evUseSuperBanana | evBuy _ _ | evSubmit _ _ => true
  | _ => false
  end.

End Session.

(** ** The leaderboard screen ([Leaderboard]) *)

Module Leaderboard.

Record LeaderboardEntry : Set := mkEntry { username : string; score : Z }.

(** [Array.prototype.findIndex]: the index of the first element that
    satisfies the predicate, -1 when there is none. *)
Fixpoint findIndexFrom {A : Type} (k : Z) (p : A -> bool) (l : list A) : Z :=
  match l with
  | [] => -1
  | x :: rest => if p x then k else findIndexFrom (k + 1) p rest
  end.

Definition findIndex {A : Type} (p : A -> bool) (l : list A) : Z :=
  findIndexFrom 0 p l.

Definition userRank (leaderboard : list LeaderboardEntry) (user : string) : Z :=
  findIndex (fun entry => String.eqb (username entry) user) leaderboard + 1.

Definition userEntry (leaderboard : list LeaderboardEntry) (user : string)
  : option LeaderboardEntry :=
  List.find (fun entry => String.eqb (username entry) user) leaderboard.

Definition isTopThree (leaderboard : list LeaderboardEntry) (user : string)
  : bool :=
  (1 <=? userRank leaderboard user) && (userRank leaderboard user <=? 3)
  && match userEntry leaderboard user with Some _ => true | None => false end.

(** The points shown in the header: [userEntry ? userEntry.score :
    currentScore]. *)
Definition shownScore (leaderboard : list LeaderboardEntry) (user : string)
    (currentScore : Z) : Z :=
  match userEntry leaderboard user with
  | Some entry => score entry
  | None => currentScore
  end.

(** The props of the certificate modal. *)
Record CertificateProps : Set := mkCertificate {
  playerName : string;
  place : Z;
  certificateScore : Z
}.

(** The certificate modal, when it is rendered:
    [showCertificate && isTopThree && userEntry && <Certificate ... />]. *)
Definition certificate (showCertificate : bool)
    (leaderboard : list LeaderboardEntry) (user : string)
  : option CertificateProps :=
  if showCertificate && isTopThree leaderboard user then
    match userEntry leaderboard user with
    | Some entry =>
        Some (mkCertificate user (userRank leaderboard user) (score entry))
    | None => None
    end
  else None.

End Leaderboard.

(** ** JavaScript strings and regular expressions *)

(** A [string] stands for a JavaScript string whose code units are all
    below 256; its length is the number of code units. *)
Module JS.

(** The code units below 256 that ECMAScript counts as white space or
    line terminator: TAB, LF, VT, FF, CR, SP and NBSP.  [String.trim] and
    the class [\s] use this same set. *)
Definition isWhiteSpace (c : ascii) : bool :=
  match N_of_ascii c with
  | 9 | 10 | 11 | 12 | 13 | 32 | 160 => true
  | _ => false
  end%N.

Fixpoint trimStart (s : string) : string :=
  match s with
  | EmptyString => EmptyString
  | String a rest => if isWhiteSpace a then trimStart rest else s
  end.

Fixpoint trimEnd (s : string) : string :=
  match s with
  | EmptyString => EmptyString
  | String a rest =>
      match trimEnd rest with
      | EmptyString => if isWhiteSpace a then EmptyString
                       else String a EmptyString
      | kept => String a kept
      end
  end.

Definition trim (s : string) : string := trimEnd (trimStart s).

Definition length (s : string) : Z := Z.of_nat (String.length s).

(** Truthiness of a string: only the empty string is falsy. *)
Definition truthy (s : string) : bool := negb (String.eqb s "").

End JS.

Module RegExp.

(** The members of a character class [[...]]. *)
Inductive ClassItem : Set :=
| ciChar (c : ascii)
| ciRange (lo hi : ascii)
| ciSpace.

Definition inItem (a : ascii) (i : ClassItem) : bool :=
  match i with
  | ciChar c => Ascii.eqb a c
  | ciRange lo hi =>
      ((N_of_ascii lo <=? N_of_ascii a) && (N_of_ascii a <=? N_of_ascii hi))%N
  | ciSpace => JS.isWhiteSpace a
  end.

Definition inClass (negated : bool) (items : list ClassItem) (a : ascii)
  : bool :=
  xorb negated (existsb (inItem a) items).

(** Pattern bodies: the patterns of the login screen use classes,
    literals, sequence and [+]; the other constructors are what their
    derivatives need. *)
Inductive Re : Set :=
| reNone
| reEps
| reClass (negated : bool) (items : list ClassItem)
| reSeq (r1 r2 : Re)
| reAlt (r1 r2 : Re)
| reStar (r : Re).

Definition reChar (c : ascii) : Re := reClass false [ciChar c].
Definition rePlus (r : Re) : Re := reSeq r (reStar r).
Definition reAny : Re := reClass true [].

Fixpoint nullable (r : Re) : bool :=
  match r with
  | reNone => false
  | reEps => true
  | reClass _ _ => false
  | reSeq r1 r2 => nullable r1 && nullable r2
  | reAlt r1 r2 => nullable r1 || nullable r2
  | reStar _ => true
  end.

Fixpoint deriv (a : ascii) (r : Re) : Re :=
  match r with
  | reNone => reNone
  | reEps => reNone
  | reClass negated items => if inClass negated items a then reEps else reNone
  | reSeq r1 r2 =>
      if nullable r1 then reAlt (reSeq (deriv a r1) r2) (deriv a r2)
      else reSeq (deriv a r1) r2
  | reAlt r1 r2 => reAlt (deriv a r1) (deriv a r2)
  | reStar r1 => reSeq (deriv a r1) (reStar r1)
  end.

Fixpoint matches (r : Re) (s : string) : bool :=
  match s with
  | EmptyString => nullable r
  | String a rest => matches (deriv a r) rest
  end.

(** A pattern literal [/.../]: its body and whether it opens with [^] and
    closes with [$]. *)
Record Pattern : Set := mkPattern {
  fromStart : bool;
  body : Re;
  toEnd : bool
}.

(** [RegExp.prototype.test]: some substring matches the body, starting at
    the start of the input if the pattern opens with [^] and ending at its
    end if it closes with [$]. *)
Definition test (p : Pattern) (s : string) : bool :=
  matches (reSeq (if fromStart p then reEps else reStar reAny)
             (reSeq (body p) (if toEnd p then reEps else reStar reAny))) s.

(** The strings an expression denotes. *)
Inductive Matches : Re -> string -> Prop :=
| MEps : Matches reEps ""
| MClass negated items a :
    inClass negated items a = true ->
    Matches (reClass negated items) (String a "")
| MSeq r1 r2 s1 s2 :
    Matches r1 s1 -> Matches r2 s2 -> Matches (reSeq r1 r2) (s1 +:+ s2)
| MAltL r1 r2 s : Matches r1 s -> Matches (reAlt r1 r2) s
| MAltR r1 r2 s : Matches r2 s -> Matches (reAlt r1 r2) s
| MStarNil r : Matches (reStar r) ""
| MStarCons r s1 s2 :
    Matches r s1 -> Matches (reStar r) s2 -> Matches (reStar r) (s1 +:+ s2).

End RegExp.

(** ** The sign-in screen ([LoginPage]) *)

Module LoginPage.

Import RegExp.

(** [/^[^\s@]+@[^\s@]+\.[^\s@]+$/] *)
Definition emailPattern : Pattern :=
  mkPattern true
    (reSeq (rePlus (reClass true [ciSpace; ciChar "@"]))
       (reSeq (reChar "@")
          (reSeq (rePlus (reClass true [ciSpace; ciChar "@"]))
             (reSeq (reChar ".")
                (rePlus (reClass true [ciSpace; ciChar "@"]))))))
    true.

(** [/^[A-Za-z0-9_]+$/] *)
Definition usernamePattern : Pattern :=
  mkPattern true
    (rePlus (reClass false [ciRange "A" "Z"; ciRange "a" "z";
                            ciRange "0" "9"; ciChar "_"]))
    true.

(** [/[A-Z]/], [/[a-z]/] and [/[0-9]/] *)
Definition upperPattern : Pattern :=
  mkPattern false (reClass false [ciRange "A" "Z"]) false.
Definition lowerPattern : Pattern :=
  mkPattern false (reClass false [ciRange "a" "z"]) false.
Definition digitPattern : Pattern :=
  mkPattern false (reClass false [ciRange "0" "9"]) false.

Record LoginData : Set := mkLoginData {
  login_username : string;
  login_password : string
}.

Record RegisterFormState : Set := mkRegisterForm {
  username : string;
  email : string;
  password : string;
  confirmPassword : string
}.

Definition initialRegisterState : RegisterFormState :=
  mkRegisterForm "" "" "" "".

Inductive RegisterField : Set :=
| fUsername | fEmail | fPassword | fConfirmPassword.

(** [Record<RegisterField, string>], in the order of its keys. *)
Record RegisterErrors : Set := mkErrors {
  usernameError : string;
  emailError : string;
  passwordError : string;
  confirmPasswordError : string
}.

Definition initialRegisterErrors : RegisterErrors := mkErrors "" "" "" "".

Record RegisterTouched : Set := mkTouched {
  usernameTouched : bool;
  emailTouched : bool;
  passwordTouched : bool;
  confirmPasswordTouched : bool
}.

Definition initialRegisterTouched : RegisterTouched :=
  mkTouched false false false false.

Inductive DialogTone : Set := toneSuccess | toneError | toneInfo.

(** The dialog; its description is kept as the list of its lines, each of
    which the source prefixes with a bullet. *)
Record DialogState : Set := mkDialog {
  dialogOpen : bool;
  title : string;
  description : list string;
  tone : DialogTone
}.

(** The state variables that the sign-in and registration handlers read
    or write. *)
Record State : Set := mkState {
  loginData : LoginData;
  registerData : RegisterFormState;
  registerErrors : RegisterErrors;
  registerTouched : RegisterTouched;
  dialogState : DialogState;
  loginLoading : bool;
  registerLoading : bool;
  otpEmail : string;
  otpCode : string;
  otpSent : bool
}.

Definition initial : State :=
  mkState (mkLoginData "" "") initialRegisterState initialRegisterErrors
    initialRegisterTouched (mkDialog false "" [] toneInfo)
    false false "" "" false.

Definition setRegisterData (v : RegisterFormState) (s : State) : State :=
  mkState (loginData s) v (registerErrors s) (registerTouched s)
    (dialogState s) (loginLoading s) (registerLoading s) (otpEmail s)
    (otpCode s) (otpSent s).
Definition setRegisterErrors (v : RegisterErrors) (s : State) : State :=
  mkState (loginData s) (registerData s) v (registerTouched s)
    (dialogState s) (loginLoading s) (registerLoading s) (otpEmail s)
    (otpCode s) (otpSent s).
Definition setRegisterTouched (v : RegisterTouched) (s : State) : State :=
  mkState (loginData s) (registerData s) (registerErrors s) v
    (dialogState s) (loginLoading s) (registerLoading s) (otpEmail s)
    (otpCode s) (otpSent s).
Definition setDialogState (v : DialogState) (s : State) : State :=
  mkState (loginData s) (registerData s) (registerErrors s)
    (registerTouched s) v (loginLoading s) (registerLoading s) (otpEmail s)
    (otpCode s) (otpSent s).
Definition setLoginLoading (v : bool) (s : State) : State :=
  mkState (loginData s) (registerData s) (registerErrors s)
    (registerTouched s) (dialogState s) v (registerLoading s) (otpEmail s)
    (otpCode s) (otpSent s).
Definition setRegisterLoading (v : bool) (s : State) : State :=
  mkState (loginData s) (registerData s) (registerErrors s)
    (registerTouched s) (dialogState s) (loginLoading s) v (otpEmail s)
    (otpCode s) (otpSent s).
Definition setOtpCode (v : string) (s : State) : State :=
  mkState (loginData s) (registerData s) (registerErrors s)
    (registerTouched s) (dialogState s) (loginLoading s) (registerLoading s)
    (otpEmail s) v (otpSent s).
Definition setOtpSent (v : bool) (s : State) : State :=
  mkState (loginData s) (registerData s) (registerErrors s)
    (registerTouched s) (dialogState s) (loginLoading s) (registerLoading s)
    (otpEmail s) (otpCode s) v.

(** One constructor per [toast({...})] call site of the three handlers,
    with the values interpolated into its text. *)
Inductive Toast : Set :=
| tMissingFields
| tWelcomeBack (user : string)
| tLoginFailed (detail : string)
| tLoginError
| tInvalidEmail
| tIncompleteOtp
| tWelcomeBackEmail (user : string)
| tVerificationFailed (detail : string)
| tVerificationError
| tAccountCreated (user : string).

Inductive Effect : Set :=
| toast (t : Toast)
| requestLogin (body : LoginData)
| requestVerifyOtp (email otp : string)
| requestRegister (body : RegisterFormState)
| setItem (key value : string)
| onLogin (user : string).

Definition M : Type := State -> State * list Effect.

Definition skip : M := fun s => (s, []).
Definition upd (f : State -> State) : M := fun s => (f s, []).
Definition emit (e : Effect) : M := fun s => (s, [e]).
Definition seq (c1 c2 : M) : M :=
  fun s => let r1 := c1 s in
           let r2 := c2 (fst r1) in
           (fst r2, (snd r1 ++ snd r2)%list).

Declare Scope login_scope.
Delimit Scope login_scope with login.
Notation "c1 ;; c2" := (seq c1 c2)
  (at level 100, c2 at level 200, right associativity) : login_scope.
Local Open Scope login_scope.

Definition invoke (h : State -> M) : M := fun s => h s s.

(** *** Registration form validation *)

Definition validateRegisterField (field : RegisterField) (value : string)
    (data : RegisterFormState) : string :=
  let trimmed := JS.trim value in
  match field with
  | fUsername =>
      if negb (JS.truthy trimmed) then "Username is required."
      else if JS.length trimmed <? 3
      then "Username must be at least 3 characters."
      else if negb (test usernamePattern trimmed)
      then "Only letters, numbers, and underscores are allowed."
      else ""
  | fEmail =>
      if negb (JS.truthy trimmed) then "Email is required."
      else if negb (test emailPattern trimmed)
      then "Please enter a valid email address."
      else ""
  | fPassword =>
      if negb (JS.truthy value) then "Password is required."
      else if JS.length value <? 8
      then "Password must be at least 8 characters."
      else if negb (test upperPattern value) || negb (test lowerPattern value)
              || negb (test digitPattern value)
      then "Use upper & lower case letters plus a number for strength."
      else ""
  | fConfirmPassword =>
      if negb (JS.truthy value) then "Please confirm your password."
      else if negb (String.eqb value (password data))
      then "Passwords do not match."
      else ""
  end.

(** [Object.values(errors).filter(Boolean)], one line each. *)
Definition composeErrorList (errors : RegisterErrors) : list string :=
  List.filter JS.truthy
    [usernameError errors; emailError errors; passwordError errors;
     confirmPasswordError errors].

Definition showDialog (dialogTone : DialogTone) (dialogTitle : string)
    (lines : list string) : M :=
  upd (setDialogState (mkDialog true dialogTitle lines dialogTone)).

Definition evaluateErrors (data : RegisterFormState) : RegisterErrors :=
  mkErrors (validateRegisterField fUsername (username data) data)
    (validateRegisterField fEmail (email data) data)
    (validateRegisterField fPassword (password data) data)
    (validateRegisterField fConfirmPassword (confirmPassword data) data).

(** [Object.values(evaluatedErrors).some(Boolean)] *)
Definition hasErrors (errors : RegisterErrors) : bool :=
  existsb JS.truthy
    [usernameError errors; emailError errors; passwordError errors;
     confirmPasswordError errors].

(** [validateRegisterForm]: the value it returns and the state updates
    it makes. *)
Definition validateRegisterForm (data : RegisterFormState) : bool * M :=
  let evaluatedErrors := evaluateErrors data in
  (negb (hasErrors evaluatedErrors),
   upd (setRegisterErrors evaluatedErrors) ;;
   upd (setRegisterTouched (mkTouched true true true true)) ;;
   if hasErrors evaluatedErrors
   then showDialog toneError "Please review your details"
          (composeErrorList evaluatedErrors)
   else skip).

Definition resetRegisterForm : M :=
  upd (setRegisterData initialRegisterState) ;;
  upd (setRegisterErrors initialRegisterErrors) ;;
  upd (setRegisterTouched initialRegisterTouched).

(** *** Password sign-in *)

(** What awaiting the login endpoint and its body yields: an ok response
    with the three fields the handler reads, a response that is not ok
    with its optional detail, or a failure of the request or of reading
    the body. *)
Inductive LoginOutcome : Set :=
| loginOk (access refresh user : string)
| loginRejected (detail : option string)
| loginThrew.

Definition handlePasswordLogin (o : LoginOutcome) (c : State) : M :=
  if loginLoading c then skip
  else if negb (JS.truthy (login_username (loginData c)))
          || negb (JS.truthy (login_password (loginData c)))
  then emit (toast tMissingFields)
  else
    upd (setLoginLoading true) ;;
    emit (requestLogin (loginData c)) ;;
    match o with
    | loginOk access refresh user =>
        emit (setItem "accessToken" access) ;;
        emit (setItem "refreshToken" refresh) ;;
        emit (toast (tWelcomeBack user)) ;;
        emit (onLogin user)
    | loginRejected detail =>
        emit (toast (tLoginFailed
                       (if Storage.truthy detail then default "" detail
                        else "Invalid username or password")))
    | loginThrew => emit (toast tLoginError)
    end ;;
    upd (setLoginLoading false).

(** *** One-time-code sign-in *)

Definition trimmedOtpEmail (c : State) : string := JS.trim (otpEmail c).

Definition isOtpEmailValid (c : State) : bool :=
  JS.truthy (trimmedOtpEmail c) && test emailPattern (trimmedOtpEmail c).

(** The fields of the verification response that the handler reads;
    [None] is a field that is missing or null. *)
Record OtpBody : Set := mkOtpBody {
  otp_access : option string;
  otp_refresh : option string;
  otp_username : option string;
  otp_user_username : option string;
  otp_detail : option string;
  otp_message : option string
}.

(** A response with its body ([None] for a null body), or a failure of
    the request or of reading the body. *)
Inductive OtpOutcome : Set :=
| otpResponded (ok : bool) (data : option OtpBody)
| otpThrew.

Definition handleVerifyOtp (o : OtpOutcome) (c : State) : M :=
  if loginLoading c then skip
  else if negb (isOtpEmailValid c) then emit (toast tInvalidEmail)
  else if JS.length (otpCode c) <? 6 then emit (toast tIncompleteOtp)
  else
    upd (setLoginLoading true) ;;
    emit (requestVerifyOtp (trimmedOtpEmail c) (otpCode c)) ;;
    match o with
    | otpResponded ok data =>
        let access := data ≫= otp_access in
        let refresh := data ≫= otp_refresh in
        if ok && Storage.truthy access && Storage.truthy refresh then
          emit (setItem "accessToken" (default "" access)) ;;
          emit (setItem "refreshToken" (default "" refresh)) ;;
          let user :=
            match data ≫= otp_username with
            | Some u => u
            | None =>
                match data ≫= otp_user_username with
                | Some u => u
                | None => trimmedOtpEmail c
                end
            end in
          emit (toast (tWelcomeBackEmail user)) ;;
          upd (setOtpSent false) ;;
          upd (setOtpCode "") ;;
          emit (onLogin user)
        else
          let detail :=
            if Storage.truthy (data ≫= otp_detail)
            then default "" (data ≫= otp_detail)
            else if Storage.truthy (data ≫= otp_message)
            then default "" (data ≫= otp_message)
            else if negb (Storage.truthy access)
                    || negb (Storage.truthy refresh)
            then "Login tokens were not returned by the server."
            else "Invalid or expired OTP. Please request a new code." in
          emit (toast (tVerificationFailed detail))
    | otpThrew => emit (toast tVerificationError)
    end ;;
    upd (setLoginLoading false).

(** *** Registration *)

(** The [detail] of a rejected registration: missing, a text, or an
    object with the first message of each field's list. *)
Inductive Detail : Set :=
| detailAbsent
| detailText (message : string)
| detailFields (forUsername forEmail forPassword forConfirmPassword
                : option string).

Definition apiError (detail : Detail) : string :=
  match detail with
  | detailAbsent => "Please check your input"
  | detailText message =>
      if JS.truthy message then message else "Please check your input"
  | detailFields forUsername forEmail forPassword forConfirmPassword =>
      if Storage.truthy forUsername then default "" forUsername
      else if Storage.truthy forEmail then default "" forEmail
      else if Storage.truthy forPassword then default "" forPassword
      else if Storage.truthy forConfirmPassword
      then default "" forConfirmPassword
      else "[object Object]"
  end.

Inductive RegisterOutcome : Set :=
| registerOk (access refresh user : string)
| registerRejected (detail : Detail)
| registerThrew.

Definition handleRegister (o : RegisterOutcome) (c : State) : M :=
  if registerLoading c then skip
  else
    let validation := validateRegisterForm (registerData c) in
    snd validation ;;
    if negb (fst validation) then skip
    else
      upd (setRegisterLoading true) ;;
      emit (requestRegister (registerData c)) ;;
      match o with
      | registerOk access refresh user =>
          emit (setItem "accessToken" access) ;;
          emit (setItem "refreshToken" refresh) ;;
          resetRegisterForm ;;
          emit (toast (tAccountCreated user)) ;;
          emit (onLogin user)
      | registerRejected detail =>
          showDialog toneError "Registration failed" [apiError detail]
      | registerThrew =>
          showDialog toneError "Registration error"
            ["Unable to connect to the server. Please check if the backend server is running and try again."]
      end ;;
      upd (setRegisterLoading false).

(** *** Reading an effect list *)

Definition isRequest (e : Effect) : bool :=
  match e with
  | requestLogin _ | requestVerifyOtp _ _ | requestRegister _ => true
  | _ => false
  end.

End LoginPage.

(** ** The sign-in screen under the router *)

Module SignIn.

(** What an effect of the sign-in screen does to the router and to the
    persisted storage: [localStorage.setItem] and the [onLogin] prop,
    which is the router's [handleLogin]. *)
Definition perform (a : Index.State * gmap string string)
    (e : LoginPage.Effect) : Index.State * gmap string string :=
  match e with
  | LoginPage.setItem key value => (fst a, Storage.setItem (snd a) key value)
  | LoginPage.onLogin user => Index.handleLogin user a
  | _ => a
  end.

Definition performAll (es : list LoginPage.Effect)
    (a : Index.State * gmap string string) : Index.State * gmap string string :=
  foldl perform a es.

(** The router of a page that is loaded again over the given storage. *)
Definition reload (a : Index.State * gmap string string) : Index.State :=
  Index.mount (snd a).

End SignIn.

(** ** What the registration rules say about the characters of a field *)

Module Rules.

Definition chars (s : string) : list ascii := String.list_ascii_of_string s.

Definition code (a : ascii) : N := N_of_ascii a.

Definition isUpper (a : ascii) : bool := ((65 <=? code a) && (code a <=? 90))%N.
Definition isLower (a : ascii) : bool := ((97 <=? code a) && (code a <=? 122))%N.
Definition isDigit (a : ascii) : bool := ((48 <=? code a) && (code a <=? 57))%N.
Definition isWordChar (a : ascii) : bool :=
  isUpper a || isLower a || isDigit a || Ascii.eqb a "_".

(** A non-empty run of code units, none of them white space or an at
    sign. *)
Definition plain (s : string) : Prop :=
  s <> ""
  /\ Forall (fun a => JS.isWhiteSpace a = false /\ a <> "@"%char) (chars s).

(** local part, at sign, domain, dot, ending. *)
Definition emailShape (s : string) : Prop :=
  exists l d t, s = l +:+ "@" +:+ d +:+ "." +:+ t
                /\ plain l /\ plain d /\ plain t.

(** Only white space. *)
Definition blank (s : string) : Prop :=
  Forall (fun a => JS.isWhiteSpace a = true) (chars s).

End Rules.

(** A filled-in registration form and sign-in forms. *)
Module SignInSamples.

Import LoginPage.

Definition annForm : RegisterFormState :=
  mkRegisterForm "ann_01" "ann@banana.io" "Secret123" "Secret123".

(** The same with white space around the username. *)
Definition paddedForm : RegisterFormState :=
  mkRegisterForm "  ann_01 " "ann@banana.io" "Secret123" "Secret123".

Definition registering (data : RegisterFormState) : State :=
  setRegisterData data initial.

(** The one-time-code form, code entered. *)
Definition otpReady : State :=
  mkState (mkLoginData "" "") initialRegisterState initialRegisterErrors
    initialRegisterTouched (mkDialog false "" [] toneInfo)
    false false " ann@banana.io " "123456" true.

End SignInSamples.

(** * Properties *)

Import GamePage Samples.
Local Open Scope list_scope.
Local Open Scope cmd_scope.

(** ** Session startup *)

Section Startup.

Lemma truthy_Some (v : string) : v <> "" -> Storage.truthy (Some v) = true.
Proof.
  intros Hv. unfold Storage.truthy.
  destruct (String.eqb_spec v ""); [contradiction | reflexivity].
Qed.

Lemma truthy_holds (ls : gmap string string) (key : string) :
  Storage.truthy (Storage.getItem ls key) = true <-> Index.holds ls key.
Proof.
  unfold Index.holds, Storage.truthy. split.
  - destruct (Storage.getItem ls key) as [v|]; [| discriminate].
    destruct (String.eqb_spec v ""); [discriminate |]. eauto.
  - intros (v & -> & Hv). destruct (String.eqb_spec v ""); done.
Qed.

Lemma not_holds_falsy (ls : gmap string string) (key : string) :
  ~ Index.holds ls key -> Storage.truthy (Storage.getItem ls key) = false.
Proof.
  intros Hn. destruct (Storage.truthy _) eqn:E; [| reflexivity].
  apply truthy_holds in E. contradiction.
Qed.

(** C3.  Startup routing.  With a remembered username and an access or a
    refresh credential in persisted storage the router mounts on the
    playing view (with that username); with a username but no credential
    it stays on landing with the username filled in; without a username
    it stays on landing with no username set.  A key "holds" a value when
    it is stored with a non-empty string. *)
Theorem startup_routing (ls : gmap string string) :
  (forall u, Storage.getItem ls "banana-user" = Some u -> u <> "" ->
     Index.holds ls "accessToken" \/ Index.holds ls "refreshToken" ->
     Index.view (Index.mount ls) = Index.playing
     /\ Index.username (Index.mount ls) = u)
  /\ (forall u, Storage.getItem ls "banana-user" = Some u -> u <> "" ->
        ~ Index.holds ls "accessToken" -> ~ Index.holds ls "refreshToken" ->
        Index.view (Index.mount ls) = Index.landing
        /\ Index.username (Index.mount ls) = u)
  /\ (~ Index.holds ls "banana-user" ->
        Index.view (Index.mount ls) = Index.landing
        /\ Index.username (Index.mount ls) = "").
Proof.
  unfold Index.mount, Index.mountEffect.
  split; [| split].
  - intros u Hu Hne Hcred. rewrite Hu, (truthy_Some _ Hne).
    assert (Storage.truthy (Storage.getItem ls "accessToken")
            || Storage.truthy (Storage.getItem ls "refreshToken") = true)
      as ->.
    { apply orb_true_iff. destruct Hcred as [Hc | Hc]; [left | right];
        by apply truthy_holds. }
    by split.
  - intros u Hu Hne Hacc Href.
    rewrite Hu, (truthy_Some _ Hne), !not_holds_falsy by assumption.
    by split.
  - intros Hnone. apply not_holds_falsy in Hnone.
    destruct (Storage.getItem ls "banana-user"); [rewrite Hnone |]; by split.
Qed.

Lemma startup_routing_witness :
  (Storage.getItem storeWithToken "banana-user" = Some "ann"
   /\ "ann" <> ""
   /\ Index.holds storeWithToken "refreshToken"
   /\ Index.view (Index.mount storeWithToken) = Index.playing
   /\ Index.username (Index.mount storeWithToken) = "ann")
  /\ (Storage.getItem storeNameOnly "banana-user" = Some "ann"
      /\ ~ Index.holds storeNameOnly "accessToken"
      /\ ~ Index.holds storeNameOnly "refreshToken"
      /\ Index.view (Index.mount storeNameOnly) = Index.landing
      /\ Index.username (Index.mount storeNameOnly) = "ann")
  /\ (~ Index.holds storeEmpty "banana-user"
      /\ Index.view (Index.mount storeEmpty) = Index.landing
      /\ Index.username (Index.mount storeEmpty) = "").
Proof.
  assert (Storage.getItem storeWithToken "banana-user" = Some "ann") as Hu1
    by (vm_compute; reflexivity).
  assert (Index.holds storeWithToken "refreshToken") as Hr1.
  { exists "r1". split; [vm_compute; reflexivity | discriminate]. }
  assert (Storage.getItem storeNameOnly "banana-user" = Some "ann") as Hu2
    by (vm_compute; reflexivity).
  assert (forall key, key <> "banana-user" -> ~ Index.holds storeNameOnly key)
    as Hn2.
  { intros key Hkey (v & Hv & _). unfold Storage.getItem, storeNameOnly in Hv.
    rewrite lookup_insert_ne, lookup_empty in Hv by congruence.
    discriminate Hv. }
  assert (~ Index.holds storeEmpty "banana-user") as Hn3.
  { intros (v & Hv & _). unfold Storage.getItem, storeEmpty in Hv.
    rewrite lookup_empty in Hv. discriminate Hv. }
  split; [| split].
  - split; [exact Hu1 |]. split; [discriminate |]. split; [exact Hr1 |].
    apply (proj1 (startup_routing storeWithToken) "ann");
      [exact Hu1 | discriminate | right; exact Hr1].
  - split; [exact Hu2 |].
    split; [apply Hn2; discriminate |]. split; [apply Hn2; discriminate |].
    apply (proj1 (proj2 (startup_routing storeNameOnly)) "ann");
      [exact Hu2 | discriminate | apply Hn2; discriminate
      | apply Hn2; discriminate].
  - split; [exact Hn3 |].
    apply (proj2 (proj2 (startup_routing storeEmpty))). exact Hn3.
Defined.

End Startup.

(** ** The countdown *)

Section Countdown.

(** *** The dependency test *)

Lemma depsChanged_same (old new : State) :
  timeLeft new = timeLeft old -> isTimerFrozen new = isTimerFrozen old ->
  depsChanged old new = false.
Proof.
  intros Ht Hf. unfold depsChanged.
  rewrite Ht, Hf, Z.eqb_refl, eqb_reflx. reflexivity.
Qed.

Lemma depsChanged_time (old new : State) :
  timeLeft new <> timeLeft old -> depsChanged old new = true.
Proof.
  intros Ht. unfold depsChanged.
  destruct (Z.eqb_spec (timeLeft old) (timeLeft new)); [congruence | done].
Qed.

Lemma depsChanged_frozen (old new : State) :
  isTimerFrozen new <> isTimerFrozen old -> depsChanged old new = true.
Proof.
  intros Hf. unfold depsChanged.
  destruct (isTimerFrozen old), (isTimerFrozen new); try congruence;
    by rewrite andb_false_r.
Qed.

(** *** One run of the timer effect *)

Lemma timerEffect_running (s : State) :
  0 < timeLeft s -> isTimerFrozen s = false ->
  timerEffect s s = (setTimerArmed true s, []).
Proof.
  intros Ht Hf. unfold timerEffect.
  destruct (Z.leb_spec (timeLeft s) 0); [lia |]. rewrite Hf.
  by destruct s.
Qed.

Lemma timerEffect_frozen (s : State) :
  0 < timeLeft s -> isTimerFrozen s = true ->
  timerEffect s s = (setTimerArmed false s, []).
Proof.
  intros Ht Hf. unfold timerEffect.
  destruct (Z.leb_spec (timeLeft s) 0); [lia |]. rewrite Hf.
  by destruct s.
Qed.

(** With no time left the effect skips: the streak is reset, a puzzle is
    requested, the timer is unfrozen and no interval is installed. *)
Lemma timerEffect_expired (s : State) :
  timeLeft s <= 0 ->
  timerEffect s s = (skipped s, [toast tSkipped; requestPuzzle (difficulty s)]).
Proof.
  intros Ht. unfold timerEffect.
  destruct (Z.leb_spec (timeLeft s) 0); [| lia].
  by destruct s.
Qed.

Lemma skipped_fields (s : State) :
  timeLeft (skipped s) = timeLeft s /\ isTimerFrozen (skipped s) = false
  /\ timerArmed (skipped s) = false /\ streak (skipped s) = 0
  /\ combo (skipped s) = combo s /\ difficulty (skipped s) = difficulty s.
Proof. by destruct s. Qed.

Lemma setTimerArmed_fields (b : bool) (s : State) :
  timeLeft (setTimerArmed b s) = timeLeft s
  /\ isTimerFrozen (setTimerArmed b s) = isTimerFrozen s
  /\ timerArmed (setTimerArmed b s) = b.
Proof. by destruct s. Qed.

(** *** The render after a handler *)

Lemma commit_unchanged (old new : State) :
  timeLeft new = timeLeft old -> isTimerFrozen new = isTimerFrozen old ->
  commit old new = (new, []).
Proof.
  intros Ht Hf. unfold commit. by rewrite depsChanged_same.
Qed.

Lemma commit_running (old new : State) :
  depsChanged old new = true -> 0 < timeLeft new ->
  isTimerFrozen new = false ->
  commit old new = (setTimerArmed true new, []).
Proof.
  intros Hd Ht Hf. unfold commit.
  rewrite Hd, (timerEffect_running _ Ht Hf). cbn [fst snd].
  destruct (setTimerArmed_fields true new) as (E1 & E2 & _).
  by rewrite depsChanged_same.
Qed.

Lemma commit_frozen (old new : State) :
  depsChanged old new = true -> 0 < timeLeft new ->
  isTimerFrozen new = true ->
  commit old new = (setTimerArmed false new, []).
Proof.
  intros Hd Ht Hf. unfold commit.
  rewrite Hd, (timerEffect_frozen _ Ht Hf). cbn [fst snd].
  destruct (setTimerArmed_fields false new) as (E1 & E2 & _).
  by rewrite depsChanged_same.
Qed.

Lemma commit_expired (old new : State) :
  depsChanged old new = true -> timeLeft new <= 0 ->
  isTimerFrozen new = false ->
  commit old new
  = (skipped new, [toast tSkipped; requestPuzzle (difficulty new)]).
Proof.
  intros Hd Ht Hf. unfold commit.
  rewrite Hd, (timerEffect_expired _ Ht). cbn [fst snd].
  destruct (skipped_fields new) as (E1 & E2 & _).
  rewrite depsChanged_same; [reflexivity | exact E1 | congruence].
Qed.

(** The effect unfreezes the timer when it skips; if the timer was frozen
    this is a change of dependency, and the effect runs, and skips, a
    second time. *)
Lemma commit_expired_frozen (old new : State) :
  depsChanged old new = true -> timeLeft new <= 0 ->
  isTimerFrozen new = true ->
  commit old new
  = (skipped new,
     [toast tSkipped; requestPuzzle (difficulty new);
      toast tSkipped; requestPuzzle (difficulty new)]).
Proof.
  intros Hd Ht Hf. unfold commit.
  rewrite Hd, (timerEffect_expired _ Ht). cbn [fst snd].
  destruct (skipped_fields new) as (E1 & E2 & _ & _ & _ & E6).
  rewrite depsChanged_frozen by congruence.
  rewrite timerEffect_expired by lia. cbn [fst snd app]. rewrite E6.
  clear. destruct new. vm_compute. reflexivity.
Qed.

(** The effect loop settles: when the first run of the effect changed a
    dependency, the second run changes none, so [commit] need not run it a
    third time. *)
Lemma commit_settles (new : State) :
  depsChanged new (timerEffect new new).1 = true ->
  depsChanged (timerEffect new new).1
    (timerEffect (timerEffect new new).1 (timerEffect new new).1).1 = false.
Proof.
  destruct (Z.leb_spec (timeLeft new) 0) as [Hle | Hgt].
  - intros _. rewrite (timerEffect_expired _ Hle). cbn [fst].
    destruct (skipped_fields new) as (E1 & E2 & _).
    rewrite timerEffect_expired by lia. cbn [fst].
    destruct (skipped_fields (skipped new)) as (F1 & F2 & _).
    apply depsChanged_same; congruence.
  - destruct (isTimerFrozen new) eqn:Hf.
    + rewrite (timerEffect_frozen _ Hgt Hf). cbn [fst].
      destruct (setTimerArmed_fields false new) as (E1 & E2 & _).
      rewrite depsChanged_same by assumption. discriminate.
    + rewrite (timerEffect_running _ Hgt Hf). cbn [fst].
      destruct (setTimerArmed_fields true new) as (E1 & E2 & _).
      rewrite depsChanged_same by assumption. discriminate.
Qed.

Lemma dispatch_unfold (h : State -> M) (st : State) :
  dispatch h st
  = ((commit st (invoke h st).1).1,
     (invoke h st).2 ++ (commit st (invoke h st).1).2).
Proof. reflexivity. Qed.

(** *** The timer invariant *)

Lemma depsChanged_false (old new : State) :
  depsChanged old new = false ->
  timeLeft new = timeLeft old /\ isTimerFrozen new = isTimerFrozen old.
Proof.
  unfold depsChanged. intros H. apply negb_false_iff, andb_true_iff in H.
  destruct H as [Ht Hf]. apply Z.eqb_eq in Ht. apply eqb_prop in Hf.
  by split.
Qed.






(** *** Ticks *)

(** A tick while the interval is not installed does nothing. *)
Lemma tick_idle (st : State) : timerArmed st = false -> tick st = (st, []).
Proof.
  intros Ha. unfold tick. rewrite dispatch_unfold.
  unfold invoke, intervalCallback. rewrite Ha. cbn [skip fst snd app].
  by rewrite commit_unchanged.
Qed.

Lemma ticks_idle (k : nat) (st : State) :
  timerArmed st = false -> ticks k st = (st, []).
Proof.
  intros Ha. induction k as [| k IH]; [reflexivity |].
  cbn [ticks]. unfold seq. rewrite (tick_idle _ Ha). cbn [fst snd app].
  by rewrite IH.
Qed.

Lemma setTimeLeft_fields (v : Z) (st : State) :
  timeLeft (setTimeLeft v st) = v
  /\ streak (setTimeLeft v st) = streak st
  /\ timerArmed (setTimeLeft v st) = timerArmed st
  /\ isTimerFrozen (setTimeLeft v st) = isTimerFrozen st
  /\ difficulty (setTimeLeft v st) = difficulty st.
Proof. by destruct st. Qed.

Lemma tick_armed (st : State) :
  timerArmed st = true ->
  invoke intervalCallback st = (setTimeLeft (timeLeft st - 1) st, []).
Proof. intros Ha. unfold invoke, intervalCallback. by rewrite Ha. Qed.

(** A tick of a running timer with more than one second left. *)
Lemma tick_running (st : State) :
  timerArmed st = true -> isTimerFrozen st = false -> 1 < timeLeft st ->
  tick st = (setTimeLeft (timeLeft st - 1) st, []).
Proof.
  intros Ha Hf Ht. unfold tick.
  rewrite dispatch_unfold, (tick_armed _ Ha). cbn [fst snd app].
  destruct (setTimeLeft_fields (timeLeft st - 1) st) as (E1 & _ & E3 & E4 & _).
  rewrite commit_running;
    [| apply depsChanged_time; lia | lia | congruence].
  cbn [fst snd]. f_equal.
  destruct st. cbn in Ha. by subst.
Qed.

(** The tick that takes the last second: the effect calls [handleSkip]
    and installs no new interval. *)
Lemma tick_expire (st : State) :
  timerArmed st = true -> isTimerFrozen st = false -> timeLeft st = 1 ->
  tick st = (expired st, [toast tSkipped; requestPuzzle (difficulty st)]).
Proof.
  intros Ha Hf Ht. unfold tick.
  rewrite dispatch_unfold, (tick_armed _ Ha). cbn [fst snd app].
  destruct (setTimeLeft_fields (timeLeft st - 1) st)
    as (E1 & _ & E3 & E4 & E5).
  rewrite commit_expired;
    [| apply depsChanged_time; lia | lia | congruence].
  cbn [fst snd]. rewrite E5, Ht. reflexivity.
Qed.

Lemma count_app (p : Effect -> bool) (es1 es2 : list Effect) :
  count p (es1 ++ es2) = (count p es1 + count p es2)%nat.
Proof. unfold count. by rewrite List.filter_app, length_app. Qed.

Lemma ticks_S (k : nat) (st : State) :
  ticks (S k) st =
  ((ticks k (tick st).1).1, (tick st).2 ++ (ticks k (tick st).1).2).
Proof. reflexivity. Qed.

(** Once expired, the round stays as it is under further ticks. *)
Lemma ticks_expire (k : nat) (st : State) :
  timerArmed st = true -> isTimerFrozen st = false -> timeLeft st = 1 ->
  ticks (S k) st
  = (expired st, [toast tSkipped; requestPuzzle (difficulty st)]).
Proof.
  intros Ha Hf Ht. rewrite ticks_S, (tick_expire _ Ha Hf Ht).
  cbn [fst snd]. rewrite ticks_idle by (by destruct st). reflexivity.
Qed.

Lemma ticks_running (k : nat) (st : State) :
  timerArmed st = true -> isTimerFrozen st = false -> 1 < timeLeft st ->
  ticks (S k) st = ticks k (setTimeLeft (timeLeft st - 1) st).
Proof.
  intros Ha Hf Ht. rewrite ticks_S, (tick_running _ Ha Hf Ht).
  cbn [fst snd app]. by destruct (ticks k _).
Qed.

Lemma expired_fields (st : State) :
  timeLeft (expired st) = 0 /\ streak (expired st) = 0
  /\ timerArmed (expired st) = false /\ combo (expired st) = combo st.
Proof. by destruct st. Qed.

(** One tick of a running timer takes exactly one second off. *)
Lemma tick_decrements (st : State) :
  timerArmed st = true -> isTimerFrozen st = false -> 0 < timeLeft st ->
  timeLeft (tick st).1 = timeLeft st - 1.
Proof.
  intros Ha Hf Ht. destruct (decide (timeLeft st = 1)) as [H1 | H1].
  - rewrite (tick_expire _ Ha Hf H1), H1. cbn [fst].
    by destruct (expired_fields st) as (-> & _).
  - rewrite (tick_running _ Ha Hf) by lia. cbn [fst].
    by destruct (setTimeLeft_fields (timeLeft st - 1) st) as (-> & _).
Qed.

(** The state and the effects after [k] ticks of a running timer. *)
Lemma ticks_countdown (k : nat) (st : State) :
  timerArmed st = true -> isTimerFrozen st = false -> 0 < timeLeft st ->
  let r := ticks k st in
  timeLeft r.1 = Z.max 0 (timeLeft st - Z.of_nat k)
  /\ count isSkipToast r.2 = (if timeLeft st <=? Z.of_nat k then 1%nat else 0%nat)
  /\ count isPuzzleRequest r.2
     = (if timeLeft st <=? Z.of_nat k then 1%nat else 0%nat)
  /\ count isCheckRequest r.2 = 0%nat
  /\ (timeLeft st <= Z.of_nat k ->
      streak r.1 = 0 /\ timerArmed r.1 = false)
  /\ (Z.of_nat k < timeLeft st ->
      timerArmed r.1 = true /\ isTimerFrozen r.1 = false
      /\ streak r.1 = streak st
      /\ timeLeft (tick r.1).1 = timeLeft r.1 - 1).
Proof.
  revert st. induction k as [| k IH]; intros st Ha Hf Ht r; subst r.
  - change (ticks 0 st) with (st, @nil Effect). cbn [fst snd].
    destruct (Z.leb_spec (timeLeft st) (Z.of_nat 0)) as [Hle | Hgt]; [lia |].
    split; [lia |]. do 3 (split; [reflexivity |]).
    split; [lia |]. intros _. auto using tick_decrements.
  - destruct (decide (timeLeft st = 1)) as [H1 | H1].
    + rewrite (ticks_expire k st Ha Hf H1). cbn [fst snd].
      destruct (expired_fields st) as (Etl & Est & Earm & _).
      destruct (Z.leb_spec (timeLeft st) (Z.of_nat (S k))) as [Hle | Hgt];
        [| lia].
      rewrite Etl, Est, Earm.
      split; [lia |]. do 3 (split; [reflexivity |]).
      split; [done | lia].
    + rewrite (ticks_running k st Ha Hf) by lia.
      destruct (setTimeLeft_fields (timeLeft st - 1) st)
        as (Etl & Est & Earm & Efr & _).
      destruct (IH (setTimeLeft (timeLeft st - 1) st))
        as (IH1 & IH2 & IH3 & IH4 & IH5 & IH6);
        [congruence | congruence | lia |].
      rewrite Etl in IH1, IH2, IH3, IH5, IH6. rewrite Est in IH6.
      rewrite IH2, IH3, IH4.
      destruct (Z.leb_spec (timeLeft st - 1) (Z.of_nat k));
        destruct (Z.leb_spec (timeLeft st) (Z.of_nat (S k))); try lia.
      * split; [rewrite IH1; lia |]. do 3 (split; [reflexivity |]).
        split; [intros _; apply IH5; lia | lia].
      * split; [rewrite IH1; lia |]. do 3 (split; [reflexivity |]).
        split; [lia | intros _; apply IH6; lia].
Qed.



End Countdown.

(** ** Skipping *)

Section Skip.

(** C2, as the claim states it, fails: a skip leaves the local combo
    counter alone.  Skipping with a combo of three keeps the three. *)
Lemma skip_resets_combo_counterexample :
  ~ (forall st : State,
       let r := invoke handleSkip st in
       streak r.1 = 0 /\ combo r.1 = 0
       /\ count isPuzzleRequest r.2 = 1%nat
       /\ count isCheckRequest r.2 = 0%nat).
Proof.
  intros H. destruct (H runningThree) as (_ & Hcombo & _).
  vm_compute in Hcombo. discriminate.
Qed.

(** C2, amended.  Every skip, whether the explicit Skip action or the
    tick that takes the timer to zero, resets the local streak to 0 and
    leaves the local combo counter unchanged, requests exactly one new
    puzzle and does not call the answer-verification endpoint. *)
Theorem skip_resets_streak (st : State) :
  (let r := invoke handleSkip st in
   streak r.1 = 0 /\ combo r.1 = combo st
   /\ count isPuzzleRequest r.2 = 1%nat
   /\ count isCheckRequest r.2 = 0%nat)
  /\ (timerArmed st = true -> isTimerFrozen st = false -> timeLeft st = 1 ->
      let r := tick st in
      timeLeft r.1 = 0
      /\ streak r.1 = 0 /\ combo r.1 = combo st
      /\ count isPuzzleRequest r.2 = 1%nat
      /\ count isCheckRequest r.2 = 0%nat).
Proof.
  split.
  - by destruct st.
  - intros Ha Hf Ht r. subst r. rewrite (tick_expire _ Ha Hf Ht).
    cbn [fst snd]. destruct (expired_fields st) as (-> & -> & _ & ->).
    by repeat split.
Qed.

Lemma skip_resets_streak_witness :
  (timerArmed (setTimeLeft 1 runningThree) = true
   /\ isTimerFrozen (setTimeLeft 1 runningThree) = false
   /\ timeLeft (setTimeLeft 1 runningThree) = 1)
  /\ timeLeft (tick (setTimeLeft 1 runningThree)).1 = 0
  /\ streak (tick (setTimeLeft 1 runningThree)).1 = 0
  /\ combo (tick (setTimeLeft 1 runningThree)).1 = 3
  /\ count isPuzzleRequest (tick (setTimeLeft 1 runningThree)).2 = 1%nat
  /\ count isCheckRequest (tick (setTimeLeft 1 runningThree)).2 = 0%nat.
Proof.
  split; [by repeat split |].
  apply (proj2 (skip_resets_streak (setTimeLeft 1 runningThree)));
    reflexivity.
Defined.

End Skip.

(** ** The shop and the power-ups *)

Section PowerUps.

Lemma getPowerUp_setPowerUp (t t' : PowerUpType) (v : Z) (p : PowerUps) :
  getPowerUp t' (setPowerUp t v p) = if decide (t' = t) then v else getPowerUp t' p.
Proof. by destruct t, t', p. Qed.

(** C4.  Power-up spend guard.  A purchase the player cannot afford
    changes nothing and performs no effect at all, so no backend call.  An
    affordable purchase takes exactly [cost] off the coins, adds one to the
    chosen power-up count and to no other, and calls the player-data sync
    once, with exactly the new coin balance and the new count of the chosen
    power-up; with an access token in storage that call is one PATCH whose
    body holds both fields. *)
Theorem buy_spend_guard (t : PowerUpType) (cost : Z) (st : State) :
  (coins st < cost -> invoke (buyPowerUp t cost) st = (st, []))
  /\ (cost <= coins st ->
      let r := invoke (buyPowerUp t cost) st in
      let both := [("coins", coins st - cost);
                   (playerField t, getPowerUp t (powerUps st) + 1)] in
      coins r.1 = coins st - cost
      /\ getPowerUp t (powerUps r.1) = getPowerUp t (powerUps st) + 1
      /\ (forall t', t' <> t ->
            getPowerUp t' (powerUps r.1) = getPowerUp t' (powerUps st))
      /\ List.filter isPlayerSync r.2 = [updatePlayerData both]
      /\ (forall ls accessToken,
            Storage.getItem ls "accessToken" = Some accessToken ->
            accessToken <> "" ->
            patchRequests ls r.2 = [mkPatch accessToken both])).
Proof.
  split.
  - intros Hlt. unfold invoke, buyPowerUp.
    destruct (Z.leb_spec cost (coins st)); [lia | reflexivity].
  - intros Hle r both. subst r both. unfold invoke, buyPowerUp.
    destruct (Z.leb_spec cost (coins st)); [| lia].
    destruct st as [? ? ? ? ? ? ? ? ? ? pu ? ? ? ? ? ? ? ? ? ? ?].
    cbn -[Z.add Z.sub]. repeat split.
    + rewrite getPowerUp_setPowerUp. by rewrite decide_True.
    + intros t' Hne. rewrite getPowerUp_setPowerUp. by rewrite decide_False.
    + intros ls accessToken Htok Hne. unfold patchRequests.
      cbn -[Z.add Z.sub]. unfold updatePlayerDataRequest.
      rewrite Htok, (truthy_Some _ Hne). reflexivity.
Qed.

(** An affordable purchase (a hint for all ten coins, token stored) and an
    unaffordable one (a freeze for fifteen). *)
Lemma buy_spend_guard_witness :
  (coins runningThree < 15
   /\ invoke (buyPowerUp puFreeze 15) runningThree = (runningThree, []))
  /\ (10 <= coins runningThree
      /\ Storage.getItem (<["accessToken" := "a1"]> storeWithToken)
           "accessToken" = Some "a1"
      /\ coins (invoke (buyPowerUp puHint 10) runningThree).1 = 0
      /\ hint (powerUps (invoke (buyPowerUp puHint 10) runningThree).1) = 2
      /\ patchRequests (<["accessToken" := "a1"]> storeWithToken)
           (invoke (buyPowerUp puHint 10) runningThree).2
         = [mkPatch "a1" [("coins", 0); ("hints", 2)]]).
Proof.
  assert (coins runningThree < 15) as Hlt by reflexivity.
  assert (10 <= coins runningThree) as Hle by (vm_compute; discriminate).
  assert (Storage.getItem (<["accessToken" := "a1"]> storeWithToken)
            "accessToken" = Some "a1") as Htok by apply lookup_insert_eq.
  split.
  - split; [exact Hlt |].
    apply (proj1 (buy_spend_guard puFreeze 15 runningThree)). exact Hlt.
  - destruct (proj2 (buy_spend_guard puHint 10 runningThree) Hle)
      as (Hc & Hh & _ & _ & Hp).
    split; [exact Hle |]. split; [exact Htok |].
    split; [exact Hc |]. split; [exact Hh |].
    apply (Hp (<["accessToken" := "a1"]> storeWithToken) "a1");
      [exact Htok | discriminate].
Defined.

Lemma useFreeze_applied (st : State) :
  isTimerFrozen st = false -> 0 < freeze (powerUps st) ->
  invoke useFreeze st
  = (frozenBy st,
     [updatePlayerData [("freezes", freeze (powerUps st) - 1)];
      setTimeout cbFreezeEnd 100; toast tTimeFrozen]).
Proof.
  intros Hf Hpos. unfold invoke, useFreeze. rewrite Hf.
  destruct (Z.ltb_spec 0 (freeze (powerUps st))); [| lia].
  reflexivity.
Qed.

Lemma frozenBy_fields (st : State) :
  timeLeft (frozenBy st) = timeLeft st
  /\ isTimerFrozen (frozenBy st) = true
  /\ freeze (powerUps (frozenBy st)) = freeze (powerUps st) - 1
  /\ hint (powerUps (frozenBy st)) = hint (powerUps st)
  /\ superBanana (powerUps (frozenBy st)) = superBanana (powerUps st)
  /\ coins (frozenBy st) = coins st.
Proof. by destruct st as [? ? ? ? ? ? ? ? ? ? [? ? ?] ? ? ? ? ? ? ? ? ? ? ?]. Qed.

Lemma freezeEnd_fields (s : State) :
  timeLeft (freezeEnd s).1 = timeLeft s + 20
  /\ isTimerFrozen (freezeEnd s).1 = false
  /\ powerUps (freezeEnd s).1 = powerUps s
  /\ coins (freezeEnd s).1 = coins s
  /\ (freezeEnd s).2 = [].
Proof. by destruct s. Qed.

(** C8.  Freeze while frozen.  Invoked while the timer is frozen, the
    freeze power-up does nothing: the state, and with it the freeze count
    and the time left, is unchanged and no effect, so no backend sync, is
    performed.  Invoked while not frozen with a positive freeze count it
    takes exactly one off the count, syncs that count, freezes the timer
    and schedules the bonus callback exactly once; the callback adds the
    bonus once, and a second invocation before it runs changes nothing. *)
Theorem freeze_while_frozen (st : State) :
  (isTimerFrozen st = true -> invoke useFreeze st = (st, []))
  /\ (isTimerFrozen st = false -> 0 < freeze (powerUps st) ->
      let r := invoke useFreeze st in
      freeze (powerUps r.1) = freeze (powerUps st) - 1
      /\ isTimerFrozen r.1 = true
      /\ timeLeft r.1 = timeLeft st
      /\ List.filter isPlayerSync r.2
         = [updatePlayerData [("freezes", freeze (powerUps st) - 1)]]
      /\ count isFreezeTimeout r.2 = 1%nat
      /\ timeLeft (freezeEnd r.1).1 = timeLeft st + 20
      /\ invoke useFreeze r.1 = (r.1, [])).
Proof.
  split.
  - intros Hf. unfold invoke, useFreeze. rewrite Hf, andb_false_r.
    reflexivity.
  - intros Hf Hpos r. subst r. rewrite (useFreeze_applied _ Hf Hpos).
    cbn [fst snd].
    destruct (frozenBy_fields st) as (E1 & E2 & E3 & _).
    destruct (freezeEnd_fields (frozenBy st)) as (F1 & _).
    split; [exact E3 |]. split; [exact E2 |]. split; [exact E1 |].
    split; [reflexivity |]. split; [reflexivity |].
    split; [by rewrite F1, E1 |].
    unfold invoke, useFreeze. rewrite E2, andb_false_r. reflexivity.
Qed.

Lemma freeze_while_frozen_witness :
  (isTimerFrozen (setIsTimerFrozen true runningThree) = true
   /\ invoke useFreeze (setIsTimerFrozen true runningThree)
      = (setIsTimerFrozen true runningThree, []))
  /\ (isTimerFrozen runningThree = false
      /\ 0 < freeze (powerUps runningThree)
      /\ freeze (powerUps (invoke useFreeze runningThree).1) = 0
      /\ timeLeft (freezeEnd (invoke useFreeze runningThree).1).1 = 23
      /\ invoke useFreeze (invoke useFreeze runningThree).1
         = ((invoke useFreeze runningThree).1, [])).
Proof.
  assert (0 < freeze (powerUps runningThree)) as Hpos by reflexivity.
  split.
  - split; [reflexivity |].
    apply (proj1 (freeze_while_frozen (setIsTimerFrozen true runningThree))).
    reflexivity.
  - destruct (proj2 (freeze_while_frozen runningThree) eq_refl Hpos)
      as (Hc & _ & _ & _ & _ & Ht & Hi).
    split; [reflexivity |]. split; [exact Hpos |].
    split; [exact Hc |]. split; [exact Ht | exact Hi].
Defined.

(** The render after a freeze removes the interval, so no tick lands in
    the frozen interval. *)
Lemma dispatch_useFreeze_disarms (st : State) :
  isTimerFrozen st = false -> 0 < freeze (powerUps st) -> 0 < timeLeft st ->
  dispatch useFreeze st
  = (setTimerArmed false (frozenBy st), (invoke useFreeze st).2).
Proof.
  intros Hf Hpos Ht.
  rewrite dispatch_unfold, (useFreeze_applied _ Hf Hpos). cbn [fst snd].
  destruct (frozenBy_fields st) as (E1 & E2 & _).
  rewrite commit_frozen;
    [| apply depsChanged_frozen; congruence | lia | exact E2].
  cbn [fst snd]. by rewrite app_nil_r.
Qed.

(** A freeze accepted while no time is left, that is while the puzzle
    request that followed an expiry is still pending, changes the frozen
    flag under the timer effect, which sees no time left and skips; the
    skip unfreezes, which runs the effect, and the skip, once more. *)
Lemma dispatch_useFreeze_expired (st : State) :
  isTimerFrozen st = false -> 0 < freeze (powerUps st) -> timeLeft st <= 0 ->
  count isSkipToast (dispatch useFreeze st).2 = 2%nat
  /\ count isPuzzleRequest (dispatch useFreeze st).2 = 2%nat.
Proof.
  intros Hf Hpos Ht.
  rewrite dispatch_unfold, (useFreeze_applied _ Hf Hpos). cbn [fst snd].
  destruct (frozenBy_fields st) as (E1 & E2 & _).
  rewrite commit_expired_frozen;
    [| apply depsChanged_frozen; congruence | lia | exact E2].
  by split.
Qed.

(** The render after the scheduled callback installs the interval again. *)
Lemma dispatch_freezeEnd (s : State) :
  0 < timeLeft s ->
  dispatch (fun _ => freezeEnd) s = (setTimerArmed true (freezeEnd s).1, []).
Proof.
  intros Ht. rewrite dispatch_unfold.
  change (invoke (fun _ => freezeEnd) s) with (freezeEnd s).
  destruct (freezeEnd_fields s) as (F1 & F2 & _ & _ & F5).
  rewrite commit_running;
    [| apply depsChanged_time; lia | lia | exact F2].
  cbn [fst snd]. by rewrite F5.
Qed.

(** C10.  Freeze bonus magnitude.  Applied with a positive freeze count
    and the timer not frozen, the freeze power-up freezes the timer,
    schedules its callback 100 ms later and announces "+10 seconds"; the
    callback adds exactly 20 to the time left and unfreezes.  Coins, the
    hint count and the super-banana count are the same afterwards.  While
    a round is running no tick lands in the frozen interval, so after it
    the time left is the time at the freeze plus 20. *)
Theorem freeze_adds_twenty (st : State) :
  isTimerFrozen st = false -> 0 < freeze (powerUps st) ->
  let r := invoke useFreeze st in
  let s' := (freezeEnd r.1).1 in
  r.2 = [updatePlayerData [("freezes", freeze (powerUps st) - 1)];
         setTimeout cbFreezeEnd 100; toast tTimeFrozen]
  /\ toastDescription tTimeFrozen = "+10 seconds added to timer!"
  /\ isTimerFrozen r.1 = true
  /\ timeLeft s' = timeLeft st + 20
  /\ isTimerFrozen s' = false
  /\ coins s' = coins st
  /\ hint (powerUps s') = hint (powerUps st)
  /\ superBanana (powerUps s') = superBanana (powerUps st)
  /\ (0 < timeLeft st -> forall k : nat,
      let r' := (dispatch useFreeze ;; ticks k ;;
                 dispatch (fun _ => freezeEnd)) st in
      timeLeft r'.1 = timeLeft st + 20 /\ timerArmed r'.1 = true).
Proof.
  intros Hf Hpos r s'. subst s' r.
  rewrite (useFreeze_applied _ Hf Hpos). cbn [fst snd].
  destruct (frozenBy_fields st) as (E1 & E2 & E3 & E4 & E5 & E6).
  destruct (freezeEnd_fields (frozenBy st)) as (F1 & F2 & F3 & F4 & _).
  split; [reflexivity |]. split; [reflexivity |]. split; [exact E2 |].
  split; [by rewrite F1, E1 |]. split; [exact F2 |].
  split; [by rewrite F4, E6 |]. split; [by rewrite F3, E4 |].
  split; [by rewrite F3, E5 |].
  intros Ht k. unfold seq.
  rewrite (dispatch_useFreeze_disarms _ Hf Hpos Ht). cbn [fst snd].
  destruct (setTimerArmed_fields false (frozenBy st)) as (G1 & G2 & G3).
  rewrite (ticks_idle k _ G3). cbn [fst snd].
  rewrite dispatch_freezeEnd by lia. cbn [fst snd].
  destruct (freezeEnd_fields (setTimerArmed false (frozenBy st)))
    as (H1 & _).
  destruct (setTimerArmed_fields true
              (freezeEnd (setTimerArmed false (frozenBy st))).1)
    as (K1 & _ & K3).
  split; [| exact K3]. rewrite K1, H1, G1, E1. reflexivity.
Qed.

Lemma freeze_adds_twenty_witness :
  (isTimerFrozen runningThree = false /\ 0 < freeze (powerUps runningThree)
   /\ 0 < timeLeft runningThree)
  /\ (invoke useFreeze runningThree).2
     = [updatePlayerData [("freezes", 0)]; setTimeout cbFreezeEnd 100;
        toast tTimeFrozen]
  /\ timeLeft (freezeEnd (invoke useFreeze runningThree).1).1 = 23
  /\ coins (freezeEnd (invoke useFreeze runningThree).1).1 = 10
  /\ timeLeft ((dispatch useFreeze ;; ticks 1 ;;
                dispatch (fun _ => freezeEnd)) runningThree).1 = 23.
Proof.
  assert (0 < freeze (powerUps runningThree)) as Hpos by reflexivity.
  assert (0 < timeLeft runningThree) as Htime by reflexivity.
  destruct (freeze_adds_twenty runningThree eq_refl Hpos)
    as (He & _ & _ & Ht & _ & Hc & _ & _ & Hrun).
  destruct (Hrun Htime 1%nat) as (Hrun1 & _).
  split; [by repeat split |].
  split; [exact He |]. split; [exact Ht |]. split; [exact Hc | exact Hrun1].
Defined.

End PowerUps.

(** ** Answer submission *)

Section Submit.

Variable now : Z.
Variable st : State.
Variable p : BananaPuzzle.
Hypothesis Hpuzzle : puzzle st = Some p.
Hypothesis Hanswer : userAnswer st <> "".

(** With a puzzle on screen and an answer typed in, [handleSubmit] gets
    past its guard. *)
Lemma handleSubmit_guard (o : CheckOutcome) :
  invoke (handleSubmit now o) st
  = (emit (requestCheck (mkCheckBody (userAnswer st) (question p)
                           (timeTaken st now) (hintsUsedThisPuzzle st))) ;;
     if correct (checkAnswer o) then
       (if doublePointsActive st then
          upd (setDoublePointsActive false) ;; emit (toast tDoublePoints)
        else skip) ;;
       upd (setScore (score st + awardedPoints st (checkAnswer o))) ;;
       upd (setCoins (coins st + earnedCoins (checkAnswer o))) ;;
       upd (setStreak (streak st + 1)) ;;
       upd (setCombo (orElse (result_combo (checkAnswer o)) 0)) ;;
       (if truthyZ (xp_gained (checkAnswer o)) then
          upd (fun s => setXp (xp s + default 0 (xp_gained (checkAnswer o))) s)
        else skip) ;;
       (if leveled_up (checkAnswer o) && truthyZ (new_level (checkAnswer o))
        then
          upd (setLevel (default 0 (new_level (checkAnswer o)))) ;;
          upd (setXpNeeded 100) ;;
          emit (toast (tLevelUp (default 0 (new_level (checkAnswer o)))))
        else skip) ;;
       emit (updatePlayerData
               [("coins", coins st + earnedCoins (checkAnswer o))]) ;;
       emit (toast (tCorrect (awardedPoints st (checkAnswer o))
                      (earnedCoins (checkAnswer o)))) ;;
       upd (setShowCelebration true) ;;
       emit (setTimeout cbAfterCelebration 2000)
     else
       upd (setStreak 0) ;;
       upd (setCombo 0) ;;
       upd (setShowFailure true) ;;
       emit (toast (tIncorrect (correct_answer (checkAnswer o)))) ;;
       emit (setTimeout cbAfterFailure 2000)) st.
Proof.
  unfold invoke, handleSubmit. rewrite Hpuzzle.
  destruct (String.eqb_spec (userAnswer st) ""); [contradiction | reflexivity].
Qed.

(** The state a correct verdict leaves behind, field by field. *)
Lemma handleSubmit_correct (r : CheckResult) :
  correct r = true ->
  let s1 := (invoke (handleSubmit now (responded r)) st).1 in
  score s1 = score st + awardedPoints st r
  /\ coins s1 = coins st + earnedCoins r
  /\ streak s1 = streak st + 1
  /\ combo s1 = orElse (result_combo r) 0
  /\ doublePointsActive s1 = false
  /\ puzzle s1 = puzzle st /\ userAnswer s1 = userAnswer st
  /\ List.filter isPlayerSync
       (invoke (handleSubmit now (responded r)) st).2
     = [updatePlayerData [("coins", coins st + earnedCoins r)]].
Proof.
  intros Hc s1. subst s1. rewrite handleSubmit_guard. cbn [checkAnswer].
  rewrite Hc. clear Hpuzzle Hanswer.
  destruct st; destruct doublePointsActive0;
    destruct (truthyZ (xp_gained r));
    destruct (leveled_up r && truthyZ (new_level r)); by repeat split.
Qed.

(** The state an incorrect verdict, or a failed call, leaves behind. *)
Lemma handleSubmit_incorrect (o : CheckOutcome) :
  correct (checkAnswer o) = false ->
  invoke (handleSubmit now o) st
  = (setShowFailure true (setCombo 0 (setStreak 0 st)),
     [requestCheck (mkCheckBody (userAnswer st) (question p)
                      (timeTaken st now) (hintsUsedThisPuzzle st));
      toast (tIncorrect (correct_answer (checkAnswer o)));
      setTimeout cbAfterFailure 2000]).
Proof.
  intros Hc. rewrite handleSubmit_guard, Hc. reflexivity.
Qed.

End Submit.

Section SubmitClaims.

(** *** Double points *)




(** *** Coins and score *)




(** *** A failed verification call *)

(** C6.  When the verification call fails, the submission still resolves,
    and to the outcome of an incorrect verdict: the state is the one any
    incorrect verdict leaves, with streak and combo at 0 and score and
    coins untouched; the effects differ from an incorrect verdict's at
    most in the answer quoted by the toast; and the callback scheduled
    2000 ms later requests exactly one new puzzle. *)
Theorem network_failure_is_incorrect (now : Z) (st : State)
    (p : BananaPuzzle) :
  puzzle st = Some p -> userAnswer st <> "" ->
  let res := invoke (handleSubmit now networkError) st in
  streak res.1 = 0 /\ combo res.1 = 0
  /\ score res.1 = score st /\ coins res.1 = coins st
  /\ (forall r, correct r = false ->
      let res' := invoke (handleSubmit now (responded r)) st in
      res'.1 = res.1
      /\ List.filter (fun e => negb (isToast e)) res'.2
         = List.filter (fun e => negb (isToast e)) res.2)
  /\ List.filter isToast res.2 = [toast (tIncorrect None)]
  /\ List.filter isNextPuzzleTimeout res.2
     = [setTimeout cbAfterFailure 2000]
  /\ count isPuzzleRequest (afterFailure st res.1).2 = 1%nat.
Proof.
  intros Hp Ha res. subst res.
  rewrite (handleSubmit_incorrect now st p Hp Ha networkError eq_refl).
  cbn [fst snd].
  split; [by destruct st |]. split; [by destruct st |].
  split; [by destruct st |]. split; [by destruct st |].
  split; [| by repeat split].
  intros r Hc.
  rewrite (handleSubmit_incorrect now st p Hp Ha (responded r) Hc).
  by split.
Qed.

Lemma network_failure_is_incorrect_witness :
  (puzzle readyToSubmit = Some (mkPuzzle "https://img/p2.png" "7")
   /\ userAnswer readyToSubmit <> ""
   /\ correct incorrectVerdict = false)
  /\ streak (invoke (handleSubmit 5000 networkError) readyToSubmit).1 = 0
  /\ combo (invoke (handleSubmit 5000 networkError) readyToSubmit).1 = 0
  /\ (invoke (handleSubmit 5000 (responded incorrectVerdict)) readyToSubmit).1
     = (invoke (handleSubmit 5000 networkError) readyToSubmit).1
  /\ count isPuzzleRequest
       (afterFailure readyToSubmit
          (invoke (handleSubmit 5000 networkError) readyToSubmit).1).2
     = 1%nat.
Proof.
  assert (userAnswer readyToSubmit <> "") as Hans by discriminate.
  destruct (network_failure_is_incorrect 5000 readyToSubmit
              (mkPuzzle "https://img/p2.png" "7") eq_refl Hans)
    as (Hs & Hc & _ & _ & Hsame & _ & _ & Hfetch).
  destruct (Hsame incorrectVerdict eq_refl) as (Hst & _).
  split; [by repeat split |].
  split; [exact Hs |]. split; [exact Hc |]. split; [exact Hst | exact Hfetch].
Defined.

End SubmitClaims.

(** ** Logout *)

Section Logout.

Lemma clearStoredSession_removes (ls : gmap string string) (key : string) :
  key = "accessToken" \/ key = "refreshToken" \/ key = "banana-user" ->
  Storage.getItem (Storage.clearStoredSession ls) key = None.
Proof.
  unfold Storage.getItem, Storage.clearStoredSession, Storage.removeItem.
  intros [-> | [-> | ->]].
  - rewrite !lookup_delete_ne by discriminate. apply lookup_delete_eq.
  - rewrite lookup_delete_ne by discriminate. apply lookup_delete_eq.
  - apply lookup_delete_eq.
Qed.

(** The effects of a logout request that got past the in-flight guard. *)
Lemma handleLogoutRequest_effects (endpoint : LogoutEndpoint)
    (o : LogoutOutcome) (st : State) :
  isLoggingOut st = false ->
  invoke (handleLogoutRequest endpoint o) st
  = (st,
     invokeLogoutEndpoint endpoint
     :: match o with
        | logoutResult true message => [toast (tSignedOut endpoint message)]
        | logoutResult false message =>
            if Storage.truthy message
            then [toast (tLogoutError (default "" message))]
            else []
        | logoutThrew => []
        end
     ++ clearStoredSession :: onLogout
     :: match o with
        | logoutThrew => [unhandledRejection]
        | logoutResult _ _ => []
        end).
Proof.
  intros Hl. unfold invoke, handleLogoutRequest. rewrite Hl.
  destruct st. cbn in Hl. subst.
  destruct o as [[] message |]; try reflexivity.
  by destruct (Storage.truthy message).
Qed.

(** C7.  Logout teardown is unconditional.  For a logout request of
    either kind, made while no other logout is in flight (the menu is
    disabled otherwise), and whatever the remote call does (success,
    failure with or without a message, exception): the stored session is
    cleared once and the router's logout callback is invoked once, after
    which storage holds neither credential, the view is landing and the
    session username is empty.  The game state, the router and the storage
    end up the same for every remote outcome; only the toast differs (and
    an exception is passed on after the teardown). *)
Theorem logout_teardown_unconditional (endpoint : LogoutEndpoint)
    (o : LogoutOutcome) (st : State) (ix : Index.State)
    (ls : gmap string string) :
  isLoggingOut st = false ->
  let res := invoke (handleLogoutRequest endpoint o) st in
  let a := App.performAll res.2 (ix, ls) in
  count isClearSession res.2 = 1%nat
  /\ count isOnLogout res.2 = 1%nat
  /\ Storage.getItem a.2 "accessToken" = None
  /\ Storage.getItem a.2 "refreshToken" = None
  /\ Index.view a.1 = Index.landing
  /\ Index.username a.1 = ""
  /\ (forall o',
      let res' := invoke (handleLogoutRequest endpoint o') st in
      res'.1 = res.1 /\ App.performAll res'.2 (ix, ls) = a)
  /\ List.filter (fun e => negb (isToast e)) res.2
     = [invokeLogoutEndpoint endpoint; clearStoredSession; onLogout]
       ++ match o with
          | logoutThrew => [unhandledRejection]
          | logoutResult _ _ => []
          end.
Proof.
  intros Hl res a. subst a res.
  rewrite (handleLogoutRequest_effects endpoint o st Hl). cbn [fst snd].
  assert (forall o1,
            App.performAll (invoke (handleLogoutRequest endpoint o1) st).2
              (ix, ls)
            = (Index.setView Index.landing (Index.setUsername "" ix),
               Storage.clearStoredSession (Storage.clearStoredSession ls)))
    as Hrun.
  { intros o1. rewrite (handleLogoutRequest_effects endpoint o1 st Hl).
    destruct o1 as [[] message |]; try reflexivity.
    by destruct (Storage.truthy message). }
  pose proof (Hrun o) as Ho.
  rewrite (handleLogoutRequest_effects endpoint o st Hl) in Ho.
  cbn [fst snd] in Ho. rewrite Ho. cbn [fst snd].
  split; [| split; [| split; [| split; [| split; [| split; [| split]]]]]].
  - destruct o as [[] message |]; try reflexivity.
    by destruct (Storage.truthy message).
  - destruct o as [[] message |]; try reflexivity.
    by destruct (Storage.truthy message).
  - apply clearStoredSession_removes. by left.
  - apply clearStoredSession_removes. right. by left.
  - reflexivity.
  - reflexivity.
  - intros o'. split; [| apply Hrun].
    by rewrite (handleLogoutRequest_effects endpoint o' st Hl).
  - destruct o as [[] message |]; try reflexivity.
    by destruct (Storage.truthy message).
Qed.

(** An all-devices logout whose remote call throws. *)
Lemma logout_teardown_unconditional_witness :
  isLoggingOut runningThree = false
  /\ Storage.getItem
       (App.performAll
          (invoke (handleLogoutRequest epLogoutAll logoutThrew)
             runningThree).2
          (routerPlaying, storeWithToken)).2 "accessToken" = None
  /\ Storage.getItem
       (App.performAll
          (invoke (handleLogoutRequest epLogoutAll logoutThrew)
             runningThree).2
          (routerPlaying, storeWithToken)).2 "refreshToken" = None
  /\ Index.view
       (App.performAll
          (invoke (handleLogoutRequest epLogoutAll logoutThrew)
             runningThree).2
          (routerPlaying, storeWithToken)).1 = Index.landing
  /\ Index.username
       (App.performAll
          (invoke (handleLogoutRequest epLogoutAll logoutThrew)
             runningThree).2
          (routerPlaying, storeWithToken)).1 = "".
Proof.
  destruct (logout_teardown_unconditional epLogoutAll logoutThrew
              runningThree routerPlaying storeWithToken eq_refl)
    as (_ & _ & H1 & H2 & H3 & H4 & _).
  split; [reflexivity |].
  split; [exact H1 |]. split; [exact H2 |]. split; [exact H3 | exact H4].
Defined.

End Logout.

(** * Further properties of the round loop *)

Import Round.

Section Submission.

Lemma filter_app_two {A : Type} (p : A -> bool) (l1 l2 : list A) :
  List.filter p (l1 ++ l2) = List.filter p l1 ++ List.filter p l2.
Proof. apply List.filter_app. Qed.

(** The effects of a submission that got past its guard, whatever the
    verdict: one verification request, toasts and syncs, one timeout. *)
Lemma handleSubmit_effects (now : Z) (o : CheckOutcome) (st : State)
    (p : BananaPuzzle) :
  puzzle st = Some p -> userAnswer st <> "" ->
  List.filter isCheckRequest (invoke (handleSubmit now o) st).2
  = [requestCheck (mkCheckBody (userAnswer st) (question p)
                     (timeTaken st now) (hintsUsedThisPuzzle st))]
  /\ List.filter isNextPuzzleTimeout (invoke (handleSubmit now o) st).2
     = [setTimeout (if correct (checkAnswer o) then cbAfterCelebration
                    else cbAfterFailure) 2000]
  /\ List.filter isPuzzleRequest (invoke (handleSubmit now o) st).2 = [].
Proof.
  intros Hp Ha. rewrite (handleSubmit_guard now st p Hp Ha o).
  destruct (correct (checkAnswer o)); [| by repeat split].
  destruct (doublePointsActive st), (truthyZ (xp_gained (checkAnswer o))),
    (leveled_up (checkAnswer o) && truthyZ (new_level (checkAnswer o)));
    by repeat split.
Qed.

Lemma nextPuzzleCallback_fields (c : State) (o : CheckOutcome) (s : State) :
  (nextPuzzleCallback c o s).2 = [requestPuzzle (difficulty c); fetchGameStats]
  /\ userAnswer (nextPuzzleCallback c o s).1 = ""
  /\ hintsUsedThisPuzzle (nextPuzzleCallback c o s).1 = 0
  /\ loading (nextPuzzleCallback c o s).1 = true
  /\ showCelebration (nextPuzzleCallback c o s).1
     = (if correct (checkAnswer o) then false else showCelebration s)
  /\ showFailure (nextPuzzleCallback c o s).1
     = (if correct (checkAnswer o) then showFailure s else false)
  /\ score (nextPuzzleCallback c o s).1 = score s
  /\ streak (nextPuzzleCallback c o s).1 = streak s.
Proof.
  unfold nextPuzzleCallback. destruct (correct (checkAnswer o)); by destruct s.
Qed.

(** X1.  The submission protocol.  Without a puzzle or with an empty
    answer a submission does nothing at all: no state change, no
    verification request.  Otherwise, whatever the verification call
    yields, it sends exactly one request, carrying the answer, the puzzle
    URL, the elapsed seconds and the hints used, requests no puzzle itself
    and schedules exactly one callback, 2000 ms later; that callback
    requests exactly one puzzle and one statistics refresh, clears the
    answer and the hint count of the round and leaves score and streak
    alone. *)
Theorem submit_protocol (now : Z) (o : CheckOutcome) (st : State) :
  (puzzle st = None \/ userAnswer st = "" ->
   step (evSubmit now o) st = (st, []))
  /\ (forall p, puzzle st = Some p -> userAnswer st <> "" ->
      let r := invoke (handleSubmit now o) st in
      let r' := nextPuzzleCallback st o r.1 in
      List.filter isCheckRequest r.2
      = [requestCheck (mkCheckBody (userAnswer st) (question p)
                         (timeTaken st now) (hintsUsedThisPuzzle st))]
      /\ count isNextPuzzleTimeout r.2 = 1%nat
      /\ In (setTimeout (if correct (checkAnswer o) then cbAfterCelebration
                         else cbAfterFailure) 2000) r.2
      /\ count isPuzzleRequest r.2 = 0%nat
      /\ count isPuzzleRequest r'.2 = 1%nat
      /\ count isStatsRefresh r'.2 = 1%nat
      /\ userAnswer r'.1 = "" /\ hintsUsedThisPuzzle r'.1 = 0
      /\ score r'.1 = score r.1 /\ streak r'.1 = streak r.1).
Proof.
  split.
  - intros Hguard. unfold step. rewrite dispatch_unfold.
    assert (invoke (handler (evSubmit now o)) st = (st, [])) as ->.
    { unfold invoke, handler, handleSubmit.
      destruct Hguard as [-> | ->]; [reflexivity |].
      by destruct (puzzle st). }
    cbn [fst snd app]. by rewrite commit_unchanged.
  - intros p Hp Ha r r'.
    destruct (handleSubmit_effects now o st p Hp Ha) as (Hc & Ht & Hq).
    destruct (nextPuzzleCallback_fields st o r.1)
      as (He & Hu & Hh & _ & _ & _ & Hs & Hk).
    fold r in Hc, Ht, Hq. fold r' in He, Hu, Hh, Hs, Hk.
    split; [exact Hc |].
    split; [unfold count; by rewrite Ht |].
    split.
    { apply (proj1 (List.filter_In isNextPuzzleTimeout _ r.2)).
      rewrite Ht. by left. }
    split; [unfold count; by rewrite Hq |].
    rewrite He. by repeat split.
Qed.

Lemma submit_protocol_witness :
  (userAnswer runningThree = ""
   /\ step (evSubmit 5000 networkError) runningThree = (runningThree, []))
  /\ (puzzle readyToSubmit = Some (mkPuzzle "https://img/p2.png" "7")
      /\ userAnswer readyToSubmit <> ""
      /\ count isNextPuzzleTimeout
           (invoke (handleSubmit 5000 (responded (correctWith (Some 15))))
              readyToSubmit).2 = 1%nat
      /\ count isPuzzleRequest
           (nextPuzzleCallback readyToSubmit
              (responded (correctWith (Some 15)))
              (invoke (handleSubmit 5000 (responded (correctWith (Some 15))))
                 readyToSubmit).1).2 = 1%nat).
Proof.
  assert (userAnswer readyToSubmit <> "") as Hans by discriminate.
  split.
  - split; [reflexivity |].
    apply (proj1 (submit_protocol 5000 networkError runningThree)).
    right. reflexivity.
  - destruct (proj2 (submit_protocol 5000 (responded (correctWith (Some 15)))
                       readyToSubmit)
                (mkPuzzle "https://img/p2.png" "7") eq_refl Hans)
      as (_ & H1 & _ & _ & H2 & _).
    split; [reflexivity |]. split; [exact Hans |].
    split; [exact H1 | exact H2].
Defined.

(** X2.  Elapsed time.  Before any puzzle has arrived (start time not
    positive) a submission reports 0 seconds.  Afterwards it reports the
    whole seconds elapsed since the puzzle arrived: never negative for a
    clock that does not run backwards, and off by less than a second; in
    particular, for a puzzle that arrived at a positive time [t0] and is
    answered at [now], it reports [floor ((now - t0) / 1000)]. *)
Theorem timeTaken_bounds (st : State) (now : Z) :
  (puzzleStartTime st <= 0 -> timeTaken st now = 0)
  /\ (0 < puzzleStartTime st -> puzzleStartTime st <= now ->
      0 <= timeTaken st now
      /\ 1000 * timeTaken st now <= now - puzzleStartTime st
      /\ now - puzzleStartTime st < 1000 * timeTaken st now + 1000)
  /\ (forall d t0 p, 0 < t0 ->
      timeTaken (fetchPuzzleSettled d t0 (Some p) st).1 now
      = (now - t0) / 1000).
Proof.
  unfold timeTaken. split; [| split].
  - intros Hle. destruct (Z.ltb_spec 0 (puzzleStartTime st)); [lia | done].
  - intros Hpos Hle.
    destruct (Z.ltb_spec 0 (puzzleStartTime st)); [| lia].
    pose proof (Z.div_mod (now - puzzleStartTime st) 1000 ltac:(lia)) as Hdm.
    pose proof (Z.mod_pos_bound (now - puzzleStartTime st) 1000 ltac:(lia))
      as Hb.
    assert (0 <= (now - puzzleStartTime st) / 1000)
      by (apply Z.div_pos; lia).
    lia.
  - intros d t0 p Hpos.
    assert (puzzleStartTime (fetchPuzzleSettled d t0 (Some p) st).1 = t0)
      as -> by (by destruct st).
    destruct (Z.ltb_spec 0 t0); [reflexivity | lia].
Qed.

Lemma timeTaken_bounds_witness :
  (puzzleStartTime runningThree <= 0 /\ timeTaken runningThree 987654 = 0)
  /\ (0 < puzzleStartTime (setPuzzleStartTime 1000 runningThree)
      /\ puzzleStartTime (setPuzzleStartTime 1000 runningThree) <= 8999
      /\ 1000 * timeTaken (setPuzzleStartTime 1000 runningThree) 8999
         <= 8999 - 1000
      /\ timeTaken (setPuzzleStartTime 1000 runningThree) 8999 = 7).
Proof.
  assert (puzzleStartTime runningThree <= 0) as H0 by (vm_compute; discriminate).
  assert (0 < puzzleStartTime (setPuzzleStartTime 1000 runningThree)) as H1
    by reflexivity.
  assert (puzzleStartTime (setPuzzleStartTime 1000 runningThree) <= 8999)
    as H2 by (vm_compute; discriminate).
  split.
  - split; [exact H0 |].
    apply (proj1 (timeTaken_bounds runningThree 987654)). exact H0.
  - destruct (proj1 (proj2 (timeTaken_bounds
                               (setPuzzleStartTime 1000 runningThree) 8999))
                H1 H2) as (_ & Hlow & _).
    split; [exact H1 |]. split; [exact H2 |]. split; [exact Hlow |].
    reflexivity.
Defined.

End Submission.

Section Hints.

(** One granted hint: the count becomes what the server says remains and
    the round's hint counter goes up by one. *)
Lemma useHint_granted (ls : gmap string string) (st : State)
    (rem : Z) (title : option string) (text : string) :
  hintGuard ls st = true ->
  invoke (useHint ls (hintOk rem title text)) st
  = (setHintsUsedThisPuzzle (hintsUsedThisPuzzle st + 1)
       (setPowerUps (setHint rem (powerUps st)) st),
     [requestHint; toast (tHintUsed title text)]).
Proof.
  unfold hintGuard, invoke, useHint. intros Hg.
  apply andb_true_iff in Hg as [Hg Htok]. apply andb_true_iff in Hg as [Hh Hp].
  apply Z.ltb_lt in Hh. destruct (Z.leb_spec (hint (powerUps st)) 0); [lia |].
  destruct (puzzle st); [| discriminate]. rewrite Htok. by destruct st.
Qed.

Lemma granted_fields (st : State) (rem : Z) :
  let s' := setHintsUsedThisPuzzle (hintsUsedThisPuzzle st + 1)
              (setPowerUps (setHint rem (powerUps st)) st) in
  hint (powerUps s') = rem
  /\ hintsUsedThisPuzzle s' = hintsUsedThisPuzzle st + 1
  /\ freeze (powerUps s') = freeze (powerUps st)
  /\ superBanana (powerUps s') = superBanana (powerUps st)
  /\ coins s' = coins st /\ puzzle s' = puzzle st
  /\ userAnswer s' = userAnswer st
  /\ puzzleStartTime s' = puzzleStartTime st.
Proof. by destruct st as [? ? ? ? ? ? ? ? ? ? [? ? ?] ? ? ? ? ? ? ? ? ? ? ?]. Qed.

(** X3.  Hints.  The hint endpoint is called exactly when a hint is in
    stock, a puzzle is on screen and an access token is stored.  Only a
    granted hint changes the state: the hint count becomes the count the
    server reports as remaining (not the local count minus one), the
    round's hints-used counter grows by one, and coins and the other
    power-ups stay; every refusal (nothing in stock, no puzzle, no token,
    401, server error, failed call) leaves the state as it was.  The
    logout callback is invoked exactly when, with a hint in stock and a
    puzzle on screen, the token is missing or the server answers 401. *)
Theorem useHint_outcomes (ls : gmap string string) (o : HintOutcome)
    (st : State) :
  let r := invoke (useHint ls o) st in
  count isHintRequest r.2 = (if hintGuard ls st then 1%nat else 0%nat)
  /\ (hintGuard ls st = false -> r.1 = st)
  /\ (hintGuard ls st = true ->
      match o with
      | hintOk rem _ _ =>
          hint (powerUps r.1) = rem
          /\ hintsUsedThisPuzzle r.1 = hintsUsedThisPuzzle st + 1
          /\ freeze (powerUps r.1) = freeze (powerUps st)
          /\ superBanana (powerUps r.1) = superBanana (powerUps st)
          /\ coins r.1 = coins st
      | _ => r.1 = st
      end)
  /\ (count isOnLogout r.2
      = if (0 <? hint (powerUps st))
           && match puzzle st with Some _ => true | None => false end
           && (negb (Storage.truthy (Storage.getItem ls "accessToken"))
               || match o with hint401 => true | _ => false end)
        then 1%nat else 0%nat).
Proof.
  intros r. subst r.
  destruct (hintGuard ls st) eqn:Hg.
  - assert (Hg' := Hg). unfold hintGuard in Hg'.
    apply andb_true_iff in Hg' as [Hg' Htok].
    apply andb_true_iff in Hg' as [Hh Hp]. rewrite Hh, Hp, Htok.
    destruct o as [rem title text | | error | message].
    + rewrite (useHint_granted ls st rem title text Hg). cbn [fst snd].
      destruct (granted_fields st rem) as (E1 & E2 & E3 & E4 & E5 & _).
      split; [reflexivity |]. split; [discriminate |].
      split; [intros _; by repeat split | reflexivity].
    + unfold invoke, useHint. apply Z.ltb_lt in Hh.
      destruct (Z.leb_spec (hint (powerUps st)) 0); [lia |].
      destruct (puzzle st); [| discriminate]. rewrite Htok.
      by repeat split.
    + unfold invoke, useHint. apply Z.ltb_lt in Hh.
      destruct (Z.leb_spec (hint (powerUps st)) 0); [lia |].
      destruct (puzzle st); [| discriminate]. rewrite Htok.
      by repeat split.
    + unfold invoke, useHint. apply Z.ltb_lt in Hh.
      destruct (Z.leb_spec (hint (powerUps st)) 0); [lia |].
      destruct (puzzle st); [| discriminate]. rewrite Htok.
      by repeat split.
  - unfold hintGuard in Hg. unfold invoke, useHint.
    destruct (Z.leb_spec (hint (powerUps st)) 0) as [Hle | Hgt].
    + destruct (Z.ltb_spec 0 (hint (powerUps st))); [lia |].
      by repeat split.
    + destruct (Z.ltb_spec 0 (hint (powerUps st))); [| lia].
      destruct (puzzle st); [| by repeat split].
      cbn [andb] in Hg |- *. rewrite Hg. cbn [negb orb].
      by repeat split.
Qed.

Lemma useHint_outcomes_witness :
  hintGuard (<["accessToken" := "a1"]> storeWithToken) readyToSubmit = true
  /\ hint (powerUps (invoke (useHint (<["accessToken" := "a1"]> storeWithToken)
                               (hintOk 5 None "not 3")) readyToSubmit).1) = 5
  /\ hintsUsedThisPuzzle
       (invoke (useHint (<["accessToken" := "a1"]> storeWithToken)
                  (hintOk 5 None "not 3")) readyToSubmit).1 = 1
  /\ hintGuard storeWithToken readyToSubmit = false
  /\ (invoke (useHint storeWithToken (hintOk 5 None "not 3")) readyToSubmit).1
     = readyToSubmit.
Proof.
  assert (hintGuard (<["accessToken" := "a1"]> storeWithToken) readyToSubmit
          = true) as Hg by (vm_compute; reflexivity).
  assert (hintGuard storeWithToken readyToSubmit = false) as Hn
    by (vm_compute; reflexivity).
  destruct (useHint_outcomes (<["accessToken" := "a1"]> storeWithToken)
              (hintOk 5 None "not 3") readyToSubmit) as (_ & _ & Hok & _).
  destruct (Hok Hg) as (H1 & H2 & _).
  destruct (useHint_outcomes storeWithToken (hintOk 5 None "not 3")
              readyToSubmit) as (_ & Hsame & _).
  split; [exact Hg |]. split; [exact H1 |]. split; [exact H2 |].
  split; [exact Hn | exact (Hsame Hn)].
Defined.

Lemma last_default {A : Type} (l : list A) (a d d' : A) :
  List.last (a :: l) d = List.last (a :: l) d'.
Proof.
  revert a. induction l as [| b l IH]; intros a; [reflexivity |].
  change (List.last (b :: l) d = List.last (b :: l) d'). apply IH.
Qed.

Lemma last_cons_self {A : Type} (l : list A) (a d : A) :
  List.last (a :: l) d = List.last l a.
Proof.
  destruct l as [| b l]; [reflexivity |].
  change (List.last (b :: l) d = List.last (b :: l) a). apply last_default.
Qed.

Lemma hintGuard_granted (ls : gmap string string) (st : State) (rem : Z) :
  hintGuard ls st = true -> 0 < rem ->
  hintGuard ls (setHintsUsedThisPuzzle (hintsUsedThisPuzzle st + 1)
                  (setPowerUps (setHint rem (powerUps st)) st)) = true.
Proof.
  unfold hintGuard. intros Hg Hpos.
  destruct (granted_fields st rem) as (E1 & _ & _ & _ & _ & E6 & _).
  cbv zeta in E1, E6. rewrite E1, E6.
  apply andb_true_iff in Hg as [Hg ->]. apply andb_true_iff in Hg as [_ ->].
  destruct (Z.ltb_spec 0 rem); [reflexivity | lia].
Qed.

(** X4.  Hints are counted per puzzle.  After [n] hints granted in a row
    (the server each time reporting a positive remaining count) the hint
    count is the last reported one, the round's counter has grown by [n],
    [n] requests went out, and the next submission reports the grown
    counter as [hints_used]; requesting the next puzzle resets the counter
    to 0. *)
Theorem hints_counted (ls : gmap string string) (remaining : list Z)
    (st : State) :
  hintGuard ls st = true -> Forall (fun r => 0 < r) remaining ->
  let r := useHints ls remaining st in
  hintsUsedThisPuzzle r.1
  = hintsUsedThisPuzzle st + Z.of_nat (length remaining)
  /\ hint (powerUps r.1) = List.last remaining (hint (powerUps st))
  /\ count isHintRequest r.2 = length remaining
  /\ (forall now o p, puzzle st = Some p -> userAnswer st <> "" ->
      List.filter isCheckRequest (invoke (handleSubmit now o) r.1).2
      = [requestCheck
           (mkCheckBody (userAnswer st) (question p) (timeTaken st now)
              (hintsUsedThisPuzzle st + Z.of_nat (length remaining)))])
  /\ hintsUsedThisPuzzle (invoke fetchPuzzle r.1).1 = 0.
Proof.
  intros Hg Hall r.
  assert (hintsUsedThisPuzzle r.1
          = hintsUsedThisPuzzle st + Z.of_nat (length remaining)
          /\ hint (powerUps r.1) = List.last remaining (hint (powerUps st))
          /\ count isHintRequest r.2 = length remaining
          /\ puzzle r.1 = puzzle st /\ userAnswer r.1 = userAnswer st
          /\ puzzleStartTime r.1 = puzzleStartTime st) as Hmain.
  { subst r. revert st Hg.
    induction Hall as [| rem rest Hpos Hrest IH]; intros st Hg.
    - cbn [useHints skip fst snd length List.last]. repeat split; try lia.
    - cbn [useHints]. unfold seq.
      rewrite (useHint_granted ls st rem None "" Hg). cbn [fst snd].
      pose proof (hintGuard_granted ls st rem Hg Hpos) as Hg'.
      destruct (granted_fields st rem)
        as (E1 & E2 & _ & _ & _ & E6 & E7 & E8).
      cbv zeta in E1, E2, E6, E7, E8.
      destruct (IH _ Hg') as (I1 & I2 & I3 & I4 & I5 & I6).
      rewrite I1, I2, I4, I5, I6, E1, E2, E6, E7, E8.
      split; [cbn [length]; lia |].
      split; [symmetry; apply last_cons_self |].
      split; [| done].
      change ([requestHint; toast (tHintUsed None "")]
              ++ (useHints ls rest
                    (setHintsUsedThisPuzzle (hintsUsedThisPuzzle st + 1)
                       (setPowerUps (setHint rem (powerUps st)) st))).2)
        with (requestHint :: toast (tHintUsed None "")
              :: (useHints ls rest
                    (setHintsUsedThisPuzzle (hintsUsedThisPuzzle st + 1)
                       (setPowerUps (setHint rem (powerUps st)) st))).2).
      unfold count in I3 |- *. cbn [List.filter isHintRequest length].
      by rewrite I3. }
  destruct Hmain as (H1 & H2 & H3 & H4 & H5 & H6).
  split; [exact H1 |]. split; [exact H2 |]. split; [exact H3 |].
  split.
  - intros now o p Hp Ha.
    assert (puzzle r.1 = Some p) as Hp' by congruence.
    assert (userAnswer r.1 <> "") as Ha' by congruence.
    destruct (handleSubmit_effects now o r.1 p Hp' Ha') as (Hc & _).
    rewrite Hc, H5, H1. unfold timeTaken. by rewrite H6.
  - by destruct r.1.
Qed.

Lemma hints_counted_witness :
  hintGuard (<["accessToken" := "a1"]> storeWithToken) readyToSubmit = true
  /\ Forall (fun r => 0 < r) [2; 1]
  /\ hintsUsedThisPuzzle
       (useHints (<["accessToken" := "a1"]> storeWithToken) [2; 1]
          readyToSubmit).1 = 2
  /\ hint (powerUps
             (useHints (<["accessToken" := "a1"]> storeWithToken) [2; 1]
                readyToSubmit).1) = 1.
Proof.
  assert (hintGuard (<["accessToken" := "a1"]> storeWithToken) readyToSubmit
          = true) as Hg by (vm_compute; reflexivity).
  assert (Forall (fun r => 0 < r) [2; 1]) as Hall
    by (repeat constructor).
  destruct (hints_counted (<["accessToken" := "a1"]> storeWithToken) [2; 1]
              readyToSubmit Hg Hall) as (H1 & H2 & _).
  split; [exact Hg |]. split; [exact Hall |]. split; [exact H1 | exact H2].
Defined.

End Hints.

Section TimerLiveness.

(** What the render after a handler can do to the state it is given. *)
Lemma commit_cases (old new : State) :
  (commit old new).1 = new
  \/ (commit old new).1 = setTimerArmed true new
  \/ (commit old new).1 = setTimerArmed false new
  \/ (commit old new).1 = skipped new.
Proof.
  destruct (depsChanged old new) eqn:Hd.
  - destruct (Z.leb_spec (timeLeft new) 0) as [Hle | Hgt];
      destruct (isTimerFrozen new) eqn:Hf.
    + rewrite (commit_expired_frozen _ _ Hd Hle Hf). auto.
    + rewrite (commit_expired _ _ Hd Hle Hf). auto.
    + rewrite (commit_frozen _ _ Hd Hgt Hf). auto.
    + rewrite (commit_running _ _ Hd Hgt Hf). auto.
  - destruct (depsChanged_false _ _ Hd) as [Et Ef].
    rewrite (commit_unchanged _ _ Et Ef). auto.
Qed.







End TimerLiveness.

Section PuzzleArrival.

Lemma settled_fields (d : Difficulty) (now : Z) (p : BananaPuzzle)
    (s : State) :
  let s' := (fetchPuzzleSettled d now (Some p) s).1 in
  puzzle s' = Some p /\ timeLeft s' = timeLimits d
  /\ puzzleStartTime s' = now /\ showImageModal s' = true
  /\ loading s' = false /\ isTimerFrozen s' = isTimerFrozen s
  /\ timerArmed s' = timerArmed s /\ streak s' = streak s
  /\ score s' = score s /\ difficulty s' = difficulty s
  /\ (fetchPuzzleSettled d now (Some p) s).2 = [].
Proof. by destruct s. Qed.

Lemma setTimerArmed_keeps (b : bool) (s : State) :
  puzzle (setTimerArmed b s) = puzzle s
  /\ puzzleStartTime (setTimerArmed b s) = puzzleStartTime s
  /\ loading (setTimerArmed b s) = loading s
  /\ streak (setTimerArmed b s) = streak s
  /\ score (setTimerArmed b s) = score s.
Proof. by destruct s. Qed.

Lemma timeLimits_range (d : Difficulty) : 30 <= timeLimits d <= 50.
Proof. destruct d; cbn; lia. Qed.

Lemma expired_setTimeLeft (v : Z) (st : State) :
  expired (setTimeLeft v st) = expired st.
Proof. by destruct st. Qed.

(** The tick sequence that uses up the whole time of a running round. *)
Lemma ticks_to_zero (n : nat) (st : State) :
  timerArmed st = true -> isTimerFrozen st = false ->
  timeLeft st = Z.of_nat (S n) ->
  ticks (S n) st
  = (expired st, [toast tSkipped; requestPuzzle (difficulty st)]).
Proof.
  revert st. induction n as [| n IH]; intros st Ha Hf Ht.
  - by apply ticks_expire.
  - rewrite ticks_running by (try assumption; lia).
    destruct (setTimeLeft_fields (timeLeft st - 1) st)
      as (E1 & _ & E3 & E4 & E5).
    rewrite IH by (try congruence; lia).
    by rewrite E5, expired_setTimeLeft.
Qed.

Lemma expired_more_fields (st : State) :
  isTimerFrozen (expired st) = false /\ loading (expired st) = true
  /\ userAnswer (expired st) = "" /\ hintsUsedThisPuzzle (expired st) = 0
  /\ score (expired st) = score st /\ puzzle (expired st) = puzzle st.
Proof. by destruct st. Qed.

(** A successful puzzle response in a round whose timer is not frozen. *)
Lemma puzzle_settles (d : Difficulty) (now : Z) (p : BananaPuzzle)
    (st : State) :
  timerExact st -> isTimerFrozen st = false ->
  let r := step (evPuzzleSettled d now (Some p)) st in
  puzzle r.1 = Some p /\ timeLeft r.1 = timeLimits d
  /\ 30 <= timeLeft r.1 <= 50
  /\ puzzleStartTime r.1 = now /\ loading r.1 = false
  /\ timerArmed r.1 = true /\ isTimerFrozen r.1 = false
  /\ streak r.1 = streak st /\ score r.1 = score st
  /\ r.2 = [].
Proof.
  intros Hex Hf r. subst r. unfold step. rewrite dispatch_unfold.
  change (invoke (handler (evPuzzleSettled d now (Some p))) st)
    with (fetchPuzzleSettled d now (Some p) st).
  destruct (settled_fields d now p st)
    as (E1 & E2 & E3 & _ & E5 & E6 & E7 & E8 & E9 & _ & E11).
  cbv zeta in E1, E2, E3, E5, E6, E7, E8, E9. rewrite E11.
  cbn [fst snd app].
  pose proof (timeLimits_range d) as Hrange.
  destruct (depsChanged st (fetchPuzzleSettled d now (Some p) st).1)
    eqn:Hd.
  - rewrite commit_running; [| exact Hd | lia | congruence].
    cbn [fst snd].
    destruct (setTimerArmed_fields true
                (fetchPuzzleSettled d now (Some p) st).1)
      as (F1 & F2 & F3).
    destruct (setTimerArmed_keeps true
                (fetchPuzzleSettled d now (Some p) st).1)
      as (K1 & K2 & K3 & K4 & K5).
    rewrite F1, F2, F3, K1, K2, K3, K4, K5, E1, E2, E3, E5, E6, E8, E9.
    repeat split; try lia; assumption.
  - destruct (depsChanged_false _ _ Hd) as [Et Ef].
    rewrite (commit_unchanged _ _ Et Ef). cbn [fst snd].
    rewrite E1, E2, E3, E5, E6, E7, E8, E9.
    repeat split; try lia; try assumption.
    apply Hex. split; [lia | exact Hf].
Qed.



(** A settled puzzle request in a round that has just timed out. *)
Lemma expired_then_settled (now : Z) (p : BananaPuzzle) (st : State) :
  let r := step (evPuzzleSettled (difficulty st) now (Some p)) (expired st) in
  r.2 = [] /\ timeLeft r.1 = timeLimits (difficulty st)
  /\ timerArmed r.1 = true /\ isTimerFrozen r.1 = false
  /\ puzzle r.1 = Some p /\ loading r.1 = false
  /\ streak r.1 = 0 /\ score r.1 = score st.
Proof.
  intros r.
  destruct (expired_fields st) as (X1 & X2 & X3 & _).
  destruct (expired_more_fields st) as (Y1 & _ & _ & _ & Y5 & _).
  assert (timerExact (expired st)) as Hex.
  { unfold timerExact. rewrite X1, X3. split; [discriminate | lia]. }
  destruct (puzzle_settles (difficulty st) now p (expired st) Hex Y1)
    as (P1 & P2 & _ & _ & P5 & P6 & P7 & P8 & P9 & P10).
  fold r in P1, P2, P5, P6, P7, P8, P9, P10.
  rewrite X2 in P8. rewrite Y5 in P9. by repeat split.
Qed.

Lemma seq_fst (c1 c2 : M) (s : State) : (seq c1 c2 s).1 = (c2 (c1 s).1).1.
Proof. reflexivity. Qed.

Lemma seq_snd (c1 c2 : M) (s : State) :
  (seq c1 c2 s).2 = (c1 s).2 ++ (c2 (c1 s).1).2.
Proof. reflexivity. Qed.

Lemma ticks_to_zero_parts (n : nat) (st : State) :
  timerArmed st = true -> isTimerFrozen st = false ->
  timeLeft st = Z.of_nat (S n) ->
  (ticks (S n) st).1 = expired st
  /\ (ticks (S n) st).2 = [toast tSkipped; requestPuzzle (difficulty st)].
Proof.
  intros Ha Hf Ht. rewrite (ticks_to_zero n st Ha Hf Ht). by split.
Qed.

Lemma ticks_then_settled (n : nat) (now : Z) (p : BananaPuzzle) (st : State) :
  timerArmed st = true -> isTimerFrozen st = false ->
  timeLeft st = Z.of_nat (S n) ->
  ((ticks (S n) ;; step (evPuzzleSettled (difficulty st) now (Some p))) st).1
  = (step (evPuzzleSettled (difficulty st) now (Some p)) (expired st)).1
  /\ ((ticks (S n) ;;
       step (evPuzzleSettled (difficulty st) now (Some p))) st).2
     = [toast tSkipped; requestPuzzle (difficulty st)]
       ++ (step (evPuzzleSettled (difficulty st) now (Some p))
             (expired st)).2.
Proof.
  intros Ha Hf Ht. rewrite seq_fst, seq_snd.
  destruct (ticks_to_zero_parts n st Ha Hf Ht) as [-> ->]. by split.
Qed.

(** X7.  A round that times out recovers.  From a running round with [t]
    seconds left, [t] ticks and the arrival of the requested puzzle lead
    to a running round again: one skip notice and one puzzle request went
    out, the streak is 0, the score is untouched, the new puzzle is on
    screen and the countdown runs from the limit of the difficulty. *)
Theorem timeout_recovers (n : nat) (now : Z) (p : BananaPuzzle) (st : State) :
  timerArmed st = true -> isTimerFrozen st = false ->
  timeLeft st = Z.of_nat (S n) ->
  let r := (ticks (S n) ;;
            step (evPuzzleSettled (difficulty st) now (Some p))) st in
  r.2 = [toast tSkipped; requestPuzzle (difficulty st)]
  /\ timeLeft r.1 = timeLimits (difficulty st)
  /\ timerArmed r.1 = true /\ isTimerFrozen r.1 = false
  /\ puzzle r.1 = Some p /\ loading r.1 = false
  /\ streak r.1 = 0 /\ score r.1 = score st
  /\ timeLeft (tick r.1).1 = timeLimits (difficulty st) - 1.
Proof.
  intros Ha Hf Ht r. subst r.
  destruct (ticks_then_settled n now p st Ha Hf Ht) as [-> ->].
  destruct (expired_then_settled now p st)
    as (R1 & R2 & R3 & R4 & R5 & R6 & R7 & R8).
  cbv zeta in R1, R2, R3, R4, R5, R6, R7, R8.
  rewrite R1, app_nil_r.
  split; [reflexivity |]. split; [exact R2 |]. split; [exact R3 |].
  split; [exact R4 |]. split; [exact R5 |]. split; [exact R6 |].
  split; [exact R7 |]. split; [exact R8 |].
  rewrite <- R2. apply tick_decrements; [exact R3 | exact R4 |].
  rewrite R2. pose proof (timeLimits_range (difficulty st)). lia.
Qed.

Lemma timeout_recovers_witness :
  (timerArmed runningThree = true /\ isTimerFrozen runningThree = false
   /\ timeLeft runningThree = Z.of_nat 3)
  /\ timeLeft ((ticks 3 ;;
                step (evPuzzleSettled (difficulty runningThree) 9000
                        (Some (mkPuzzle "https://img/p3.png" "2"))))
                 runningThree).1 = 40
  /\ streak ((ticks 3 ;;
              step (evPuzzleSettled (difficulty runningThree) 9000
                      (Some (mkPuzzle "https://img/p3.png" "2"))))
               runningThree).1 = 0.
Proof.
  destruct (timeout_recovers 2 9000 (mkPuzzle "https://img/p3.png" "2")
              runningThree eq_refl eq_refl eq_refl)
    as (_ & Ht & _ & _ & _ & _ & Hs & _).
  split; [by repeat split |]. split; [exact Ht | exact Hs].
Defined.

End PuzzleArrival.

Section Economy.

Lemma sane_earned (r : CheckResult) :
  saneNumber (result_combo r) -> 5 <= earnedCoins r.
Proof.
  unfold earnedCoins, orElse, saneNumber.
  destruct (result_combo r) as [v |]; [| intros _; vm_compute; discriminate].
  intros Hv. destruct (Z.eqb_spec v 0); [vm_compute; discriminate |].
  pose proof (Z.div_pos v 2 Hv ltac:(lia)). lia.
Qed.


(** What a submission does to coins, power-ups, score and streak. *)
Lemma handleSubmit_accounts (now : Z) (o : CheckOutcome) (s : State) :
  let s' := (invoke (handleSubmit now o) s).1 in
  powerUps s' = powerUps s
  /\ ((coins s' = coins s /\ score s' = score s
       /\ (streak s' = streak s \/ streak s' = 0))
      \/ (correct (checkAnswer o) = true
          /\ coins s' = coins s + earnedCoins (checkAnswer o)
          /\ score s' = score s + awardedPoints s (checkAnswer o)
          /\ streak s' = streak s + 1)).
Proof.
  unfold invoke, handleSubmit.
  destruct (puzzle s); [| by (split; [| left; auto])].
  destruct (String.eqb (userAnswer s) ""); [by (split; [| left; auto]) |].
  destruct (correct (checkAnswer o)) eqn:Hc.
  - split; [| right; split; [reflexivity |]];
      destruct (doublePointsActive s) eqn:Hd,
        (truthyZ (xp_gained (checkAnswer o))),
        (leveled_up (checkAnswer o) && truthyZ (new_level (checkAnswer o)));
      by destruct s.
  - split; [by destruct s |]. left. by destruct s; auto.
Qed.

Lemma commit_accounts (old new : State) :
  coins (commit old new).1 = coins new
  /\ powerUps (commit old new).1 = powerUps new
  /\ score (commit old new).1 = score new
  /\ (streak (commit old new).1 = streak new
      \/ streak (commit old new).1 = 0).
Proof.
  assert (forall b s, coins (setTimerArmed b s) = coins s
                      /\ powerUps (setTimerArmed b s) = powerUps s
                      /\ score (setTimerArmed b s) = score s
                      /\ streak (setTimerArmed b s) = streak s) as Hk
    by (intros b s; by destruct s).
  assert (forall s, coins (skipped s) = coins s
                    /\ powerUps (skipped s) = powerUps s
                    /\ score (skipped s) = score s
                    /\ streak (skipped s) = 0) as Hs
    by (intros s; by destruct s).
  destruct (commit_cases old new) as [-> | [-> | [-> | ->]]].
  - auto.
  - destruct (Hk true new) as (-> & -> & -> & ->). auto.
  - destruct (Hk false new) as (-> & -> & -> & ->). auto.
  - destruct (Hs new) as (-> & -> & -> & ->). auto.
Qed.

(** Runs a handler other than [handleSubmit] on a state split into its
    fields and leaves the arithmetic to [lia]. *)
Ltac handler_arith s :=
  unfold invoke, handler;
  unfold intervalCallback, handleSkip, useHint, useFreeze, freezeEnd,
    useSuperBanana, buyPowerUp, afterCelebration, afterFailure,
    fetchPuzzleSettled, handleDifficultyChange, gameStatsSettled,
    playerDataSettled, handleEndGame, handleLogoutRequest, fetchPuzzle;
  repeat case_match;
  destruct s as [? ? ? ? ? ? ? ? ? ? [? ? ?] ? ? ? ? ? ? ? ? ? ? ?];
  cbn -[Z.add Z.sub] in *; lia.

Lemma handler_econ (ev : Event) (s : State) :
  saneEvent ev -> econInv s -> econInv (invoke (handler ev) s).1.
Proof.
  unfold econInv. intros Hsane (Hc & Hh & Hf & Hb).
  destruct ev as [| | ls o | | | | t cost | now o | d | d | d now data
                 | value | data | o | ls ok | endpoint o];
    try (handler_arith s).
  { destruct t; handler_arith s. }
  change (handler (evSubmit now o)) with (handleSubmit now o).
  destruct (handleSubmit_accounts now o s) as (Hp & Hcase).
  cbv zeta in Hp, Hcase. rewrite Hp.
  destruct Hcase as [(-> & _) | (Hcor & -> & _)]; [by repeat split |].
  destruct o as [r |]; [| discriminate Hcor].
  destruct Hsane as [_ Hcombo]. pose proof (sane_earned r Hcombo).
  cbn [checkAnswer]. repeat split; lia.
Qed.

Lemma step_econ (ev : Event) (s : State) :
  saneEvent ev -> econInv s -> econInv (step ev s).1.
Proof.
  intros Hsane Hinv. unfold step. rewrite dispatch_unfold. cbn [fst].
  pose proof (handler_econ ev s Hsane Hinv) as Hnew.
  destruct (commit_accounts s (invoke (handler ev) s).1) as (Ec & Ep & _).
  unfold econInv in *. by rewrite Ec, Ep.
Qed.

(** X8.  The local economy never goes negative.  If the coin balance and
    the three power-up counts are not negative, they stay so through any
    sequence of the events of [Event], as long as the backend reports no
    negative count, balance, points or combo: every local spend is
    guarded at the point of spending.  (Claiming the daily challenge,
    which sets the balance to a value the server sends, is not among
    these events.) *)
Theorem economy_never_negative (evs : list Event) (s : State) :
  Forall saneEvent evs -> econInv s -> econInv (steps evs s).1.
Proof.
  intros Hall. revert s.
  induction Hall as [| ev rest Hev Hrest IH]; intros s Hinv; [exact Hinv |].
  cbn [steps]. rewrite seq_fst. apply IH. by apply step_econ.
Qed.

Lemma economy_never_negative_witness :
  Forall saneEvent [evBuy puHint 10; evUseFreeze; evUseSuperBanana;
                    evUseSuperBanana; evBuy puFreeze 15]
  /\ econInv runningThree
  /\ econInv (steps [evBuy puHint 10; evUseFreeze; evUseSuperBanana;
                     evUseSuperBanana; evBuy puFreeze 15] runningThree).1.
Proof.
  assert (Forall saneEvent [evBuy puHint 10; evUseFreeze; evUseSuperBanana;
                            evUseSuperBanana; evBuy puFreeze 15]) as Hall
    by (repeat constructor).
  assert (econInv runningThree) as Hinv
    by (unfold econInv; vm_compute; repeat split; discriminate).
  split; [exact Hall |]. split; [exact Hinv |].
  exact (economy_never_negative _ runningThree Hall Hinv).
Defined.





End Economy.

Section SuperBanana.

Lemma useSuperBanana_applied (st : State) :
  0 < superBanana (powerUps st) ->
  invoke useSuperBanana st
  = (setDoublePointsActive true
       (setPowerUps
          (setSuperBanana (superBanana (powerUps st) - 1) (powerUps st)) st),
     [updatePlayerData [("super_bananas", superBanana (powerUps st) - 1)];
      toast tSuperBananaActivated]).
Proof.
  intros Hpos. unfold invoke, useSuperBanana.
  destruct (Z.ltb_spec 0 (superBanana (powerUps st))); [reflexivity | lia].
Qed.

Lemma armed_fields (st : State) (v : Z) :
  let s' := setDoublePointsActive true
              (setPowerUps (setSuperBanana v (powerUps st)) st) in
  superBanana (powerUps s') = v /\ doublePointsActive s' = true
  /\ hint (powerUps s') = hint (powerUps st)
  /\ freeze (powerUps s') = freeze (powerUps st)
  /\ coins s' = coins st /\ score s' = score st
  /\ puzzle s' = puzzle st /\ userAnswer s' = userAnswer st.
Proof. by destruct st as [? ? ? ? ? ? ? ? ? ? [? ? ?] ? ? ? ? ? ? ? ? ? ? ?]. Qed.

(** X10.  Super Banana.  With none in stock the power-up does nothing: no
    arming, no sync.  With one in stock it takes exactly one off the
    count, syncs the new count and arms double points, leaving coins and
    the other power-ups alone.  The handler itself does not look at the
    armed flag: used a second time before a correct answer it spends a
    second banana, while the following correct answer is still awarded
    double, not fourfold, points. *)
Theorem super_banana_spend (st : State) :
  (superBanana (powerUps st) <= 0 -> invoke useSuperBanana st = (st, []))
  /\ (0 < superBanana (powerUps st) ->
      let r := invoke useSuperBanana st in
      superBanana (powerUps r.1) = superBanana (powerUps st) - 1
      /\ doublePointsActive r.1 = true
      /\ hint (powerUps r.1) = hint (powerUps st)
      /\ freeze (powerUps r.1) = freeze (powerUps st)
      /\ coins r.1 = coins st
      /\ List.filter isPlayerSync r.2
         = [updatePlayerData
              [("super_bananas", superBanana (powerUps st) - 1)]])
  /\ (1 < superBanana (powerUps st) ->
      let r2 := invoke useSuperBanana (invoke useSuperBanana st).1 in
      superBanana (powerUps r2.1) = superBanana (powerUps st) - 2
      /\ doublePointsActive r2.1 = true
      /\ forall now res p, puzzle st = Some p -> userAnswer st <> "" ->
         correct res = true ->
         score (invoke (handleSubmit now (responded res)) r2.1).1
         = score st + 2 * basePoints res).
Proof.
  split; [| split].
  - intros Hle. unfold invoke, useSuperBanana.
    destruct (Z.ltb_spec 0 (superBanana (powerUps st))); [lia | reflexivity].
  - intros Hpos r. subst r. rewrite (useSuperBanana_applied st Hpos).
    cbn [fst snd].
    destruct (armed_fields st (superBanana (powerUps st) - 1))
      as (E1 & E2 & E3 & E4 & E5 & _).
    by repeat split.
  - intros Hpos r2. subst r2.
    rewrite (useSuperBanana_applied st) by lia. cbn [fst].
    destruct (armed_fields st (superBanana (powerUps st) - 1))
      as (E1 & E2 & E3 & E4 & E5 & E6 & E7 & E8).
    cbv zeta in E1, E2, E3, E4, E5, E6, E7, E8.
    set (s1 := setDoublePointsActive true
                 (setPowerUps
                    (setSuperBanana (superBanana (powerUps st) - 1)
                       (powerUps st)) st)) in *.
    rewrite (useSuperBanana_applied s1) by lia. cbn [fst].
    destruct (armed_fields s1 (superBanana (powerUps s1) - 1))
      as (F1 & F2 & _ & _ & _ & F6 & F7 & F8).
    cbv zeta in F1, F2, F6, F7, F8.
    split; [rewrite F1, E1; lia |]. split; [exact F2 |].
    intros now res p Hp Ha Hcor.
    assert (puzzle (setDoublePointsActive true
                      (setPowerUps
                         (setSuperBanana (superBanana (powerUps s1) - 1)
                            (powerUps s1)) s1)) = Some p) as Hp'
      by congruence.
    assert (userAnswer (setDoublePointsActive true
                          (setPowerUps
                             (setSuperBanana (superBanana (powerUps s1) - 1)
                                (powerUps s1)) s1)) <> "") as Ha'
      by congruence.
    destruct (handleSubmit_correct now _ p Hp' Ha' res Hcor) as (Hs & _).
    cbv zeta in Hs. rewrite Hs, F6, E6. unfold awardedPoints.
    rewrite F2. lia.
Qed.

Lemma super_banana_spend_witness :
  (superBanana (powerUps GamePage.initial) <= 0
   /\ invoke useSuperBanana GamePage.initial = (GamePage.initial, []))
  /\ (0 < superBanana (powerUps runningThree)
      /\ superBanana (powerUps (invoke useSuperBanana runningThree).1) = 0
      /\ doublePointsActive (invoke useSuperBanana runningThree).1 = true)
  /\ (1 < superBanana (powerUps
                         (setPowerUps (mkPowerUps 0 0 2) readyToSubmit))
      /\ superBanana
           (powerUps
              (invoke useSuperBanana
                 (invoke useSuperBanana
                    (setPowerUps (mkPowerUps 0 0 2) readyToSubmit)).1).1)
         = 0).
Proof.
  assert (superBanana (powerUps GamePage.initial) <= 0) as H0
    by (vm_compute; discriminate).
  assert (0 < superBanana (powerUps runningThree)) as H1 by reflexivity.
  assert (1 < superBanana (powerUps
                             (setPowerUps (mkPowerUps 0 0 2) readyToSubmit)))
    as H2 by reflexivity.
  split; [| split].
  - split; [exact H0 |].
    exact (proj1 (super_banana_spend GamePage.initial) H0).
  - destruct (proj1 (proj2 (super_banana_spend runningThree)) H1)
      as (Hc & Hd & _).
    split; [exact H1 |]. split; [exact Hc | exact Hd].
  - destruct (proj2 (proj2 (super_banana_spend
                              (setPowerUps (mkPowerUps 0 0 2) readyToSubmit)))
                H2) as (Hc & _).
    split; [exact H2 | exact Hc].
Defined.

End SuperBanana.

Section DifficultyAndEndGame.

Lemma difficulty_fields (value : Difficulty) (st : State) :
  difficulty (setDifficulty value st) = value
  /\ timeLeft (setDifficulty value st) = timeLeft st
  /\ isTimerFrozen (setDifficulty value st) = isTimerFrozen st
  /\ timerArmed (setDifficulty value st) = timerArmed st
  /\ puzzle (setDifficulty value st) = puzzle st
  /\ score (setDifficulty value st) = score st.
Proof. by destruct st. Qed.

Lemma step_difficulty (value : Difficulty) (st : State) :
  step (evDifficulty value) st
  = (setDifficulty value st, [requestSetDifficulty value]).
Proof.
  unfold step. rewrite dispatch_unfold.
  change (invoke (handler (evDifficulty value)) st)
    with (setDifficulty value st, [requestSetDifficulty value]).
  cbn [fst snd].
  destruct (difficulty_fields value st) as (_ & E2 & E3 & _).
  rewrite (commit_unchanged _ _ E2 E3). reflexivity.
Qed.

(** X11.  Changing the difficulty.  The change is applied at once and
    told to the backend in one request; it does not touch the round in
    progress: time left, interval, puzzle and score are what they were.  A
    puzzle request made before the change still restarts the countdown at
    the limit of the difficulty it was made under, while a skip after the
    change asks under the new difficulty. *)
Theorem difficulty_change (value : Difficulty) (now : Z) (p : BananaPuzzle)
    (st : State) :
  let r := step (evDifficulty value) st in
  difficulty r.1 = value /\ r.2 = [requestSetDifficulty value]
  /\ timeLeft r.1 = timeLeft st /\ timerArmed r.1 = timerArmed st
  /\ puzzle r.1 = puzzle st /\ score r.1 = score st
  /\ List.filter isPuzzleRequest (invoke handleSkip st).2
     = [requestPuzzle (difficulty st)]
  /\ timeLeft (fetchPuzzleSettled (difficulty st) now (Some p) r.1).1
     = timeLimits (difficulty st)
  /\ difficulty (fetchPuzzleSettled (difficulty st) now (Some p) r.1).1
     = value
  /\ List.filter isPuzzleRequest (invoke handleSkip r.1).2
     = [requestPuzzle value].
Proof.
  intros r. subst r. rewrite step_difficulty. cbn [fst snd].
  destruct (difficulty_fields value st) as (E1 & E2 & _ & E4 & E5 & E6).
  destruct (settled_fields (difficulty st) now p (setDifficulty value st))
    as (_ & S2 & _ & _ & _ & _ & _ & _ & _ & S10 & _).
  cbv zeta in S2, S10.
  split; [exact E1 |]. split; [reflexivity |]. split; [exact E2 |].
  split; [exact E4 |]. split; [exact E5 |]. split; [exact E6 |].
  split; [reflexivity |]. split; [exact S2 |].
  split; [by rewrite S10 |].
  unfold invoke, handleSkip, fetchPuzzle. by rewrite E1.
Qed.

Lemma handleEndGame_cases (ls : gmap string string) (ok : bool) (st : State) :
  invoke (handleEndGame ls ok) st
  = (st,
     if Storage.truthy (Storage.getItem ls "accessToken") then
       requestSubmitScore (score st)
       :: (if ok then [onGameComplete (score st); toast tGameEnded]
           else [toast tEndGameError])
     else [toast tEndGameError]).
Proof.
  unfold invoke, handleEndGame.
  destruct (Storage.truthy (Storage.getItem ls "accessToken")); [| reflexivity].
  by destruct ok.
Qed.

(** X12.  Ending the round set.  The game state is never changed by End
    Game, so the score is not lost.  The score is submitted only with a
    stored access token; the router's completion callback is invoked
    exactly when the submission is acknowledged, with the session score,
    after which the router shows the leaderboard with that score and the
    same username; in every other case the router and the storage stay as
    they are and an error is shown. *)
Theorem end_game (ls : gmap string string) (ok : bool) (st : State)
    (ix : Index.State) (store : gmap string string) :
  let r := step (evEndGame ls ok) st in
  let a := App.performAll r.2 (ix, store) in
  r.1 = st
  /\ count isScoreRequest r.2
     = (if Storage.truthy (Storage.getItem ls "accessToken")
        then 1%nat else 0%nat)
  /\ (Storage.truthy (Storage.getItem ls "accessToken") && ok = true ->
      List.filter isGameComplete r.2 = [onGameComplete (score st)]
      /\ Index.view a.1 = Index.leaderboard
      /\ Index.finalScore a.1 = score st
      /\ Index.username a.1 = Index.username ix
      /\ a.2 = store)
  /\ (Storage.truthy (Storage.getItem ls "accessToken") && ok = false ->
      count isGameComplete r.2 = 0%nat /\ a = (ix, store)
      /\ In (toast tEndGameError) r.2).
Proof.
  intros r a. subst a r. unfold step. rewrite dispatch_unfold.
  change (invoke (handler (evEndGame ls ok)) st)
    with (invoke (handleEndGame ls ok) st).
  rewrite handleEndGame_cases. cbn [fst snd].
  rewrite commit_unchanged by reflexivity. cbn [fst snd]. rewrite app_nil_r.
  destruct (Storage.truthy (Storage.getItem ls "accessToken")), ok;
    cbn [andb].
  - split; [reflexivity |]. split; [reflexivity |].
    split; [| discriminate]. intros _. by destruct ix.
  - split; [reflexivity |]. split; [reflexivity |].
    split; [discriminate |]. intros _. repeat split. cbn. auto.
  - split; [reflexivity |]. split; [reflexivity |].
    split; [discriminate |]. intros _. repeat split. cbn. auto.
  - split; [reflexivity |]. split; [reflexivity |].
    split; [discriminate |]. intros _. repeat split. cbn. auto.
Qed.

Lemma end_game_witness :
  (Storage.truthy
     (Storage.getItem (<["accessToken" := "a1"]> storeWithToken)
        "accessToken") && true = true
   /\ Index.view
        (App.performAll
           (step (evEndGame (<["accessToken" := "a1"]> storeWithToken) true)
              (setScore 45 runningThree)).2
           (routerPlaying, storeWithToken)).1 = Index.leaderboard
   /\ Index.finalScore
        (App.performAll
           (step (evEndGame (<["accessToken" := "a1"]> storeWithToken) true)
              (setScore 45 runningThree)).2
           (routerPlaying, storeWithToken)).1 = 45)
  /\ (Storage.truthy (Storage.getItem storeWithToken "accessToken")
      && true = false
      /\ App.performAll
           (step (evEndGame storeWithToken true) (setScore 45 runningThree)).2
           (routerPlaying, storeWithToken)
         = (routerPlaying, storeWithToken)).
Proof.
  assert (Storage.truthy
            (Storage.getItem (<["accessToken" := "a1"]> storeWithToken)
               "accessToken") && true = true) as H1
    by (vm_compute; reflexivity).
  assert (Storage.truthy (Storage.getItem storeWithToken "accessToken")
          && true = false) as H2 by (vm_compute; reflexivity).
  split.
  - destruct (end_game (<["accessToken" := "a1"]> storeWithToken) true
                (setScore 45 runningThree) routerPlaying storeWithToken)
      as (_ & _ & Hok & _).
    destruct (Hok H1) as (_ & Hv & Hf & _).
    split; [exact H1 |]. split; [exact Hv | exact Hf].
  - destruct (end_game storeWithToken true (setScore 45 runningThree)
                routerPlaying storeWithToken) as (_ & _ & _ & Hfail).
    destruct (Hfail H2) as (_ & Hsame & _).
    split; [exact H2 | exact Hsame].
Defined.

End DifficultyAndEndGame.

Section LeavingTheGame.

Import Session.

Lemma performAll_app (es1 es2 : list Effect)
    (a : Index.State * gmap string string) :
  App.performAll (es1 ++ es2) a = App.performAll es2 (App.performAll es1 a).
Proof. apply foldl_app. Qed.

Lemma commit_effects (old new : State) :
  (commit old new).2 = []
  \/ (commit old new).2 = [toast tSkipped; requestPuzzle (difficulty new)]
  \/ (commit old new).2
     = [toast tSkipped; requestPuzzle (difficulty new);
        toast tSkipped; requestPuzzle (difficulty new)].
Proof.
  destruct (depsChanged old new) eqn:Hd.
  - destruct (Z.leb_spec (timeLeft new) 0) as [Hle | Hgt];
      destruct (isTimerFrozen new) eqn:Hf.
    + rewrite (commit_expired_frozen _ _ Hd Hle Hf). auto.
    + rewrite (commit_expired _ _ Hd Hle Hf). auto.
    + rewrite (commit_frozen _ _ Hd Hgt Hf). auto.
    + rewrite (commit_running _ _ Hd Hgt Hf). auto.
  - destruct (depsChanged_false _ _ Hd) as [Et Ef].
    rewrite (commit_unchanged _ _ Et Ef). auto.
Qed.

Lemma commit_quiet (old new : State) (a : Index.State * gmap string string) :
  App.performAll (commit old new).2 a = a
  /\ count isOnLogout (commit old new).2 = 0%nat.
Proof.
  destruct (commit_effects old new) as [-> | [-> | ->]]; by split.
Qed.

Lemma handler_session (ev : Event) (s : State) (ix : Index.State)
    (store : gmap string string) :
  let es := (invoke (handler ev) s).2 in
  let a := App.performAll es (ix, store) in
  count isOnLogout es = (if logsOut ev s then 1%nat else 0%nat)
  /\ (logsOut ev s = true ->
      Index.view a.1 = Index.landing /\ Index.username a.1 = "")
  /\ (logsOut ev s = false ->
      a.2 = store
      /\ ((exists ls, ev = evEndGame ls true
                      /\ a.1 = Index.handleGameComplete (score s) ix)
          \/ a.1 = ix)).
Proof.
  destruct ev as [| | ls o | | | | t cost | now o | d | d | d now data
                 | value | data | o | ls ok | endpoint o];
    unfold invoke, handler, logsOut;
    unfold intervalCallback, handleSkip, useHint, useFreeze, freezeEnd,
      useSuperBanana, buyPowerUp, handleSubmit, afterCelebration,
      afterFailure, fetchPuzzleSettled, handleDifficultyChange,
      gameStatsSettled, playerDataSettled, handleEndGame,
      handleLogoutRequest, fetchPuzzle.
  all: repeat case_match.
  all: destruct s as [? ? ? ? ? ? ? ? ? ? [? ? ?] ? ? ? ? ? ? ? ? ? ? ?].
  all: destruct ix.
  all: cbn -[Z.add Z.sub Z.leb Z.ltb] in *.
  all: try (split; [reflexivity |]; split; [discriminate |]; intros _;
            split; [reflexivity |]; right; reflexivity).
  all: try (split; [reflexivity |]; split; [intros _; by split |];
            discriminate).
  all: try (subst; split; [reflexivity |]; split; [discriminate |];
            intros _; split; [reflexivity |]; left; eexists;
            split; reflexivity).
  all: try lia.
Qed.

Lemma handler_syncs (ev : Event) (s : State) :
  (count isPlayerSync (invoke (handler ev) s).2 <= 1)%nat
  /\ (maySync ev = false ->
      count isPlayerSync (invoke (handler ev) s).2 = 0%nat).
Proof.
  destruct ev as [| | ls o | | | | t cost | now o | d | d | d now data
                 | value | data | o | ls ok | endpoint o];
    unfold invoke, handler, maySync;
    unfold intervalCallback, handleSkip, useHint, useFreeze, freezeEnd,
      useSuperBanana, buyPowerUp, handleSubmit, afterCelebration,
      afterFailure, fetchPuzzleSettled, handleDifficultyChange,
      gameStatsSettled, playerDataSettled, handleEndGame,
      handleLogoutRequest, fetchPuzzle.
  all: repeat case_match.
  all: destruct s as [? ? ? ? ? ? ? ? ? ? [? ? ?] ? ? ? ? ? ? ? ? ? ? ?].
  all: cbn -[Z.add Z.sub Z.leb Z.ltb] in *.
  all: split; [lia | try discriminate; by intros _].
Qed.

Lemma commit_no_sync (old new : State) :
  count isPlayerSync (commit old new).2 = 0%nat.
Proof. by destruct (commit_effects old new) as [-> | [-> | ->]]. Qed.

Lemma sync_session (ls : gmap string string) (updates : list (string * Z))
    (resp : PatchResponse) (ix : Index.State) (store : gmap string string) :
  let es := updatePlayerDataSettled ls updates resp in
  let a := App.performAll es (ix, store) in
  count isOnLogout es = (if syncLogsOut ls resp then 1%nat else 0%nat)
  /\ (syncLogsOut ls resp = true ->
      Index.view a.1 = Index.landing /\ Index.username a.1 = "")
  /\ (syncLogsOut ls resp = false -> a = (ix, store)).
Proof.
  unfold updatePlayerDataSettled, updatePlayerDataRequest, syncLogsOut.
  destruct (Storage.getItem ls "accessToken") as [tok |]; cbn [andb].
  - destruct (Storage.truthy (Some tok)); cbn [andb].
    + destruct resp; cbn; (split; [reflexivity |]);
        (split; [try discriminate; by intros _
                | try discriminate; by intros _]).
    + split; [reflexivity |]. split; [discriminate | by intros _].
  - split; [reflexivity |]. split; [discriminate | by intros _].
Qed.

(** X13.  Who can throw the player out.  Among the events of [Event] the
    router's logout callback is invoked by a handler at most once per
    event, and exactly by three things: a hint asked for (with a hint in
    stock and a puzzle on screen) when the access token is missing or the
    backend answers 401, a 401 answer to the player-data request, and a
    logout request that is not already under way.  The only other caller
    is the player-data sync, which a freeze, a super banana, a purchase
    or a submission starts at most once: it invokes the callback exactly
    when a token is stored and its PATCH is answered 401.  In all these
    cases the router ends on the landing view with the username cleared.
    Otherwise an event (a tick, a skip, a submission even when the network
    fails, a puzzle that does not load) and a sync (even when it fails)
    leave the stored session and the username alone; the only other
    change to the router is the move to the leaderboard after an
    acknowledged End Game. *)
Theorem logout_causes (ev : Event) (s : State)
    (ix : Index.State) (store : gmap string string) :
  let r := step ev s in
  let a := App.performAll r.2 (ix, store) in
  count isOnLogout r.2 = (if logsOut ev s then 1%nat else 0%nat)
  /\ (logsOut ev s = true ->
      Index.view a.1 = Index.landing /\ Index.username a.1 = "")
  /\ (logsOut ev s = false ->
      a.2 = store
      /\ ((exists ls, ev = evEndGame ls true
                      /\ a.1 = Index.handleGameComplete (score s) ix)
          \/ a.1 = ix))
  /\ (count isPlayerSync r.2 <= 1)%nat
  /\ (maySync ev = false -> count isPlayerSync r.2 = 0%nat)
  /\ (forall ls updates resp,
      let es := updatePlayerDataSettled ls updates resp in
      let b := App.performAll es (ix, store) in
      count isOnLogout es = (if syncLogsOut ls resp then 1%nat else 0%nat)
      /\ (syncLogsOut ls resp = true ->
          Index.view b.1 = Index.landing /\ Index.username b.1 = "")
      /\ (syncLogsOut ls resp = false -> b = (ix, store))).
Proof.
  intros r a. subst a r. unfold step. rewrite dispatch_unfold. cbn [snd].
  rewrite performAll_app, !count_app, commit_no_sync.
  destruct (commit_quiet s (invoke (handler ev) s).1
              (App.performAll (invoke (handler ev) s).2 (ix, store)))
    as [-> ->].
  rewrite !Nat.add_0_r.
  destruct (handler_session ev s ix store) as (H1 & H2 & H3).
  destruct (handler_syncs ev s) as (H4 & H5).
  split; [exact H1 |]. split; [exact H2 |]. split; [exact H3 |].
  split; [exact H4 |]. split; [exact H5 |].
  intros ls updates resp. exact (sync_session ls updates resp ix store).
Qed.

Lemma logout_causes_witness :
  (logsOut (evUseHint storeEmpty hint401) readyToSubmit = true
   /\ Index.view
        (App.performAll (step (evUseHint storeEmpty hint401) readyToSubmit).2
           (routerPlaying, storeWithToken)).1 = Index.landing)
  /\ (logsOut (evSubmit 5000 networkError) readyToSubmit = false
      /\ (App.performAll (step (evSubmit 5000 networkError) readyToSubmit).2
            (routerPlaying, storeWithToken)).2 = storeWithToken)
  /\ (syncLogsOut (<["accessToken" := "a1"]> storeWithToken) status401
      = true
      /\ Index.view
           (App.performAll
              (updatePlayerDataSettled
                 (<["accessToken" := "a1"]> storeWithToken)
                 [("coins", 5)] status401)
              (routerPlaying, storeWithToken)).1 = Index.landing).
Proof.
  assert (logsOut (evUseHint storeEmpty hint401) readyToSubmit = true) as H1
    by (vm_compute; reflexivity).
  assert (logsOut (evSubmit 5000 networkError) readyToSubmit = false) as H2
    by reflexivity.
  assert (syncLogsOut (<["accessToken" := "a1"]> storeWithToken) status401
          = true) as H3 by (vm_compute; reflexivity).
  split; [| split].
  - destruct (logout_causes (evUseHint storeEmpty hint401)
                readyToSubmit routerPlaying storeWithToken) as (_ & Hout & _).
    split; [exact H1 | exact (proj1 (Hout H1))].
  - destruct (logout_causes (evSubmit 5000 networkError)
                readyToSubmit routerPlaying storeWithToken) as (_ & _ & Hin & _).
    split; [exact H2 | exact (proj1 (Hin H2))].
  - destruct (logout_causes evTick readyToSubmit routerPlaying
                storeWithToken) as (_ & _ & _ & _ & _ & Hsync).
    destruct (Hsync (<["accessToken" := "a1"]> storeWithToken)
                [("coins", 5)] status401) as (_ & Hgo & _).
    split; [exact H3 | exact (proj1 (Hgo H3))].
Defined.

End LeavingTheGame.

Section Celebration.

Lemma handleSubmit_keeps (now : Z) (o : CheckOutcome) (s : State) :
  let s' := (invoke (handleSubmit now o) s).1 in
  timeLeft s' = timeLeft s /\ isTimerFrozen s' = isTimerFrozen s
  /\ timerArmed s' = timerArmed s /\ difficulty s' = difficulty s.
Proof.
  unfold invoke, handleSubmit.
  destruct (puzzle s); [| by repeat split].
  destruct (String.eqb (userAnswer s) ""); [by repeat split |].
  destruct (correct (checkAnswer o)).
  - destruct (doublePointsActive s),
      (truthyZ (xp_gained (checkAnswer o))),
      (leveled_up (checkAnswer o) && truthyZ (new_level (checkAnswer o)));
      by destruct s.
  - by destruct s.
Qed.

Lemma step_submit (now : Z) (o : CheckOutcome) (s : State) :
  step (evSubmit now o) s = invoke (handleSubmit now o) s.
Proof.
  unfold step. rewrite dispatch_unfold.
  change (handler (evSubmit now o)) with (handleSubmit now o).
  destruct (handleSubmit_keeps now o s) as (Et & Ef & _).
  cbv zeta in Et, Ef. rewrite (commit_unchanged _ _ Et Ef).
  cbn [fst snd]. rewrite app_nil_r.
  by destruct (invoke (handleSubmit now o) s).
Qed.

Lemma step_afterCelebration (d : Difficulty) (s : State) :
  isTimerFrozen s = false ->
  (step (evAfterCelebration d) s).2 = [requestPuzzle d; fetchGameStats]
  /\ streak (step (evAfterCelebration d) s).1 = streak s
  /\ timeLeft (step (evAfterCelebration d) s).1 = timeLeft s.
Proof.
  intros Hf. unfold step. rewrite dispatch_unfold.
  assert ((invoke (handler (evAfterCelebration d)) s).2
          = [requestPuzzle d; fetchGameStats]
          /\ timeLeft (invoke (handler (evAfterCelebration d)) s).1
             = timeLeft s
          /\ isTimerFrozen (invoke (handler (evAfterCelebration d)) s).1
             = false
          /\ streak (invoke (handler (evAfterCelebration d)) s).1
             = streak s) as (Ee & Et & Ef & Es)
    by (by destruct s).
  rewrite (commit_unchanged _ _ Et) by congruence.
  cbn [fst snd]. rewrite app_nil_r. by repeat split.
Qed.

(** X14.  The countdown does not stop for the celebration.  A correct
    answer leaves the time left and the running interval as they are.  So
    when the answer is accepted with one second left, the next tick runs
    the timeout path during the two seconds of celebration: the streak
    that was just raised is reset to zero (the points stay), the skip
    toast is shown and a puzzle is requested; when the celebration
    callback then fires it requests a second puzzle for the same round. *)
Theorem countdown_runs_through_celebration (now : Z) (r : CheckResult)
    (p : BananaPuzzle) (st : State) :
  puzzle st = Some p -> userAnswer st <> "" -> correct r = true ->
  timerArmed st = true -> isTimerFrozen st = false -> timeLeft st = 1 ->
  let s1 := (step (evSubmit now (responded r)) st).1 in
  let r2 := tick s1 in
  let r3 := step (evAfterCelebration (difficulty st)) r2.1 in
  streak s1 = streak st + 1
  /\ timeLeft s1 = timeLeft st /\ timerArmed s1 = true
  /\ streak r2.1 = 0
  /\ score r2.1 = score st + awardedPoints st r
  /\ r2.2 = [toast tSkipped; requestPuzzle (difficulty st)]
  /\ List.filter isPuzzleRequest r3.2 = [requestPuzzle (difficulty st)]
  /\ streak r3.1 = 0.
Proof.
  intros Hp Ha Hcor Harm Hfr Ht s1 r2 r3. subst r3 r2 s1.
  rewrite step_submit.
  destruct (handleSubmit_correct now st p Hp Ha r Hcor)
    as (Hscore & _ & Hstreak & _).
  destruct (handleSubmit_keeps now (responded r) st) as (Et & Ef & Ea & Ed).
  cbv zeta in Hscore, Hstreak, Et, Ef, Ea, Ed.
  generalize dependent (invoke (handleSubmit now (responded r)) st).1.
  intros s1 Hscore Hstreak Et Ef Ea Ed.
  rewrite (tick_expire s1) by congruence. cbn [fst snd].
  destruct (expired_fields s1) as (_ & X2 & _).
  destruct (expired_more_fields s1) as (X3 & _ & _ & _ & X5 & _).
  destruct (step_afterCelebration (difficulty st) (expired s1) X3)
    as (-> & -> & _).
  split; [exact Hstreak |]. split; [exact Et |].
  split; [congruence |]. split; [exact X2 |].
  split; [congruence |]. split; [by rewrite Ed |].
  split; [reflexivity | exact X2].
Qed.

Lemma countdown_runs_through_celebration_witness :
  (puzzle (setTimeLeft 1 readyToSubmit)
   = Some (mkPuzzle "https://img/p2.png" "7")
   /\ userAnswer (setTimeLeft 1 readyToSubmit) <> ""
   /\ correct (correctWith (Some 25)) = true
   /\ timerArmed (setTimeLeft 1 readyToSubmit) = true
   /\ isTimerFrozen (setTimeLeft 1 readyToSubmit) = false
   /\ timeLeft (setTimeLeft 1 readyToSubmit) = 1)
  /\ streak (step (evSubmit 5000 (responded (correctWith (Some 25))))
               (setTimeLeft 1 readyToSubmit)).1 = 5
  /\ streak (tick (step (evSubmit 5000 (responded (correctWith (Some 25))))
                     (setTimeLeft 1 readyToSubmit)).1).1 = 0.
Proof.
  assert (userAnswer (setTimeLeft 1 readyToSubmit) <> "") as Ha
    by (vm_compute; discriminate).
  destruct (countdown_runs_through_celebration 5000 (correctWith (Some 25))
              (mkPuzzle "https://img/p2.png" "7")
              (setTimeLeft 1 readyToSubmit)
              eq_refl Ha eq_refl eq_refl eq_refl eq_refl)
    as (H1 & _ & _ & H4 & _).
  split; [by repeat split |]. split; [exact H1 | exact H4].
Defined.

End Celebration.

Section FirstPuzzle.

Lemma tick_keeps (s : State) :
  puzzle (tick s).1 = puzzle s
  /\ (loading s = true -> loading (tick s).1 = true).
Proof.
  assert (forall b x, puzzle (setTimerArmed b x) = puzzle x
                      /\ loading (setTimerArmed b x) = loading x) as Hk
    by (intros b x; by destruct x).
  assert (forall x, puzzle (skipped x) = puzzle x
                    /\ loading (skipped x) = true) as Hs
    by (intros x; by destruct x).
  assert (puzzle (invoke intervalCallback s).1 = puzzle s
          /\ loading (invoke intervalCallback s).1 = loading s) as [Hp Hl].
  { unfold invoke, intervalCallback. destruct (timerArmed s); by destruct s. }
  unfold tick. rewrite dispatch_unfold. cbn [fst].
  destruct (commit_cases s (invoke intervalCallback s).1)
    as [-> | [-> | [-> | ->]]].
  - rewrite Hp, Hl. by split.
  - destruct (Hk true (invoke intervalCallback s).1) as [-> ->].
    rewrite Hp, Hl. by split.
  - destruct (Hk false (invoke intervalCallback s).1) as [-> ->].
    rewrite Hp, Hl. by split.
  - destruct (Hs (invoke intervalCallback s).1) as [-> ->].
    rewrite Hp. by split.
Qed.

Lemma ticks_keep (k : nat) (s : State) :
  puzzle (ticks k s).1 = puzzle s
  /\ (loading s = true -> loading (ticks k s).1 = true).
Proof.
  revert s. induction k as [| k IH]; intros s; [by split |].
  cbn [ticks]. rewrite seq_fst.
  destruct (IH (tick s).1) as [-> Hl]. destruct (tick_keeps s) as [-> Hl'].
  split; [reflexivity |]. intros H. apply Hl, Hl', H.
Qed.

(** X22.  The countdown does not wait for the first puzzle.  Mounting the
    game screen starts the player-data, statistics and daily-challenge
    fetches and one puzzle request under the initial difficulty, and
    installs the interval at once.  While the puzzle has not arrived the
    screen keeps loading with no puzzle and the 40 seconds run down one
    per tick; a puzzle that arrives within them restarts the countdown at
    40.  If none arrives within 40 ticks the timeout path runs, asking
    once more for a puzzle, and the countdown stops at 0. *)
Theorem countdown_runs_while_loading (k : nat) :
  let r := ticks k mount.1 in
  mount.2 = [fetchPlayerData; fetchGameStats; fetchDailyChallenge;
             requestPuzzle medium]
  /\ puzzle r.1 = None /\ loading r.1 = true
  /\ timeLeft r.1 = Z.max 0 (40 - Z.of_nat k)
  /\ count isPuzzleRequest r.2
     = (if 40 <=? Z.of_nat k then 1%nat else 0%nat)
  /\ (40 <= Z.of_nat k -> timerArmed r.1 = false /\ timeLeft r.1 = 0)
  /\ (Z.of_nat k < 40 ->
      forall now p,
        timeLeft (step (evPuzzleSettled medium now (Some p)) r.1).1 = 40
        /\ timerArmed (step (evPuzzleSettled medium now (Some p)) r.1).1
           = true).
Proof.
  intros r. subst r.
  assert (timerArmed mount.1 = true /\ isTimerFrozen mount.1 = false
          /\ timeLeft mount.1 = 40 /\ puzzle mount.1 = None
          /\ loading mount.1 = true) as (Ma & Mf & Mt & Mp & Ml)
    by (vm_compute; by repeat split).
  destruct (ticks_keep k mount.1) as [Kp Kl].
  destruct (ticks_countdown k mount.1 Ma Mf ltac:(rewrite Mt; lia))
    as (Ct & _ & Cp & _ & Cout & Cin).
  cbv zeta in Ct, Cp, Cout, Cin. rewrite Mt in Ct, Cp, Cout, Cin.
  generalize dependent (ticks k mount.1). intros r Kp Kl Ct Cp Cout Cin.
  split; [reflexivity |]. split; [by rewrite Kp |].
  split; [by apply Kl |]. split; [exact Ct |]. split; [exact Cp |].
  split.
  - intros Hk. destruct (Cout Hk) as [_ Ha]. split; [exact Ha | lia].
  - intros Hk now p. destruct (Cin Hk) as (Ha & Hf & _).
    assert (timerExact r.1) as Hex.
    { unfold timerExact. rewrite Ha, Hf, Ct. split; [intros _ | done].
      split; [lia | reflexivity]. }
    destruct (puzzle_settles medium now p r.1 Hex Hf)
      as (_ & Ht & _ & _ & _ & Harm & _).
    split; [exact Ht | exact Harm].
Qed.

Lemma countdown_runs_while_loading_witness :
  (Z.of_nat 12 < 40
   /\ timeLeft (ticks 12 mount.1).1 = 28
   /\ timeLeft
        (step (evPuzzleSettled medium 9000
                 (Some (mkPuzzle "https://img/p1.png" "3")))
           (ticks 12 mount.1).1).1 = 40)
  /\ (40 <= Z.of_nat 41 /\ timerArmed (ticks 41 mount.1).1 = false).
Proof.
  assert (Z.of_nat 12 < 40) as H1 by reflexivity.
  assert (40 <= Z.of_nat 41) as H2 by (vm_compute; discriminate).
  split.
  - destruct (countdown_runs_while_loading 12)
      as (_ & _ & _ & Ht & _ & _ & Hin).
    split; [exact H1 |]. split; [exact Ht |].
    exact (proj1 (Hin H1 9000 (mkPuzzle "https://img/p1.png" "3"))).
  - destruct (countdown_runs_while_loading 41)
      as (_ & _ & _ & _ & _ & Hout & _).
    split; [exact H2 | exact (proj1 (Hout H2))].
Defined.

End FirstPuzzle.

Section Ranking.

Import Leaderboard.

Lemma findIndexFrom_spec {A : Type} (p : A -> bool) (l : list A) (k : Z) :
  match List.find p l with
  | None => findIndexFrom k p l = -1 /\ Forall (fun x => p x = false) l
  | Some x =>
      exists i : nat,
        findIndexFrom k p l = k + Z.of_nat i /\ l !! i = Some x
        /\ p x = true
        /\ forall j y, (j < i)%nat -> l !! j = Some y -> p y = false
  end.
Proof.
  revert k. induction l as [| a rest IH]; intros k; cbn [List.find findIndexFrom].
  - by split.
  - destruct (p a) eqn:Hpa.
    + exists 0%nat. split; [lia |]. split; [reflexivity |].
      split; [exact Hpa |]. intros j y Hj. lia.
    + specialize (IH (k + 1)). destruct (List.find p rest) as [x |].
      * destruct IH as (i & Hi & Hl & Hx & Hbefore).
        exists (S i). split; [lia |]. split; [exact Hl |].
        split; [exact Hx |]. intros [| j] y Hj Hy.
        -- cbn in Hy. by inversion Hy; subst.
        -- apply (Hbefore j); [lia | exact Hy].
      * destruct IH as [Hi Hall]. split; [exact Hi |]. by constructor.
Qed.

(** X15.  The player's rank on the board.  The rank is 0 exactly when no
    entry bears the username, and then the header shows the session score.
    Otherwise the rank is the 1-based position of the first entry with
    that username, no earlier entry bears the name, and the header shows
    that entry's score rather than the session score.  The top-three test
    is just 1 <= rank <= 3, and whenever the certificate is rendered its
    place is 1, 2 or 3 and its score is the score of the board entry at
    that place. *)
Theorem leaderboard_rank (leaderboard : list LeaderboardEntry) (user : string)
    (currentScore : Z) :
  (userRank leaderboard user = 0
   <-> Forall (fun entry => username entry <> user) leaderboard)
  /\ (userRank leaderboard user = 0 ->
      shownScore leaderboard user currentScore = currentScore)
  /\ (userRank leaderboard user <> 0 ->
      exists i : nat,
        userRank leaderboard user = Z.of_nat i + 1
        /\ leaderboard !! i
           = Some (mkEntry user (shownScore leaderboard user currentScore))
        /\ forall j entry, (j < i)%nat -> leaderboard !! j = Some entry ->
                           username entry <> user)
  /\ isTopThree leaderboard user
     = (1 <=? userRank leaderboard user) && (userRank leaderboard user <=? 3)
  /\ (forall showCertificate c,
      certificate showCertificate leaderboard user = Some c ->
      1 <= place c <= 3 /\ playerName c = user
      /\ leaderboard !! Z.to_nat (place c - 1)
         = Some (mkEntry user (certificateScore c))).
Proof.
  unfold shownScore, certificate, isTopThree, userRank, userEntry, findIndex.
  pose proof (findIndexFrom_spec
                (fun entry => String.eqb (username entry) user)
                leaderboard 0) as Hspec.
  destruct (List.find (fun entry => String.eqb (username entry) user)
              leaderboard) as [[name sc] |].
  - destruct Hspec as (i & -> & Hl & Hx & Hbefore).
    cbn [username] in Hx. apply String.eqb_eq in Hx. subst name.
    assert (forall j entry, (j < i)%nat -> leaderboard !! j = Some entry ->
                            username entry <> user) as Hbefore'.
    { intros j entry Hj Hy. specialize (Hbefore j entry Hj Hy).
      cbn beta in Hbefore. by apply String.eqb_neq. }
    split.
    { split; [lia |]. intros Hall. exfalso.
      rewrite Forall_lookup in Hall. by apply (Hall i _ Hl). }
    split; [lia |].
    split. { intros _. exists i. cbn [score]. split; [lia | by split]. }
    split. { by rewrite andb_true_r. }
    intros showCertificate c. rewrite andb_true_r.
    destruct (showCertificate
              && ((1 <=? 0 + Z.of_nat i + 1) && (0 + Z.of_nat i + 1 <=? 3)))
      eqn:Hshow; [| discriminate].
    intros [= <-]. cbn [place playerName certificateScore score].
    apply andb_prop in Hshow as [_ Hrange].
    apply andb_prop in Hrange as [H1 H3].
    split; [lia |]. split; [reflexivity |].
    by replace (Z.to_nat (0 + Z.of_nat i + 1 - 1)) with i by lia.
  - destruct Hspec as [-> Hall]. split.
    { split; [| reflexivity]. intros _.
      eapply Forall_impl; [exact Hall |]. intros entry He.
      cbn beta in He. by apply String.eqb_neq. }
    split; [reflexivity |]. split; [intros Hne; by exfalso |].
    split; [reflexivity |]. intros showCertificate c.
    rewrite andb_false_r. discriminate.
Qed.

Lemma leaderboard_rank_witness :
  userRank [mkEntry "zoe" 90; mkEntry "ann" 70; mkEntry "ann" 20] "ann" <> 0
  /\ exists i : nat,
       userRank [mkEntry "zoe" 90; mkEntry "ann" 70; mkEntry "ann" 20] "ann"
       = Z.of_nat i + 1
       /\ [mkEntry "zoe" 90; mkEntry "ann" 70; mkEntry "ann" 20] !! i
          = Some (mkEntry "ann"
                    (shownScore
                       [mkEntry "zoe" 90; mkEntry "ann" 70; mkEntry "ann" 20]
                       "ann" 45)).
Proof.
  assert (userRank [mkEntry "zoe" 90; mkEntry "ann" 70; mkEntry "ann" 20]
            "ann" <> 0) as Hne by (vm_compute; discriminate).
  split; [exact Hne |].
  destruct (leaderboard_rank
              [mkEntry "zoe" 90; mkEntry "ann" 70; mkEntry "ann" 20] "ann" 45)
    as (_ & _ & Hrank & _).
  destruct (Hrank Hne) as (i & Hi & Hl & _).
  exists i. by split.
Defined.

End Ranking.

(** * The sign-in screen *)

Section RegularExpressions.

Import RegExp.

Lemma append_cons (a : ascii) (s t : string) :
  String a s +:+ t = String a (s +:+ t).
Proof. reflexivity. Qed.

Lemma append_nil_l (s : string) : "" +:+ s = s.
Proof. reflexivity. Qed.

Lemma append_nil_r (s : string) : s +:+ "" = s.
Proof.
  induction s as [| a s IH]; [reflexivity | by rewrite append_cons, IH].
Qed.

Lemma append_assoc (s1 s2 s3 : string) :
  (s1 +:+ s2) +:+ s3 = s1 +:+ (s2 +:+ s3).
Proof.
  induction s1 as [| a s IH]; [reflexivity |].
  by rewrite !append_cons, IH.
Qed.

Lemma append_empty (s1 s2 : string) : s1 +:+ s2 = "" -> s1 = "" /\ s2 = "".
Proof. destruct s1; [by split | discriminate]. Qed.

Lemma nullable_spec (r : Re) : nullable r = true <-> Matches r "".
Proof.
  split.
  - induction r as [| | n items | r1 IH1 r2 IH2 | r1 IH1 r2 IH2 | r1 IH1];
      cbn [nullable]; intros Hn; try discriminate.
    + constructor.
    + apply andb_prop in Hn as [H1 H2].
      change "" with ("" +:+ ""). constructor; auto.
    + apply orb_prop in Hn as [H1 | H2];
        [apply MAltL | apply MAltR]; auto.
    + constructor.
  - intros Hm. remember "" as s eqn:Hs.
    induction Hm as [| n items a Ha | r1 r2 s1 s2 H1 IH1 H2 IH2
                     | r1 r2 s H IH | r1 r2 s H IH | r
                     | r s1 s2 H1 IH1 H2 IH2]; cbn [nullable]; try done.
    + apply append_empty in Hs as [-> ->]. by rewrite IH1, IH2.
    + by rewrite IH.
    + rewrite IH by done. apply orb_true_r.
Qed.

Lemma star_cons_inv (r : Re) (a : ascii) (s : string) :
  Matches (reStar r) (String a s) ->
  exists s1 s2, s = s1 +:+ s2 /\ Matches r (String a s1)
                /\ Matches (reStar r) s2.
Proof.
  intros Hm. remember (reStar r) as r' eqn:Hr.
  remember (String a s) as s' eqn:Hs.
  induction Hm as [| n items b Hb | r1 r2 s1 s2 H1 IH1 H2 IH2
                   | r1 r2 t H IH | r1 r2 t H IH | r0
                   | r0 s1 s2 H1 IH1 H2 IH2]; try discriminate.
  injection Hr as ->. destruct s1 as [| b s1].
  - rewrite append_nil_l in Hs. by apply IH2.
  - rewrite append_cons in Hs. injection Hs as -> <-. by exists s1, s2.
Qed.

Lemma deriv_spec (r : Re) (a : ascii) (s : string) :
  Matches (deriv a r) s <-> Matches r (String a s).
Proof.
  revert s.
  induction r as [| | n items | r1 IH1 r2 IH2 | r1 IH1 r2 IH2 | r1 IH1];
    intros s; cbn [deriv].
  - split; intros Hm; inversion Hm.
  - split; intros Hm; inversion Hm.
  - destruct (inClass n items a) eqn:Hc; split; intros Hm.
    + inversion Hm; subst. by constructor.
    + inversion Hm; subst. constructor.
    + inversion Hm.
    + inversion Hm; subst. congruence.
  - assert (forall t, Matches (reSeq (deriv a r1) r2) t ->
                      Matches (reSeq r1 r2) (String a t)) as Hfirst.
    { intros t Hm. inversion Hm as [| | ? ? s1 s2 H1 H2 | | | |]; subst.
      apply IH1 in H1.
      change (String a (s1 +:+ s2)) with (String a s1 +:+ s2).
      by constructor. }
    assert (Matches (reSeq r1 r2) (String a s) ->
            Matches (reSeq (deriv a r1) r2) s
            \/ (Matches r1 "" /\ Matches r2 (String a s))) as Hinv.
    { intros Hm. inversion Hm as [| | ? ? s1 s2 H1 H2 E0 E | | | |]; subst.
      destruct s1 as [| b s1].
      - rewrite append_nil_l in E. right. subst s2. by split.
      - rewrite append_cons in E. injection E as -> <-. left.
        constructor; [by apply IH1 | done]. }
    destruct (nullable r1) eqn:Hn; split; intros Hm.
    + inversion Hm as [| | | ? ? ? H | ? ? ? H | |]; subst.
      * by apply Hfirst.
      * apply IH2 in H. change (String a s) with ("" +:+ String a s).
        constructor; [by apply nullable_spec | done].
    + destruct (Hinv Hm) as [H | [_ H]];
        [by apply MAltL | apply MAltR; by apply IH2].
    + by apply Hfirst.
    + destruct (Hinv Hm) as [H | [H _]]; [done |].
      apply nullable_spec in H. congruence.
  - split; intros Hm.
    + inversion Hm; subst; [apply MAltL; by apply IH1
                           | apply MAltR; by apply IH2].
    + inversion Hm; subst; [apply MAltL; by apply IH1
                           | apply MAltR; by apply IH2].
  - split; intros Hm.
    + inversion Hm as [| | ? ? s1 s2 H1 H2 | | | |]; subst.
      apply IH1 in H1.
      change (String a (s1 +:+ s2)) with (String a s1 +:+ s2).
      by constructor.
    + apply star_cons_inv in Hm as (s1 & s2 & -> & H1 & H2).
      constructor; [by apply IH1 | done].
Qed.

Lemma matches_spec (r : Re) (s : string) : matches r s = true <-> Matches r s.
Proof.
  revert r. induction s as [| a s IH]; intros r; cbn [matches].
  - apply nullable_spec.
  - rewrite IH. apply deriv_spec.
Qed.

End RegularExpressions.

Section PasswordSignIn.

Import LoginPage.

Lemma js_truthy_true (s : string) : JS.truthy s = true <-> s <> "".
Proof.
  unfold JS.truthy. destruct (String.eqb_spec s ""); split; intros H; done.
Qed.

Lemma storage_truthy_Some (v : string) :
  Storage.truthy (Some v) = JS.truthy v.
Proof. reflexivity. Qed.

(** The router of a page loaded again over a store in which the three
    session keys were just written. *)
Lemma reload_after_login (ix : Index.State) (store : gmap string string)
    (access refresh user : string) :
  let a := (ix, <["banana-user" := user]>
                  (<["refreshToken" := refresh]>
                     (<["accessToken" := access]> store))) in
  (Index.view (SignIn.reload a) = Index.playing
   <-> user <> "" /\ (access <> "" \/ refresh <> ""))
  /\ (user <> "" -> Index.username (SignIn.reload a) = user).
Proof.
  intros a. subst a. unfold SignIn.reload, Index.mount, Index.mountEffect.
  cbn [snd]. unfold Storage.getItem.
  rewrite lookup_insert_eq.
  rewrite (lookup_insert_ne _ "banana-user" "accessToken") by done.
  rewrite (lookup_insert_ne _ "banana-user" "refreshToken") by done.
  rewrite lookup_insert_eq.
  rewrite (lookup_insert_ne _ "refreshToken" "accessToken") by done.
  rewrite lookup_insert_eq.
  rewrite !storage_truthy_Some.
  destruct (JS.truthy user) eqn:Hu.
  - apply js_truthy_true in Hu.
    destruct (JS.truthy access) eqn:Ha; destruct (JS.truthy refresh) eqn:Hr;
      cbn [orb]; (split; [| intros _; reflexivity]).
    + apply js_truthy_true in Ha. split; [by split; auto | reflexivity].
    + apply js_truthy_true in Ha. split; [by split; auto | reflexivity].
    + apply js_truthy_true in Hr. split; [by split; auto | reflexivity].
    + split; [discriminate |]. intros [_ [H | H]].
      * apply js_truthy_true in H. congruence.
      * apply js_truthy_true in H. congruence.
  - split.
    + split; [discriminate |]. intros [H _].
      apply js_truthy_true in H. congruence.
    + intros H. apply js_truthy_true in H. congruence.
Qed.

(** X16.  Password sign-in.  The login request is sent, with the entered
    credentials, exactly when no sign-in is in flight and both fields are
    non-empty; otherwise nothing is stored and the router is left alone.
    After the request the loading flag is cleared whatever the outcome.
    An ok response stores both tokens and, through the router, the
    username the server returned, and moves to the game; a rejected or
    failed request leaves storage and router untouched.  Loading the page
    again after a successful sign-in comes back to the game exactly when
    the returned username is non-empty and at least one of the returned
    tokens is non-empty. *)
Theorem password_sign_in (o : LoginOutcome) (c : State) (ix : Index.State)
    (store : gmap string string) :
  let ready := negb (loginLoading c)
               && JS.truthy (login_username (loginData c))
               && JS.truthy (login_password (loginData c)) in
  let r := invoke (handlePasswordLogin o) c in
  let a := SignIn.performAll r.2 (ix, store) in
  List.filter isRequest r.2
  = (if ready then [requestLogin (loginData c)] else [])
  /\ (ready = false ->
      a = (ix, store) /\ loginLoading r.1 = loginLoading c)
  /\ (ready = true ->
      loginLoading r.1 = false
      /\ match o with
         | loginOk access refresh user =>
             Index.view a.1 = Index.playing /\ Index.username a.1 = user
             /\ a.2 = <["banana-user" := user]>
                        (<["refreshToken" := refresh]>
                           (<["accessToken" := access]> store))
             /\ (Index.view (SignIn.reload a) = Index.playing
                 <-> user <> "" /\ (access <> "" \/ refresh <> ""))
             /\ (user <> "" -> Index.username (SignIn.reload a) = user)
         | loginRejected _ | loginThrew => a = (ix, store)
         end).
Proof.
  intros ready r a. subst a r ready.
  unfold invoke, handlePasswordLogin.
  destruct (loginLoading c) eqn:Hl; cbn [negb andb].
  { split; [reflexivity |]. split; [by intros _ | discriminate]. }
  destruct (JS.truthy (login_username (loginData c))) eqn:Hu; cbn [negb orb andb].
  2:{ split; [reflexivity |]. split; [by intros _ | discriminate]. }
  destruct (JS.truthy (login_password (loginData c))) eqn:Hp; cbn [negb].
  2:{ split; [reflexivity |]. split; [by intros _ | discriminate]. }
  destruct o as [access refresh user | detail |].
  - split; [reflexivity |]. split; [discriminate |]. intros _.
    split; [by destruct c |].
    destruct (reload_after_login ix store access refresh user) as [H1 H2].
    cbv zeta in H1, H2.
    split; [by destruct ix |]. split; [by destruct ix |].
    split; [reflexivity |]. split; [exact H1 | exact H2].
  - split; [reflexivity |]. split; [discriminate |]. intros _.
    split; [by destruct c | reflexivity].
  - split; [reflexivity |]. split; [discriminate |]. intros _.
    split; [by destruct c | reflexivity].
Qed.

Lemma password_sign_in_witness :
  negb (loginLoading
          (mkState (mkLoginData "ann" "Secret123") initialRegisterState
             initialRegisterErrors initialRegisterTouched
             (mkDialog false "" [] toneInfo) false false "" "" false))
  && JS.truthy "ann" && JS.truthy "Secret123" = true
  /\ Index.view
       (SignIn.reload
          (SignIn.performAll
             (invoke (handlePasswordLogin (loginOk "a1" "r1" "ann"))
                (mkState (mkLoginData "ann" "Secret123") initialRegisterState
                   initialRegisterErrors initialRegisterTouched
                   (mkDialog false "" [] toneInfo) false false "" "" false)).2
             (Index.initial, ∅))) = Index.playing.
Proof.
  split; [reflexivity |].
  destruct (password_sign_in (loginOk "a1" "r1" "ann")
              (mkState (mkLoginData "ann" "Secret123") initialRegisterState
                 initialRegisterErrors initialRegisterTouched
                 (mkDialog false "" [] toneInfo) false false "" "" false)
              Index.initial ∅) as (_ & _ & Hok).
  destruct (Hok eq_refl) as (_ & _ & _ & _ & Hreload & _).
  apply Hreload. split; [discriminate | left; discriminate].
Defined.

End PasswordSignIn.

Section Patterns.

Import RegExp Rules.

Lemma chars_app (s1 s2 : string) : chars (s1 +:+ s2) = chars s1 ++ chars s2.
Proof.
  induction s1 as [| a s1 IH]; [reflexivity |].
  rewrite append_cons. cbn [chars String.list_ascii_of_string app].
  f_equal. exact IH.
Qed.

Lemma chars_nil (s : string) : chars s = [] <-> s = "".
Proof. by destruct s. Qed.

Lemma seq_inv (r1 r2 : Re) (s : string) :
  Matches (reSeq r1 r2) s
  <-> exists s1 s2, s = s1 +:+ s2 /\ Matches r1 s1 /\ Matches r2 s2.
Proof.
  split.
  - intros Hm. inversion Hm; subst. eauto.
  - intros (s1 & s2 & -> & H1 & H2). by constructor.
Qed.

Lemma eps_inv (s : string) : Matches reEps s <-> s = "".
Proof.
  split; [intros Hm; by inversion Hm | intros ->; constructor].
Qed.

Lemma class_inv (negated : bool) (items : list ClassItem) (s : string) :
  Matches (reClass negated items) s
  <-> exists a, s = String a "" /\ inClass negated items a = true.
Proof.
  split.
  - intros Hm. inversion Hm; subst. eauto.
  - intros (a & -> & Ha). by constructor.
Qed.

Lemma star_class (negated : bool) (items : list ClassItem) (s : string) :
  Matches (reStar (reClass negated items)) s
  <-> Forall (fun a => inClass negated items a = true) (chars s).
Proof.
  split.
  - intros Hm. remember (reStar (reClass negated items)) as r eqn:Hr.
    induction Hm as [| n its b Hb | r1 r2 s1 s2 H1 IH1 H2 IH2
                     | r1 r2 t H IH | r1 r2 t H IH | r0
                     | r0 s1 s2 H1 IH1 H2 IH2]; try discriminate.
    + constructor.
    + injection Hr as ->. apply class_inv in H1 as (a & -> & Ha).
      rewrite append_cons, append_nil_l. constructor; [exact Ha | by apply IH2].
  - induction s as [| a s IH]; intros Hall; [constructor |].
    inversion Hall as [| ? ? Ha Hrest]; subst.
    change (String a s) with (String a "" +:+ s).
    constructor; [by constructor | by apply IH].
Qed.

Lemma plus_class (negated : bool) (items : list ClassItem) (s : string) :
  Matches (rePlus (reClass negated items)) s
  <-> s <> "" /\ Forall (fun a => inClass negated items a = true) (chars s).
Proof.
  unfold rePlus. rewrite seq_inv. split.
  - intros (s1 & s2 & -> & H1 & H2).
    apply class_inv in H1 as (a & -> & Ha). apply star_class in H2.
    rewrite append_cons, append_nil_l. split; [discriminate |].
    by constructor.
  - intros [Hne Hall]. destruct s as [| a s]; [done |].
    inversion Hall as [| ? ? Ha Hrest]; subst.
    exists (String a ""), s. split; [reflexivity |].
    split; [by apply class_inv; eauto | by apply star_class].
Qed.

Lemma star_any (s : string) : Matches (reStar reAny) s.
Proof. apply star_class. by apply Forall_forall. Qed.

Lemma test_anchored (r : Re) (s : string) :
  test (mkPattern true r true) s = true <-> Matches r s.
Proof.
  unfold test. cbn [fromStart toEnd body]. rewrite matches_spec. split.
  - intros Hm. apply seq_inv in Hm as (s1 & s2 & -> & H1 & H2).
    apply eps_inv in H1 as ->.
    apply seq_inv in H2 as (s3 & s4 & -> & H3 & H4).
    apply eps_inv in H4 as ->. by rewrite append_nil_l, append_nil_r.
  - intros Hm. apply seq_inv. exists "", s. split; [reflexivity |].
    split; [constructor |]. apply seq_inv. exists s, "".
    split; [by rewrite append_nil_r |]. split; [exact Hm | constructor].
Qed.

Lemma test_search_class (negated : bool) (items : list ClassItem)
    (s : string) :
  test (mkPattern false (reClass negated items) false) s = true
  <-> Exists (fun a => inClass negated items a = true) (chars s).
Proof.
  unfold test. cbn [fromStart toEnd body]. rewrite matches_spec. split.
  - intros Hm. apply seq_inv in Hm as (s1 & s2 & -> & _ & H2).
    apply seq_inv in H2 as (s3 & s4 & -> & H3 & _).
    apply class_inv in H3 as (a & -> & Ha).
    rewrite !chars_app. apply Exists_app. right.
    apply Exists_app. left. by constructor.
  - intros Hex. apply Exists_exists in Hex as (a & Hin & Ha).
    apply list_elem_of_split in Hin as (l1 & l2 & Hsplit).
    apply seq_inv.
    exists (String.string_of_list_ascii l1),
      (String a "" +:+ String.string_of_list_ascii l2).
    split.
    { rewrite <- (String.string_of_list_ascii_of_string s).
      fold (chars s). rewrite Hsplit. clear.
      induction l1 as [| b l1 IH]; [reflexivity |].
      cbn [app String.string_of_list_ascii]. rewrite append_cons. by f_equal. }
    split; [apply star_any |]. apply seq_inv.
    exists (String a ""), (String.string_of_list_ascii l2).
    split; [reflexivity |]. split; [by constructor | apply star_any].
Qed.

Lemma plainClass_spec (a : ascii) :
  inClass true [ciSpace; ciChar "@"] a = true
  <-> JS.isWhiteSpace a = false /\ a <> "@"%char.
Proof.
  unfold inClass. cbn [existsb inItem].
  destruct (JS.isWhiteSpace a); cbn [orb xorb negb].
  - split; [discriminate | by intros [? _]].
  - rewrite orb_false_r. destruct (Ascii.eqb_spec a "@"); cbn [negb].
    + split; [discriminate | by intros [_ ?]].
    + by split.
Qed.

Lemma plain_spec (s : string) :
  Matches (rePlus (reClass true [ciSpace; ciChar "@"])) s <-> plain s.
Proof.
  rewrite plus_class. unfold plain. split; intros [Hne Hall];
    (split; [exact Hne |]); eapply Forall_impl; try exact Hall;
    intros a Ha; by apply plainClass_spec.
Qed.

Lemma char_inv (c : ascii) (s : string) :
  Matches (reChar c) s <-> s = String c "".
Proof.
  unfold reChar. rewrite class_inv. split.
  - intros (a & -> & Ha). unfold inClass in Ha. cbn in Ha.
    rewrite orb_false_r in Ha. by apply Ascii.eqb_eq in Ha as ->.
  - intros ->. exists c. split; [reflexivity |].
    unfold inClass. cbn. by rewrite Ascii.eqb_refl.
Qed.

Lemma emailPattern_spec (s : string) :
  test LoginPage.emailPattern s = true <-> emailShape s.
Proof.
  unfold LoginPage.emailPattern. rewrite test_anchored. unfold emailShape.
  split.
  - intros Hm.
    apply seq_inv in Hm as (l & s1 & -> & Hl & Hm).
    apply seq_inv in Hm as (at1 & s2 & -> & Hat & Hm).
    apply seq_inv in Hm as (d & s3 & -> & Hd & Hm).
    apply seq_inv in Hm as (dot & t & -> & Hdot & Ht).
    apply char_inv in Hat as ->. apply char_inv in Hdot as ->.
    exists l, d, t. split; [reflexivity |].
    by rewrite <- !plain_spec.
  - intros (l & d & t & -> & Hl & Hd & Ht).
    apply plain_spec in Hl, Hd, Ht.
    repeat (constructor; try done); by apply char_inv.
Qed.

Lemma wordClass_spec (a : ascii) :
  inClass false [ciRange "A" "Z"; ciRange "a" "z"; ciRange "0" "9";
                 ciChar "_"] a = isWordChar a.
Proof.
  unfold inClass, isWordChar, isUpper, isLower, isDigit, code.
  cbn [existsb inItem xorb].
  change (N_of_ascii "A") with 65%N. change (N_of_ascii "Z") with 90%N.
  change (N_of_ascii "a") with 97%N. change (N_of_ascii "z") with 122%N.
  change (N_of_ascii "0") with 48%N. change (N_of_ascii "9") with 57%N.
  rewrite orb_false_r, !orb_assoc. reflexivity.
Qed.

Lemma usernamePattern_spec (s : string) :
  test LoginPage.usernamePattern s = true
  <-> s <> "" /\ Forall (fun a => isWordChar a = true) (chars s).
Proof.
  unfold LoginPage.usernamePattern. rewrite test_anchored, plus_class.
  split; intros [Hne Hall]; (split; [exact Hne |]);
    eapply Forall_impl; try exact Hall; intros a Ha;
    [by rewrite <- wordClass_spec | by rewrite wordClass_spec].
Qed.

Lemma rangeClass_spec (lo hi a : ascii) :
  inClass false [ciRange lo hi] a
  = ((code lo <=? code a) && (code a <=? code hi))%N.
Proof. unfold inClass. cbn [existsb inItem xorb]. apply orb_false_r. Qed.

Lemma rangePatterns_spec (s : string) :
  (test LoginPage.upperPattern s = true
   <-> Exists (fun a => isUpper a = true) (chars s))
  /\ (test LoginPage.lowerPattern s = true
      <-> Exists (fun a => isLower a = true) (chars s))
  /\ (test LoginPage.digitPattern s = true
      <-> Exists (fun a => isDigit a = true) (chars s)).
Proof.
  unfold LoginPage.upperPattern, LoginPage.lowerPattern,
    LoginPage.digitPattern.
  rewrite !test_search_class.
  split; [| split]; split; intros Hex;
    apply Exists_exists in Hex as (a & Hin & Ha);
    apply Exists_exists; exists a; (split; [exact Hin |]);
    first [rewrite rangeClass_spec | rewrite rangeClass_spec in Ha];
    exact Ha.
Qed.

End Patterns.

Section RegistrationRules.

Import LoginPage Rules.

Lemma plain_chars (s : string) :
  plain s ->
  (0 < length (chars s))%nat
  /\ Forall (fun a => JS.isWhiteSpace a = false) (chars s)
  /\ List.filter (Ascii.eqb "@") (chars s) = [].
Proof.
  intros [Hne Hall]. split; [| split].
  - destruct s; [done | cbn; lia].
  - eapply Forall_impl; [exact Hall |]. by intros a [? _].
  - induction Hall as [| a l [_ Ha] _ IH]; [reflexivity |].
    cbn [List.filter]. destruct (Ascii.eqb_spec "@" a); [congruence | exact IH].
Qed.

Lemma js_length_chars (s : string) :
  JS.length s = Z.of_nat (length (chars s)).
Proof.
  unfold JS.length. f_equal.
  induction s as [| a s IH]; [reflexivity | cbn; by rewrite IH].
Qed.

(** X17.  What the e-mail pattern accepts.  An address passes exactly when
    it is a local part, an at sign, a domain, a dot and an ending, each of
    the three parts non-empty and free of white space and at signs.  So an
    accepted address has no white space anywhere, exactly one at sign and
    at least five characters. *)
Theorem email_pattern_shape (s : string) :
  (RegExp.test emailPattern s = true <-> emailShape s)
  /\ (RegExp.test emailPattern s = true ->
      Forall (fun a => JS.isWhiteSpace a = false) (chars s)
      /\ length (List.filter (Ascii.eqb "@") (chars s)) = 1%nat
      /\ 5 <= JS.length s).
Proof.
  split; [apply emailPattern_spec |].
  intros Hm. apply emailPattern_spec in Hm as (l & d & t & -> & Hl & Hd & Ht).
  apply plain_chars in Hl as (Ll & Wl & Al).
  apply plain_chars in Hd as (Ld & Wd & Ad).
  apply plain_chars in Ht as (Lt & Wt & At).
  rewrite js_length_chars, !chars_app.
  change (chars "@") with ["@"%char]. change (chars ".") with ["."%char].
  split; [| split].
  - repeat (apply Forall_app; split); try done; by repeat constructor.
  - rewrite !List.filter_app, Al, Ad, At. reflexivity.
  - rewrite !length_app. cbn [length]. lia.
Qed.

Lemma email_pattern_shape_witness :
  RegExp.test emailPattern "ann@banana.io" = true
  /\ length (List.filter (Ascii.eqb "@") (chars "ann@banana.io")) = 1%nat.
Proof.
  assert (RegExp.test emailPattern "ann@banana.io" = true) as H
    by (vm_compute; reflexivity).
  split; [exact H |].
  exact (proj1 (proj2 (proj2 (email_pattern_shape "ann@banana.io") H))).
Defined.

Lemma username_rule (value : string) (data : RegisterFormState) :
  validateRegisterField fUsername value data = ""
  <-> 3 <= JS.length (JS.trim value)
      /\ Forall (fun a => isWordChar a = true) (chars (JS.trim value)).
Proof.
  unfold validateRegisterField.
  destruct (JS.truthy (JS.trim value)) eqn:Ht; cbn [negb].
  - destruct (Z.ltb_spec (JS.length (JS.trim value)) 3) as [Hlt | Hge].
    + split; [discriminate | lia].
    + destruct (RegExp.test usernamePattern (JS.trim value)) eqn:Hp;
        cbn [negb].
      * apply usernamePattern_spec in Hp as [_ Hall]. by split.
      * split; [discriminate |]. intros [_ Hall]. exfalso.
        apply js_truthy_true in Ht.
        assert (RegExp.test usernamePattern (JS.trim value) = true) as Hyes
          by (by apply usernamePattern_spec).
        congruence.
  - split; [discriminate |]. intros [Hlen _]. exfalso.
    unfold JS.truthy in Ht. destruct (String.eqb_spec (JS.trim value) "") as [E | E];
      [| discriminate].
    rewrite E in Hlen. vm_compute in Hlen. by apply Hlen.
Qed.

Lemma email_rule (value : string) (data : RegisterFormState) :
  validateRegisterField fEmail value data = ""
  <-> emailShape (JS.trim value).
Proof.
  unfold validateRegisterField.
  destruct (JS.truthy (JS.trim value)) eqn:Ht; cbn [negb].
  - destruct (RegExp.test emailPattern (JS.trim value)) eqn:Hp; cbn [negb].
    + by apply emailPattern_spec in Hp.
    + split; [discriminate |]. intros Hs. apply emailPattern_spec in Hs.
      congruence.
  - split; [discriminate |]. intros (l & d & t & E & [Hl _] & _). exfalso.
    unfold JS.truthy in Ht.
    destruct (String.eqb_spec (JS.trim value) "") as [E0 | E0];
      [| discriminate].
    rewrite E0 in E. destruct l; [done | discriminate].
Qed.

Lemma password_rule (value : string) (data : RegisterFormState) :
  validateRegisterField fPassword value data = ""
  <-> 8 <= JS.length value
      /\ Exists (fun a => isUpper a = true) (chars value)
      /\ Exists (fun a => isLower a = true) (chars value)
      /\ Exists (fun a => isDigit a = true) (chars value).
Proof.
  unfold validateRegisterField.
  destruct (rangePatterns_spec value) as (Hu & Hl & Hd).
  destruct (JS.truthy value) eqn:Ht; cbn [negb].
  - destruct (Z.ltb_spec (JS.length value) 8) as [Hlt | Hge].
    + split; [discriminate | lia].
    + destruct (RegExp.test upperPattern value) eqn:Pu;
        destruct (RegExp.test lowerPattern value) eqn:Pl;
        destruct (RegExp.test digitPattern value) eqn:Pd; cbn [negb orb].
      * split; [intros _ | done].
        split; [exact Hge |]. split; [by apply Hu |].
        split; [by apply Hl | by apply Hd].
      * split; [discriminate |]. intros (_ & _ & _ & H).
        apply Hd in H. discriminate.
      * split; [discriminate |]. intros (_ & _ & H & _).
        apply Hl in H. discriminate.
      * split; [discriminate |]. intros (_ & _ & H & _).
        apply Hl in H. discriminate.
      * split; [discriminate |]. intros (_ & H & _).
        apply Hu in H. discriminate.
      * split; [discriminate |]. intros (_ & H & _).
        apply Hu in H. discriminate.
      * split; [discriminate |]. intros (_ & H & _).
        apply Hu in H. discriminate.
      * split; [discriminate |]. intros (_ & H & _).
        apply Hu in H. discriminate.
  - split; [discriminate |]. intros [Hlen _]. exfalso.
    unfold JS.truthy in Ht.
    destruct (String.eqb_spec value "") as [E | E]; [| discriminate].
    rewrite E in Hlen. vm_compute in Hlen. by apply Hlen.
Qed.

Lemma confirm_rule (value : string) (data : RegisterFormState) :
  validateRegisterField fConfirmPassword value data = ""
  <-> value <> "" /\ value = password data.
Proof.
  unfold validateRegisterField.
  destruct (JS.truthy value) eqn:Ht; cbn [negb].
  - apply js_truthy_true in Ht.
    destruct (String.eqb_spec value (password data)); cbn [negb].
    + by split.
    + split; [discriminate | by intros [_ ?]].
  - split; [discriminate |]. intros [Hne _].
    apply js_truthy_true in Hne. congruence.
Qed.

Lemma hasErrors_false (errors : RegisterErrors) :
  hasErrors errors = false
  <-> usernameError errors = "" /\ emailError errors = ""
      /\ passwordError errors = "" /\ confirmPasswordError errors = "".
Proof.
  unfold hasErrors, JS.truthy. cbn [existsb].
  destruct (String.eqb_spec (usernameError errors) "");
    destruct (String.eqb_spec (emailError errors) "");
    destruct (String.eqb_spec (passwordError errors) "");
    destruct (String.eqb_spec (confirmPasswordError errors) "");
    cbn [negb orb]; split; try done; intros (? & ? & ? & ?); done.
Qed.

Lemma validateRegisterForm_valid (data : RegisterFormState) :
  fst (validateRegisterForm data) = true
  <-> validateRegisterField fUsername (username data) data = ""
      /\ validateRegisterField fEmail (email data) data = ""
      /\ validateRegisterField fPassword (password data) data = ""
      /\ validateRegisterField fConfirmPassword (confirmPassword data) data
         = "".
Proof.
  unfold validateRegisterForm. cbn [fst].
  rewrite negb_true_iff, hasErrors_false. unfold evaluateErrors.
  by cbn [usernameError emailError passwordError confirmPasswordError].
Qed.

(** X18.  What the registration form accepts.  The form passes validation
    exactly when: the username, white space at its ends apart, has at
    least three characters, all of them letters, digits or underscores;
    the e-mail, white space at its ends apart, has the accepted address
    shape; the password has at least eight characters, among them an
    upper-case letter, a lower-case letter and a digit; and the
    confirmation equals the password. *)
Theorem registration_rules (data : RegisterFormState) :
  fst (validateRegisterForm data) = true
  <-> (3 <= JS.length (JS.trim (username data))
       /\ Forall (fun a => isWordChar a = true)
            (chars (JS.trim (username data))))
      /\ emailShape (JS.trim (email data))
      /\ (8 <= JS.length (password data)
          /\ Exists (fun a => isUpper a = true) (chars (password data))
          /\ Exists (fun a => isLower a = true) (chars (password data))
          /\ Exists (fun a => isDigit a = true) (chars (password data)))
      /\ confirmPassword data = password data.
Proof.
  rewrite validateRegisterForm_valid.
  rewrite username_rule, email_rule, password_rule, confirm_rule.
  split.
  - intros (Hu & He & Hp & _ & Hc). done.
  - intros (Hu & He & Hp & Hc). split; [done |]. split; [done |].
    split; [done |]. split; [| done].
    destruct Hp as [Hlen _]. rewrite Hc. intros E. rewrite E in Hlen.
    vm_compute in Hlen. by apply Hlen.
Qed.

Lemma registration_rules_witness :
  fst (validateRegisterForm SignInSamples.annForm) = true
  /\ emailShape (JS.trim (email SignInSamples.annForm))
  /\ 8 <= JS.length (password SignInSamples.annForm).
Proof.
  assert (fst (validateRegisterForm SignInSamples.annForm) = true) as H
    by (vm_compute; reflexivity).
  destruct (proj1 (registration_rules SignInSamples.annForm) H)
    as (_ & He & (Hp & _) & _).
  split; [exact H |]. split; [exact He | exact Hp].
Defined.

Lemma trimStart_blank (p s : string) :
  blank p -> JS.trimStart (p +:+ s) = JS.trimStart s.
Proof.
  unfold blank. induction p as [| a p IH]; intros Hb; [reflexivity |].
  inversion Hb as [| ? ? Ha Hrest]; subst.
  rewrite append_cons. cbn [JS.trimStart]. rewrite Ha. by apply IH.
Qed.

Lemma trimEnd_blank (p : string) : blank p -> JS.trimEnd p = "".
Proof.
  unfold blank. induction p as [| a p IH]; intros Hb; [reflexivity |].
  inversion Hb as [| ? ? Ha Hrest]; subst.
  cbn [JS.trimEnd]. rewrite (IH Hrest), Ha. reflexivity.
Qed.

Lemma trimEnd_app_blank (s p : string) :
  blank p -> JS.trimEnd (s +:+ p) = JS.trimEnd s.
Proof.
  intros Hb. induction s as [| a s IH].
  - rewrite append_nil_l. by apply trimEnd_blank.
  - rewrite append_cons. cbn [JS.trimEnd]. by rewrite IH.
Qed.

Lemma trim_padding (p1 p2 s : string) :
  blank p1 -> blank p2 -> JS.trim (p1 +:+ s +:+ p2) = JS.trim s.
Proof.
  intros H1 H2. unfold JS.trim. rewrite (trimStart_blank _ _ H1).
  induction s as [| a s IH].
  - rewrite append_nil_l.
    replace (JS.trimStart p2) with (JS.trimStart (p2 +:+ ""))
      by (by rewrite append_nil_r).
    by rewrite (trimStart_blank _ _ H2).
  - rewrite append_cons. cbn [JS.trimStart].
    destruct (JS.isWhiteSpace a); [exact IH |].
    rewrite <- append_cons. by apply trimEnd_app_blank.
Qed.

Lemma login_seq_unfold (c1 c2 : M) (s : State) :
  seq c1 c2 s = ((c2 (c1 s).1).1, (c1 s).2 ++ (c2 (c1 s).1).2).
Proof. reflexivity. Qed.

Lemma validation_effects (data : RegisterFormState) (s : State) :
  ((snd (validateRegisterForm data)) s).2 = []
  /\ registerData ((snd (validateRegisterForm data)) s).1 = registerData s
  /\ registerLoading ((snd (validateRegisterForm data)) s).1
     = registerLoading s
  /\ registerTouched ((snd (validateRegisterForm data)) s).1
     = mkTouched true true true true
  /\ registerErrors ((snd (validateRegisterForm data)) s).1
     = evaluateErrors data
  /\ (fst (validateRegisterForm data) = true ->
      dialogState ((snd (validateRegisterForm data)) s).1 = dialogState s)
  /\ (fst (validateRegisterForm data) = false ->
      dialogState ((snd (validateRegisterForm data)) s).1
      = mkDialog true "Please review your details"
          (composeErrorList (evaluateErrors data)) toneError).
Proof.
  unfold validateRegisterForm. cbn [fst snd].
  destruct (hasErrors (evaluateErrors data)); destruct s; cbn;
    repeat split; try done.
Qed.

Lemma composeErrorList_nonempty (errors : RegisterErrors) :
  hasErrors errors = true -> composeErrorList errors <> [].
Proof.
  unfold hasErrors, composeErrorList. cbn [existsb List.filter].
  destruct (JS.truthy (usernameError errors)); [done |].
  destruct (JS.truthy (emailError errors)); [done |].
  destruct (JS.truthy (passwordError errors)); [done |].
  destruct (JS.truthy (confirmPasswordError errors)); [done |].
  discriminate.
Qed.

Lemma handleRegister_requests (o : RegisterOutcome) (c : State) :
  registerLoading c = false ->
  List.filter isRequest (invoke (handleRegister o) c).2
  = (if fst (validateRegisterForm (registerData c))
     then [requestRegister (registerData c)] else []).
Proof.
  intros Hl. unfold invoke, handleRegister. rewrite Hl, login_seq_unfold.
  destruct (validation_effects (registerData c) c) as (Ve & _).
  rewrite Ve. cbn [app].
  destruct (fst (validateRegisterForm (registerData c))); cbn [negb];
    [| reflexivity].
  by destruct o.
Qed.

(** X19.  Registering.  While a registration is in flight the handler
    does nothing.  Otherwise every field is validated and marked touched,
    and the registration request is sent exactly when the form passes,
    carrying the form as entered.  A form that does not pass opens the
    error dialog with at least one message and changes neither storage nor
    router.  After a request the loading flag is cleared; an ok response
    stores both tokens and the returned username, moves the router to the
    game and empties the form, while a rejected or failed request keeps
    the form as entered, opens the error dialog and leaves storage and
    router untouched. *)
Theorem register_flow (o : RegisterOutcome) (c : State) (ix : Index.State)
    (store : gmap string string) :
  let valid := fst (validateRegisterForm (registerData c)) in
  let r := invoke (handleRegister o) c in
  let a := SignIn.performAll r.2 (ix, store) in
  (registerLoading c = true -> r = (c, []))
  /\ (registerLoading c = false ->
      List.filter isRequest r.2
      = (if valid then [requestRegister (registerData c)] else [])
      /\ registerLoading r.1 = false
      /\ (valid = false ->
          a = (ix, store) /\ registerData r.1 = registerData c
          /\ registerTouched r.1 = mkTouched true true true true
          /\ dialogOpen (dialogState r.1) = true
          /\ tone (dialogState r.1) = toneError
          /\ description (dialogState r.1) <> [])
      /\ (valid = true ->
          match o with
          | registerOk access refresh user =>
              Index.view a.1 = Index.playing /\ Index.username a.1 = user
              /\ a.2 = <["banana-user" := user]>
                         (<["refreshToken" := refresh]>
                            (<["accessToken" := access]> store))
              /\ registerData r.1 = initialRegisterState
              /\ dialogState r.1 = dialogState c
          | registerRejected detail =>
              a = (ix, store) /\ registerData r.1 = registerData c
              /\ dialogState r.1
                 = mkDialog true "Registration failed" [apiError detail]
                     toneError
          | registerThrew =>
              a = (ix, store) /\ registerData r.1 = registerData c
              /\ dialogOpen (dialogState r.1) = true
              /\ tone (dialogState r.1) = toneError
          end)).
Proof.
  intros valid r a. subst a r valid. unfold invoke, handleRegister.
  destruct (registerLoading c) eqn:Hl.
  { split; [reflexivity | discriminate]. }
  split; [discriminate |]. intros _. rewrite login_seq_unfold.
  destruct (validation_effects (registerData c) c)
    as (Ve & Vd & Vl & Vt & Vr & Vok & Vbad).
  rewrite Ve. cbn [app].
  destruct (fst (validateRegisterForm (registerData c))) eqn:Hv; cbn [negb].
  - specialize (Vok eq_refl). clear Vbad.
    generalize dependent ((snd (validateRegisterForm (registerData c))) c).1.
    intros s1 Vd Vl Vt Vr Vok.
    destruct o as [access refresh user | detail |].
    + split; [reflexivity |]. split; [by destruct s1 |].
      split; [discriminate |]. intros _.
      split; [by destruct ix |]. split; [by destruct ix |].
      split; [reflexivity |]. split; [by destruct s1 |].
      rewrite <- Vok. by destruct s1.
    + split; [reflexivity |]. split; [by destruct s1 |].
      split; [discriminate |]. intros _.
      split; [reflexivity |]. split; [rewrite <- Vd; by destruct s1 |].
      by destruct s1.
    + split; [reflexivity |]. split; [by destruct s1 |].
      split; [discriminate |]. intros _.
      split; [reflexivity |]. split; [rewrite <- Vd; by destruct s1 |].
      by destruct s1.
  - specialize (Vbad eq_refl). clear Vok. cbn [skip fst snd].
    split; [reflexivity |]. split; [by rewrite Vl |].
    split; [| discriminate]. intros _.
    split; [reflexivity |]. split; [exact Vd |]. split; [exact Vt |].
    rewrite Vbad. cbn [dialogOpen tone description].
    split; [reflexivity |]. split; [reflexivity |].
    apply composeErrorList_nonempty.
    unfold validateRegisterForm in Hv. cbn [fst] in Hv.
    by apply negb_false_iff in Hv.
Qed.

Lemma register_flow_witness :
  registerLoading (SignInSamples.registering SignInSamples.annForm) = false
  /\ fst (validateRegisterForm
            (registerData (SignInSamples.registering SignInSamples.annForm)))
     = true
  /\ Index.view
       (SignIn.performAll
          (invoke (handleRegister (registerOk "a1" "r1" "ann_01"))
             (SignInSamples.registering SignInSamples.annForm)).2
          (Index.initial, ∅)).1 = Index.playing.
Proof.
  assert (fst (validateRegisterForm
                 (registerData
                    (SignInSamples.registering SignInSamples.annForm)))
          = true) as Hv by (vm_compute; reflexivity).
  destruct (register_flow (registerOk "a1" "r1" "ann_01")
              (SignInSamples.registering SignInSamples.annForm)
              Index.initial ∅) as [_ Hrun].
  destruct (Hrun eq_refl) as (_ & _ & _ & Hok).
  split; [reflexivity |]. split; [exact Hv |].
  exact (proj1 (Hok Hv)).
Defined.

(** X20.  Validation trims, submission does not.  White space around the
    username or the e-mail does not change the verdict of validation, so
    a form that passes still passes with either field padded; the
    registration request then carries the padded value, not the trimmed
    one that was validated. *)
Theorem padding_is_submitted (p1 p2 q1 q2 : string)
    (data : RegisterFormState) (o : RegisterOutcome) (c : State) :
  blank p1 -> blank p2 -> blank q1 -> blank q2 ->
  fst (validateRegisterForm data) = true ->
  registerLoading c = false ->
  registerData c
  = mkRegisterForm (p1 +:+ username data +:+ p2) (q1 +:+ email data +:+ q2)
      (password data) (confirmPassword data) ->
  fst (validateRegisterForm (registerData c)) = true
  /\ List.filter isRequest (invoke (handleRegister o) c).2
     = [requestRegister
          (mkRegisterForm (p1 +:+ username data +:+ p2)
             (q1 +:+ email data +:+ q2) (password data)
             (confirmPassword data))].
Proof.
  intros Hp1 Hp2 Hq1 Hq2 Hv Hl Hdata.
  assert (fst (validateRegisterForm (registerData c)) = true) as Hv'.
  { rewrite Hdata. apply validateRegisterForm_valid.
    apply validateRegisterForm_valid in Hv as (Hu & He & Hp & Hc).
    cbn [username email password confirmPassword].
    split; [| split; [| split]].
    - apply username_rule. apply username_rule in Hu.
      by rewrite trim_padding.
    - apply email_rule. apply email_rule in He. by rewrite trim_padding.
    - apply password_rule. by apply password_rule in Hp.
    - apply confirm_rule. by apply confirm_rule in Hc. }
  split; [exact Hv' |].
  rewrite (handleRegister_requests o c Hl), Hv', Hdata. reflexivity.
Qed.

Lemma padding_is_submitted_witness :
  (blank "  " /\ blank " " /\ blank "" /\ blank ""
   /\ fst (validateRegisterForm SignInSamples.annForm) = true
   /\ registerLoading (SignInSamples.registering SignInSamples.paddedForm)
      = false
   /\ registerData (SignInSamples.registering SignInSamples.paddedForm)
      = mkRegisterForm ("  " +:+ username SignInSamples.annForm +:+ " ")
          ("" +:+ email SignInSamples.annForm +:+ "")
          (password SignInSamples.annForm)
          (confirmPassword SignInSamples.annForm))
  /\ List.filter isRequest
       (invoke (handleRegister registerThrew)
          (SignInSamples.registering SignInSamples.paddedForm)).2
     = [requestRegister
          (mkRegisterForm ("  " +:+ username SignInSamples.annForm +:+ " ")
             ("" +:+ email SignInSamples.annForm +:+ "")
             (password SignInSamples.annForm)
             (confirmPassword SignInSamples.annForm))].
Proof.
  assert (blank "  ") as B1 by (by repeat constructor).
  assert (blank " ") as B2 by (by repeat constructor).
  assert (blank "") as B0 by constructor.
  assert (fst (validateRegisterForm SignInSamples.annForm) = true) as Hv
    by (vm_compute; reflexivity).
  split; [by repeat split |].
  exact (proj2 (padding_is_submitted "  " " " "" "" SignInSamples.annForm
                  registerThrew
                  (SignInSamples.registering SignInSamples.paddedForm)
                  B1 B2 B0 B0 Hv eq_refl eq_refl)).
Defined.

End RegistrationRules.

Section OneTimeCode.

Import LoginPage Rules.

(** X21.  One-time-code sign-in.  The verification request is sent, with
    the trimmed e-mail and the code, exactly when no sign-in is in flight,
    the trimmed e-mail has the accepted shape and the code has at least
    six characters; otherwise the state, the storage and the router stay
    as they are.  A session is started only by an ok response that carries
    both tokens non-empty: then the tokens are stored, the code is cleared,
    and the player is signed in under the first of the response's
    username, its user's username and the trimmed e-mail that is present;
    loading the page again comes back to the game exactly when that name
    is non-empty.  Any other outcome leaves storage and router untouched.
    The loading flag is cleared after every request. *)
Theorem otp_sign_in (o : OtpOutcome) (c : State) (ix : Index.State)
    (store : gmap string string) :
  let ready := negb (loginLoading c) && isOtpEmailValid c
               && negb (JS.length (otpCode c) <? 6) in
  let r := invoke (handleVerifyOtp o) c in
  let a := SignIn.performAll r.2 (ix, store) in
  List.filter isRequest r.2
  = (if ready then [requestVerifyOtp (trimmedOtpEmail c) (otpCode c)]
     else [])
  /\ (ready = false -> a = (ix, store) /\ r.1 = c)
  /\ (ready = true ->
      loginLoading r.1 = false
      /\ emailShape (trimmedOtpEmail c)
      /\ match o with
         | otpResponded true (Some d) =>
             match otp_access d, otp_refresh d with
             | Some access, Some refresh =>
                 if JS.truthy access && JS.truthy refresh then
                   let user :=
                     default (default (trimmedOtpEmail c)
                                (otp_user_username d)) (otp_username d) in
                   Index.view a.1 = Index.playing
                   /\ Index.username a.1 = user
                   /\ a.2 = <["banana-user" := user]>
                              (<["refreshToken" := refresh]>
                                 (<["accessToken" := access]> store))
                   /\ otpCode r.1 = "" /\ otpSent r.1 = false
                   /\ (Index.view (SignIn.reload a) = Index.playing
                       <-> user <> "")
                 else a = (ix, store)
             | _, _ => a = (ix, store)
             end
         | _ => a = (ix, store)
         end).
Proof.
  intros ready r a. subst a r ready.
  unfold invoke, handleVerifyOtp.
  destruct (loginLoading c) eqn:Hl; cbn [negb andb].
  { split; [reflexivity |]. split; [by intros _ | discriminate]. }
  destruct (isOtpEmailValid c) eqn:He; cbn [negb andb].
  2:{ split; [reflexivity |]. split; [by intros _ | discriminate]. }
  destruct (JS.length (otpCode c) <? 6) eqn:Hc; cbn [negb].
  { split; [reflexivity |]. split; [by intros _ | discriminate]. }
  assert (emailShape (trimmedOtpEmail c)) as Hshape.
  { unfold isOtpEmailValid in He. apply andb_prop in He as [_ He].
    by apply emailPattern_spec. }
  destruct o as [ok data |].
  2:{ split; [reflexivity |]. split; [discriminate |]. intros _.
      split; [by destruct c |]. by split. }
  destruct data as [d |]; cbn [mbind option_bind].
  2:{ rewrite andb_false_r. cbn [andb].
      split; [reflexivity |]. split; [discriminate |]. intros _.
      split; [by destruct c |]. split; [exact Hshape |]. by destruct ok. }
  destruct ok; cbn [andb].
  2:{ split; [reflexivity |]. split; [discriminate |]. intros _.
      split; [by destruct c |]. by split. }
  destruct (otp_access d) as [access |]; cbn [Storage.truthy andb].
  2:{ split; [reflexivity |]. split; [discriminate |]. intros _.
      split; [by destruct c |]. by split. }
  fold (JS.truthy access).
  destruct (otp_refresh d) as [refresh |]; cbn [Storage.truthy].
  2:{ rewrite andb_false_r.
      split; [reflexivity |]. split; [discriminate |]. intros _.
      split; [by destruct c |]. by split. }
  fold (JS.truthy refresh).
  destruct (JS.truthy access) eqn:Ha; cbn [andb].
  2:{ split; [reflexivity |]. split; [discriminate |]. intros _.
      split; [by destruct c |]. by split. }
  destruct (JS.truthy refresh) eqn:Hr.
  2:{ split; [reflexivity |]. split; [discriminate |]. intros _.
      split; [by destruct c |]. by split. }
  split; [reflexivity |]. split; [discriminate |]. intros _.
  split; [by destruct c |]. split; [exact Hshape |].
  cbv zeta. cbn [default].
  assert (match otp_username d with
          | Some u => u
          | None => match otp_user_username d with
                    | Some u => u
                    | None => trimmedOtpEmail c
                    end
          end
          = default (default (trimmedOtpEmail c) (otp_user_username d))
              (otp_username d)) as ->
    by (by destruct (otp_username d), (otp_user_username d)).
  generalize (default (default (trimmedOtpEmail c) (otp_user_username d))
                (otp_username d)).
  intros user.
  destruct (reload_after_login ix store access refresh user) as [H1 _].
  cbv zeta in H1.
  split; [by destruct ix |]. split; [by destruct ix |].
  split; [reflexivity |]. split; [by destruct c |]. split; [by destruct c |].
  change (SignIn.performAll _ (ix, store))
    with (Index.handleLogin user
            (ix, <["refreshToken" := refresh]>
                   (<["accessToken" := access]> store))).
  assert (SignIn.reload
            (Index.handleLogin user
               (ix, <["refreshToken" := refresh]>
                      (<["accessToken" := access]> store)))
          = SignIn.reload
              (ix, <["banana-user" := user]>
                     (<["refreshToken" := refresh]>
                        (<["accessToken" := access]> store)))) as ->
    by reflexivity.
  rewrite H1. apply js_truthy_true in Ha. split; [by intros [? _] |].
  intros Hu. split; [exact Hu | by left].
Qed.

Lemma otp_sign_in_witness :
  negb (loginLoading SignInSamples.otpReady)
  && isOtpEmailValid SignInSamples.otpReady
  && negb (JS.length (otpCode SignInSamples.otpReady) <? 6) = true
  /\ loginLoading
       (invoke (handleVerifyOtp
                  (otpResponded true
                     (Some (mkOtpBody (Some "a1") (Some "r1") None None
                              None None))))
          SignInSamples.otpReady).1 = false
  /\ emailShape (trimmedOtpEmail SignInSamples.otpReady).
Proof.
  assert (negb (loginLoading SignInSamples.otpReady)
          && isOtpEmailValid SignInSamples.otpReady
          && negb (JS.length (otpCode SignInSamples.otpReady) <? 6) = true)
    as Hready by (vm_compute; reflexivity).
  destruct (otp_sign_in
              (otpResponded true
                 (Some (mkOtpBody (Some "a1") (Some "r1") None None
                          None None)))
              SignInSamples.otpReady Index.initial ∅) as (_ & _ & Hrun).
  destruct (Hrun Hready) as (Hl & Hs & _).
  split; [exact Hready |]. split; [exact Hl | exact Hs].
Defined.

End OneTimeCode.
